(** * Anesthetic gas sensor frame decoder (gas_sensor.h / gas_sensor.c)

    A shallow embedding of the Phasein-compatible gas-analyzer decoder.
    The repository carries [gas_sensor.c] in two revisions:

    - the frame-parsing library ([Module ParseLib]): parsing only, no serial
      port; slow-data payload at byte 13, single-byte concentrations scaled
      by 10, waveform words decoded through [parse_concentration_2byte];
    - the serial revision ([Module SerialLib]): owns the serial handle and
      the receive buffer ([gas_sensor_read_frame]); slow-data payload at
      byte 14, single-byte concentrations taken as they are.

    Both are embedded below, each under the names of the C source. *)

From Stdlib Require Import ZArith List Bool Lia.
From Stdlib Require Import Strings.Byte.
Import ListNotations.
Open Scope Z_scope.

(* ====================================================================== *)
(** ** Machine integers *)
(* ====================================================================== *)

(** [uint8_t]: the value of a byte as an integer in 0..255. *)
Definition u8 (b : byte) : Z := Z.of_N (Byte.to_N b).

(** Conversion to [uint8_t] and [uint16_t] (reduction modulo 2^8, 2^16). *)
Definition to_u8 (z : Z) : Z := z mod 256.
Definition to_u16 (z : Z) : Z := z mod 65536.

(** [p[i]] for a pointer [p] into a byte array, the array being the list
    from [p] onwards. Reads past the end are undefined in C; no caller
    below makes one, and the embedding gives them 0. *)
Definition idx (p : list byte) (i : nat) : Z := u8 (nth i p x00).

(** [&p[k]]: the array from element [k] onwards. *)
Definition at_offset (p : list byte) (k : nat) : list byte := skipn k p.

(** [(x & mask) != 0] *)
Definition bit_set (x mask : Z) : bool := negb (Z.land x mask =? 0).

(* ====================================================================== *)
(** ** Single-precision floats

    The decoder only converts small integers to [float] and divides them by
    the literals [10.0f] and [100.0f]; every value it produces is zero or a
    normal binary32 number. Such a value is kept as [mant * 2^expo] with
    [mant = 0] or [2^23 <= |mant| < 2^24], which is unique, so that C's [==]
    on these values is Leibniz equality here. Infinities, NaN, subnormals
    and the negative zero are outside the range of the decoder. *)
(* ====================================================================== *)

Record f32 : Type := mk_f32 { mant : Z; expo : Z }.

Definition f32_zero : f32 := mk_f32 0 0.

(** Round the positive rational [a / d] to the nearest binary32 value,
    ties to even (the IEEE-754 default rounding mode of C). *)
Definition round_pos (a d : Z) : f32 :=
  let l := Z.log2 a - Z.log2 d in
  let fl := if a * 2 ^ Z.max 0 (- l) <? d * 2 ^ Z.max 0 l then l - 1 else l in
  let e := fl - 23 in
  let num := a * 2 ^ Z.max 0 (- e) in
  let den := d * 2 ^ Z.max 0 e in
  let q := num / den in
  let r := num mod den in
  let q' := if (den <? 2 * r) || ((den =? 2 * r) && Z.odd q) then q + 1 else q in
  if q' =? 2 ^ 24 then mk_f32 (2 ^ 23) (e + 1) else mk_f32 q' e.

(** The binary32 value nearest to [n / d], for [d > 0]. *)
Definition round_quot (n d : Z) : f32 :=
  if n =? 0 then f32_zero
  else if n <? 0 then
         let r := round_pos (- n) d in mk_f32 (- mant r) (expo r)
       else round_pos n d.

(** [(float)n] for an integer [n]. *)
Definition f32_of_int (n : Z) : f32 := round_quot n 1.

(** [x / y] on floats, for a positive divisor. *)
Definition f32_div (x y : f32) : f32 :=
  let s := expo x - expo y in
  round_quot (mant x * 2 ^ Z.max 0 s) (mant y * 2 ^ Z.max 0 (- s)).

(** The exact rational value [mant * 2^expo], as a fraction. *)
Definition f32_num (x : f32) : Z := mant x * 2 ^ Z.max 0 (expo x).
Definition f32_den (x : f32) : Z := 2 ^ Z.max 0 (- expo x).

(* ====================================================================== *)
(** ** gas_sensor.h: constants *)
(* ====================================================================== *)

Definition GAS_SENSOR_OK : Z := 0.
Definition GAS_SENSOR_ERR_INVALID_FRAME : Z := -1.
Definition GAS_SENSOR_ERR_CHECKSUM : Z := -2.
Definition GAS_SENSOR_ERR_SERIAL_OPEN : Z := -3.
Definition GAS_SENSOR_ERR_SERIAL_READ : Z := -4.
Definition GAS_SENSOR_ERR_SERIAL_WRITE : Z := -5.
Definition GAS_SENSOR_ERR_CALLBACK : Z := -6.
Definition GAS_SENSOR_ERR_NULL_PARAM : Z := -7.
Definition GAS_SENSOR_ERR_MEMORY : Z := -8.

Definition GAS_SENSOR_FRAME_SIZE : Z := 21.
Definition GAS_SENSOR_FLAG1 : Z := 0xAA.
Definition GAS_SENSOR_FLAG2 : Z := 0x55.
Definition GAS_SENSOR_FRAME_ID_MAX : Z := 10.
Definition GAS_SENSOR_NO_DATA : Z := 0xFF.

(** [-1.0f] *)
Definition GAS_SENSOR_CONC_INVALID : f32 := f32_of_int (-1).

(* ====================================================================== *)
(** ** gas_sensor.h: data structures

    The enumerations [gas_sensor_mode_t] and [gas_agent_id_t] are stored
    as their integer value: the decoder casts raw bytes into them, so that
    values without an enumerator occur. *)
(* ====================================================================== *)

Record gas_sensor_waveform_t : Type := mk_waveform {
  wf_co2 : f32; wf_n2o : f32; wf_aa1 : f32; wf_aa2 : f32; wf_o2 : f32 }.

Record gas_sensor_status_t : Type := mk_status {
  breath_detected : bool;
  apnea : bool;
  o2_low : bool;
  o2_replace : bool;
  check_adapter : bool;
  accuracy_out_of_range : bool;
  sensor_error : bool;
  o2_calibration_required : bool }.

Record gas_sensor_insp_vals_t : Type := mk_insp_vals {
  insp_co2 : f32; insp_n2o : f32; insp_aa1 : f32; insp_aa2 : f32; insp_o2 : f32 }.

Record gas_sensor_exp_vals_t : Type := mk_exp_vals {
  exp_co2 : f32; exp_n2o : f32; exp_aa1 : f32; exp_aa2 : f32; exp_o2 : f32 }.

Record gas_sensor_mom_vals_t : Type := mk_mom_vals {
  mom_co2 : f32; mom_n2o : f32; mom_aa1 : f32; mom_aa2 : f32; mom_o2 : f32 }.

Record gas_sensor_gen_vals_t : Type := mk_gen_vals {
  resp_rate : Z;
  time_since_breath : Z;
  primary_agent : Z;
  secondary_agent : Z;
  atm_pressure : f32 }.

Record gas_sensor_error_reg_t : Type := mk_error_reg {
  sw_error : bool; hw_error : bool; motor_fail : bool; uncalibrated : bool }.

Record gas_sensor_adapter_reg_t : Type := mk_adapter_reg {
  replace_adapter : bool; no_adapter : bool; o2_clogged : bool }.

Record gas_sensor_data_valid_reg_t : Type := mk_data_valid_reg {
  co2_out_of_range : bool;
  n2o_out_of_range : bool;
  agent_out_of_range : bool;
  o2_out_of_range : bool;
  temp_out_of_range : bool;
  pressure_out_of_range : bool;
  zero_calibration_required : bool }.

Record gas_sensor_sensor_regs_t : Type := mk_sensor_regs {
  mode : Z;
  error : gas_sensor_error_reg_t;
  adapter : gas_sensor_adapter_reg_t;
  data_valid : gas_sensor_data_valid_reg_t }.

Record gas_sensor_config_data_t : Type := mk_config_data {
  o2_fitted : bool;
  co2_fitted : bool;
  n2o_fitted : bool;
  halothane_fitted : bool;
  enflurane_fitted : bool;
  isoflurane_fitted : bool;
  sevoflurane_fitted : bool;
  desflurane_fitted : bool;
  hw_revision : Z;
  sw_revision : Z;
  id_config : bool;
  comm_protocol_rev : Z }.

Record gas_sensor_service_status_t : Type := mk_service_status {
  zero_disabled : bool;
  zero_in_progress : bool;
  span_calibration_error : bool;
  span_calibration_in_progress : bool }.

Record gas_sensor_service_data_t : Type := mk_service_data {
  serial_number : Z;
  status : gas_sensor_service_status_t }.

Record gas_sensor_slow_data_t : Type := mk_slow_data {
  last_frame_id : Z;
  insp_vals : gas_sensor_insp_vals_t;
  exp_vals : gas_sensor_exp_vals_t;
  mom_vals : gas_sensor_mom_vals_t;
  gen_vals : gas_sensor_gen_vals_t;
  sensor_regs : gas_sensor_sensor_regs_t;
  config_data : gas_sensor_config_data_t;
  service_data : gas_sensor_service_data_t }.

(** Assignments through [slow_data->...]: one setter per member. *)
Definition set_last_frame_id (v : Z) (s : gas_sensor_slow_data_t) :=
  mk_slow_data v (insp_vals s) (exp_vals s) (mom_vals s) (gen_vals s)
               (sensor_regs s) (config_data s) (service_data s).
Definition set_insp_vals (v : gas_sensor_insp_vals_t) (s : gas_sensor_slow_data_t) :=
  mk_slow_data (last_frame_id s) v (exp_vals s) (mom_vals s) (gen_vals s)
               (sensor_regs s) (config_data s) (service_data s).
Definition set_exp_vals (v : gas_sensor_exp_vals_t) (s : gas_sensor_slow_data_t) :=
  mk_slow_data (last_frame_id s) (insp_vals s) v (mom_vals s) (gen_vals s)
               (sensor_regs s) (config_data s) (service_data s).
Definition set_mom_vals (v : gas_sensor_mom_vals_t) (s : gas_sensor_slow_data_t) :=
  mk_slow_data (last_frame_id s) (insp_vals s) (exp_vals s) v (gen_vals s)
               (sensor_regs s) (config_data s) (service_data s).
Definition set_gen_vals (v : gas_sensor_gen_vals_t) (s : gas_sensor_slow_data_t) :=
  mk_slow_data (last_frame_id s) (insp_vals s) (exp_vals s) (mom_vals s) v
               (sensor_regs s) (config_data s) (service_data s).
Definition set_sensor_regs (v : gas_sensor_sensor_regs_t) (s : gas_sensor_slow_data_t) :=
  mk_slow_data (last_frame_id s) (insp_vals s) (exp_vals s) (mom_vals s) (gen_vals s)
               v (config_data s) (service_data s).
Definition set_config_data (v : gas_sensor_config_data_t) (s : gas_sensor_slow_data_t) :=
  mk_slow_data (last_frame_id s) (insp_vals s) (exp_vals s) (mom_vals s) (gen_vals s)
               (sensor_regs s) v (service_data s).
Definition set_service_data (v : gas_sensor_service_data_t) (s : gas_sensor_slow_data_t) :=
  mk_slow_data (last_frame_id s) (insp_vals s) (exp_vals s) (mom_vals s) (gen_vals s)
               (sensor_regs s) (config_data s) v.

(** [memset(slow_data, 0, sizeof ...)]: every member zero, false or +0.0f. *)
Definition slow_data_zero : gas_sensor_slow_data_t :=
  mk_slow_data 0
    (mk_insp_vals f32_zero f32_zero f32_zero f32_zero f32_zero)
    (mk_exp_vals f32_zero f32_zero f32_zero f32_zero f32_zero)
    (mk_mom_vals f32_zero f32_zero f32_zero f32_zero f32_zero)
    (mk_gen_vals 0 0 0 0 f32_zero)
    (mk_sensor_regs 0 (mk_error_reg false false false false)
                    (mk_adapter_reg false false false)
                    (mk_data_valid_reg false false false false false false false))
    (mk_config_data false false false false false false false false 0 0 false 0)
    (mk_service_data 0 (mk_service_status false false false false)).

(** What [gas_sensor_parse_frame] leaves behind: its return code and the
    three caller-supplied structures. A [NULL] pointer is [None]; a pointer
    to a structure is [Some] of the structure's content. *)
Record parse_result : Type := mk_parse_result {
  ret : Z;
  out_slow_data : option gas_sensor_slow_data_t;
  out_waveform : option gas_sensor_waveform_t;
  out_status : option gas_sensor_status_t }.

(** The status byte (frame byte 3), decoded the same way in both revisions. *)
Definition decode_status (status_byte : Z) : gas_sensor_status_t :=
  mk_status (bit_set status_byte 0x01) (bit_set status_byte 0x02)
            (bit_set status_byte 0x04) (bit_set status_byte 0x08)
            (bit_set status_byte 0x10) (bit_set status_byte 0x20)
            (bit_set status_byte 0x40) (bit_set status_byte 0x80).

(* ====================================================================== *)
(** ** gas_sensor.c, frame-parsing library revision *)
(* ====================================================================== *)

Module ParseLib.

(** [calculate_checksum]: the loop [for (i = 2; i < 20; i++) sum += frame_data[i]]
    over a [uint16_t] accumulator, then [(~sum + 1) & 0xFF], the complement
    being taken on the accumulator promoted to [int]. *)
Definition calculate_checksum (frame_data : list byte) : Z :=
  let sum := fold_left (fun sum i => to_u16 (sum + idx frame_data i)) (seq 2 18) 0 in
  to_u8 (Z.land (Z.lnot sum + 1) 0xFF).

Definition parse_concentration (raw_value : Z) : f32 :=
  if raw_value =? GAS_SENSOR_NO_DATA then GAS_SENSOR_CONC_INVALID
  else f32_div (f32_of_int raw_value) (f32_of_int 10).

Definition parse_concentration_2byte (raw_value : Z) : f32 :=
  if raw_value =? 0xFFFF then GAS_SENSOR_CONC_INVALID
  else f32_div (f32_of_int raw_value) (f32_of_int 100).

Definition parse_uint16_be (data : list byte) : Z :=
  to_u16 (Z.lor (Z.shiftl (to_u16 (idx data 0)) 8) (idx data 1)).

Definition parse_insp_vals (slow_data_bytes : list byte) : gas_sensor_insp_vals_t :=
  mk_insp_vals (parse_concentration (idx slow_data_bytes 0))
               (parse_concentration (idx slow_data_bytes 1))
               (parse_concentration (idx slow_data_bytes 2))
               (parse_concentration (idx slow_data_bytes 3))
               (parse_concentration (idx slow_data_bytes 4)).

Definition parse_exp_vals (slow_data_bytes : list byte) : gas_sensor_exp_vals_t :=
  mk_exp_vals (parse_concentration (idx slow_data_bytes 0))
              (parse_concentration (idx slow_data_bytes 1))
              (parse_concentration (idx slow_data_bytes 2))
              (parse_concentration (idx slow_data_bytes 3))
              (parse_concentration (idx slow_data_bytes 4)).

Definition parse_mom_vals (slow_data_bytes : list byte) : gas_sensor_mom_vals_t :=
  mk_mom_vals (parse_concentration (idx slow_data_bytes 0))
              (parse_concentration (idx slow_data_bytes 1))
              (parse_concentration (idx slow_data_bytes 2))
              (parse_concentration (idx slow_data_bytes 3))
              (parse_concentration (idx slow_data_bytes 4)).

Definition parse_gen_vals (slow_data_bytes : list byte) : gas_sensor_gen_vals_t :=
  let pressure_raw := parse_uint16_be (at_offset slow_data_bytes 4) in
  mk_gen_vals (idx slow_data_bytes 0)
              (idx slow_data_bytes 1)
              (idx slow_data_bytes 2)
              (idx slow_data_bytes 3)
              (if pressure_raw =? 0xFFFF then GAS_SENSOR_CONC_INVALID
               else f32_div (f32_of_int pressure_raw) (f32_of_int 100)).

Definition parse_sensor_regs (slow_data_bytes : list byte) : gas_sensor_sensor_regs_t :=
  let error_byte := idx slow_data_bytes 1 in
  let adapter_byte := idx slow_data_bytes 2 in
  let valid_byte := idx slow_data_bytes 3 in
  mk_sensor_regs
    (idx slow_data_bytes 0)
    (mk_error_reg (bit_set error_byte 0x01) (bit_set error_byte 0x02)
                  (bit_set error_byte 0x04) (bit_set error_byte 0x08))
    (mk_adapter_reg (bit_set adapter_byte 0x01) (bit_set adapter_byte 0x02)
                    (bit_set adapter_byte 0x04))
    (mk_data_valid_reg (bit_set valid_byte 0x01) (bit_set valid_byte 0x02)
                       (bit_set valid_byte 0x04) (bit_set valid_byte 0x08)
                       (bit_set valid_byte 0x10) (bit_set valid_byte 0x20)
                       (bit_set valid_byte 0x40)).

Definition parse_config_data (slow_data_bytes : list byte) : gas_sensor_config_data_t :=
  let fitted_byte := idx slow_data_bytes 0 in
  mk_config_data
    (bit_set fitted_byte 0x01) (bit_set fitted_byte 0x02)
    (bit_set fitted_byte 0x04) (bit_set fitted_byte 0x08)
    (bit_set fitted_byte 0x10) (bit_set fitted_byte 0x20)
    (bit_set fitted_byte 0x40) (bit_set fitted_byte 0x80)
    (parse_uint16_be (at_offset slow_data_bytes 2))
    (parse_uint16_be (at_offset slow_data_bytes 4))
    false
    0.

Definition parse_service_data (slow_data_bytes : list byte) : gas_sensor_service_data_t :=
  let status_byte := idx slow_data_bytes 2 in
  mk_service_data
    (parse_uint16_be (at_offset slow_data_bytes 0))
    (mk_service_status (bit_set status_byte 0x01) (bit_set status_byte 0x02)
                       (bit_set status_byte 0x04) (bit_set status_byte 0x08)).

Definition gas_sensor_verify_checksum (frame_data : option (list byte)) : bool :=
  match frame_data with
  | None => false
  | Some fd =>
      if negb (idx fd 0 =? GAS_SENSOR_FLAG1) || negb (idx fd 1 =? GAS_SENSOR_FLAG2)
      then false
      else
        let calculated := calculate_checksum fd in
        let frame_checksum := idx fd 20 in
        calculated =? frame_checksum
  end.

(** The five waveform words at bytes 4..13. *)
Definition parse_waveform (frame_data : list byte) : gas_sensor_waveform_t :=
  mk_waveform
    (parse_concentration_2byte (parse_uint16_be (at_offset frame_data 4)))
    (parse_concentration_2byte (parse_uint16_be (at_offset frame_data 6)))
    (parse_concentration_2byte (parse_uint16_be (at_offset frame_data 8)))
    (parse_concentration_2byte (parse_uint16_be (at_offset frame_data 10)))
    (parse_concentration_2byte (parse_uint16_be (at_offset frame_data 12))).

(** The [switch (frame_id)] of [gas_sensor_parse_frame]: cases 0..6 fill
    one member, cases 7..9 break, and there is no default label. *)
Definition parse_slow_switch (frame_id : Z) (slow_data_bytes : list byte)
    (sd : gas_sensor_slow_data_t) : gas_sensor_slow_data_t :=
  match frame_id with
  | 0 => set_insp_vals (parse_insp_vals slow_data_bytes) sd
  | 1 => set_exp_vals (parse_exp_vals slow_data_bytes) sd
  | 2 => set_mom_vals (parse_mom_vals slow_data_bytes) sd
  | 3 => set_gen_vals (parse_gen_vals slow_data_bytes) sd
  | 4 => set_sensor_regs (parse_sensor_regs slow_data_bytes) sd
  | 5 => set_config_data (parse_config_data slow_data_bytes) sd
  | 6 => set_service_data (parse_service_data slow_data_bytes) sd
  | 7 | 8 | 9 => sd
  | _ => sd
  end.

Definition gas_sensor_parse_frame
    (frame_data : option (list byte))
    (slow_data : option gas_sensor_slow_data_t)
    (waveform : option gas_sensor_waveform_t)
    (status : option gas_sensor_status_t) : parse_result :=
  match frame_data with
  | None => mk_parse_result GAS_SENSOR_ERR_NULL_PARAM slow_data waveform status
  | Some fd =>
      if negb (idx fd 0 =? GAS_SENSOR_FLAG1) || negb (idx fd 1 =? GAS_SENSOR_FLAG2)
      then mk_parse_result GAS_SENSOR_ERR_INVALID_FRAME slow_data waveform status
      else if negb (gas_sensor_verify_checksum frame_data)
      then mk_parse_result GAS_SENSOR_ERR_CHECKSUM slow_data waveform status
      else
        let waveform' :=
          match waveform with
          | Some _ => Some (parse_waveform fd)
          | None => None
          end in
        let status' :=
          match status with
          | Some _ => Some (decode_status (idx fd 3))
          | None => None
          end in
        match slow_data with
        | Some sd =>
            let frame_id := idx fd 2 in
            if frame_id >=? GAS_SENSOR_FRAME_ID_MAX
            then mk_parse_result GAS_SENSOR_ERR_INVALID_FRAME (Some sd) waveform' status'
            else
              let sd1 := set_last_frame_id frame_id sd in
              let slow_data_bytes := at_offset fd 13 in
              mk_parse_result GAS_SENSOR_OK
                (Some (parse_slow_switch frame_id slow_data_bytes sd1))
                waveform' status'
        | None => mk_parse_result GAS_SENSOR_OK None waveform' status'
        end
  end.

(** [gas_sensor_init_slow_data]: [memset] to zero, then the float members
    of the first four records are set to the invalid marker. *)
Definition gas_sensor_init_slow_data
    (slow_data : option gas_sensor_slow_data_t) : option gas_sensor_slow_data_t :=
  match slow_data with
  | None => None
  | Some _ =>
      let inv := GAS_SENSOR_CONC_INVALID in
      let s := slow_data_zero in
      let s := set_insp_vals (mk_insp_vals inv inv inv inv inv) s in
      let s := set_exp_vals (mk_exp_vals inv inv inv inv inv) s in
      let s := set_mom_vals (mk_mom_vals inv inv inv inv inv) s in
      let g := gen_vals s in
      let s := set_gen_vals (mk_gen_vals (resp_rate g) (time_since_breath g)
                                         (primary_agent g) (secondary_agent g) inv) s in
      Some s
  end.

Definition gas_sensor_parse_concentration (raw_value : Z) : f32 :=
  parse_concentration raw_value.

End ParseLib.

(* ====================================================================== *)
(** ** gas_sensor.c, serial revision *)
(* ====================================================================== *)

Module SerialLib.

Definition calculate_checksum (frame_data : list byte) : Z :=
  let sum := fold_left (fun sum i => to_u16 (sum + idx frame_data i)) (seq 2 18) 0 in
  to_u8 (Z.land (Z.lnot sum + 1) 0xFF).

(** Here the raw byte is the percentage: [(float)raw_value]. *)
Definition parse_concentration (raw_value : Z) : f32 :=
  if raw_value =? GAS_SENSOR_NO_DATA then GAS_SENSOR_CONC_INVALID
  else f32_of_int raw_value.

Definition parse_uint16_be (data : list byte) : Z :=
  to_u16 (Z.lor (Z.shiftl (to_u16 (idx data 0)) 8) (idx data 1)).

Definition parse_insp_vals (slow_data : list byte) : gas_sensor_insp_vals_t :=
  mk_insp_vals (parse_concentration (idx slow_data 0))
               (parse_concentration (idx slow_data 1))
               (parse_concentration (idx slow_data 2))
               (parse_concentration (idx slow_data 3))
               (parse_concentration (idx slow_data 4)).

Definition parse_exp_vals (slow_data : list byte) : gas_sensor_exp_vals_t :=
  mk_exp_vals (parse_concentration (idx slow_data 0))
              (parse_concentration (idx slow_data 1))
              (parse_concentration (idx slow_data 2))
              (parse_concentration (idx slow_data 3))
              (parse_concentration (idx slow_data 4)).

Definition parse_mom_vals (slow_data : list byte) : gas_sensor_mom_vals_t :=
  mk_mom_vals (parse_concentration (idx slow_data 0))
              (parse_concentration (idx slow_data 1))
              (parse_concentration (idx slow_data 2))
              (parse_concentration (idx slow_data 3))
              (parse_concentration (idx slow_data 4)).

Definition parse_gen_vals (slow_data : list byte) : gas_sensor_gen_vals_t :=
  mk_gen_vals
    (if idx slow_data 0 =? GAS_SENSOR_NO_DATA then GAS_SENSOR_NO_DATA else idx slow_data 0)
    (if idx slow_data 1 =? GAS_SENSOR_NO_DATA then GAS_SENSOR_NO_DATA else idx slow_data 1)
    (if idx slow_data 2 =? GAS_SENSOR_NO_DATA then 0 else idx slow_data 2)
    (if idx slow_data 3 =? GAS_SENSOR_NO_DATA then 0 else idx slow_data 3)
    (if (idx slow_data 4 =? GAS_SENSOR_NO_DATA) || (idx slow_data 5 =? GAS_SENSOR_NO_DATA)
     then GAS_SENSOR_CONC_INVALID
     else
       let raw_pressure := parse_uint16_be (at_offset slow_data 4) in
       f32_div (f32_of_int raw_pressure) (f32_of_int 10)).

Definition parse_sensor_regs (slow_data : list byte) : gas_sensor_sensor_regs_t :=
  mk_sensor_regs
    (Z.land (idx slow_data 0) 0x07)
    (mk_error_reg (bit_set (idx slow_data 2) 0x01) (bit_set (idx slow_data 2) 0x02)
                  (bit_set (idx slow_data 2) 0x04) (bit_set (idx slow_data 2) 0x08))
    (mk_adapter_reg (bit_set (idx slow_data 3) 0x01) (bit_set (idx slow_data 3) 0x02)
                    (bit_set (idx slow_data 3) 0x04))
    (mk_data_valid_reg (bit_set (idx slow_data 4) 0x01) (bit_set (idx slow_data 4) 0x02)
                       (bit_set (idx slow_data 4) 0x04) (bit_set (idx slow_data 4) 0x08)
                       (bit_set (idx slow_data 4) 0x10) (bit_set (idx slow_data 4) 0x20)
                       (bit_set (idx slow_data 4) 0x40)).

Definition parse_config_data (slow_data : list byte) : gas_sensor_config_data_t :=
  mk_config_data
    (bit_set (idx slow_data 0) 0x01) (bit_set (idx slow_data 0) 0x02)
    (bit_set (idx slow_data 0) 0x04) (bit_set (idx slow_data 0) 0x08)
    (bit_set (idx slow_data 0) 0x10) (bit_set (idx slow_data 0) 0x20)
    (bit_set (idx slow_data 0) 0x40) (bit_set (idx slow_data 0) 0x80)
    (idx slow_data 1)
    (parse_uint16_be (at_offset slow_data 2))
    (bit_set (idx slow_data 5) 0x01)
    (to_u8 (Z.land (Z.shiftr (idx slow_data 5) 1) 0x7F)).

Definition parse_service_data (slow_data : list byte) : gas_sensor_service_data_t :=
  mk_service_data
    (parse_uint16_be slow_data)
    (mk_service_status (bit_set (idx slow_data 2) 0x01) (bit_set (idx slow_data 2) 0x02)
                       (bit_set (idx slow_data 2) 0x04) (bit_set (idx slow_data 2) 0x08)).

Definition gas_sensor_verify_checksum (frame_data : option (list byte)) : bool :=
  match frame_data with
  | None => false
  | Some fd =>
      let expected := idx fd 20 in
      let calculated := calculate_checksum fd in
      expected =? calculated
  end.

(** The five waveform words at [wave = &frame_data[4]], each divided by
    [100.0f] with no test for a marker value. *)
Definition parse_waveform (frame_data : list byte) : gas_sensor_waveform_t :=
  let wave := at_offset frame_data 4 in
  mk_waveform
    (f32_div (f32_of_int (parse_uint16_be (at_offset wave 0))) (f32_of_int 100))
    (f32_div (f32_of_int (parse_uint16_be (at_offset wave 2))) (f32_of_int 100))
    (f32_div (f32_of_int (parse_uint16_be (at_offset wave 4))) (f32_of_int 100))
    (f32_div (f32_of_int (parse_uint16_be (at_offset wave 6))) (f32_of_int 100))
    (f32_div (f32_of_int (parse_uint16_be (at_offset wave 8))) (f32_of_int 100)).

(** The [switch (frame_id)]: [Some] of the updated structure when a case
    label matches (the cases 7..9 only break), [None] for the default label,
    which returns [GAS_SENSOR_ERR_INVALID_FRAME]. *)
Definition parse_slow_switch (frame_id : Z) (slow : list byte)
    (sd : gas_sensor_slow_data_t) : option gas_sensor_slow_data_t :=
  match frame_id with
  | 0 => Some (set_insp_vals (parse_insp_vals slow) sd)
  | 1 => Some (set_exp_vals (parse_exp_vals slow) sd)
  | 2 => Some (set_mom_vals (parse_mom_vals slow) sd)
  | 3 => Some (set_gen_vals (parse_gen_vals slow) sd)
  | 4 => Some (set_sensor_regs (parse_sensor_regs slow) sd)
  | 5 => Some (set_config_data (parse_config_data slow) sd)
  | 6 => Some (set_service_data (parse_service_data slow) sd)
  | 7 | 8 | 9 => Some sd
  | _ => None
  end.

Definition gas_sensor_parse_frame
    (frame_data : option (list byte))
    (slow_data : option gas_sensor_slow_data_t)
    (waveform : option gas_sensor_waveform_t)
    (status : option gas_sensor_status_t) : parse_result :=
  match frame_data with
  | None => mk_parse_result GAS_SENSOR_ERR_NULL_PARAM slow_data waveform status
  | Some fd =>
      if negb (idx fd 0 =? GAS_SENSOR_FLAG1) || negb (idx fd 1 =? GAS_SENSOR_FLAG2)
      then mk_parse_result GAS_SENSOR_ERR_INVALID_FRAME slow_data waveform status
      else if negb (gas_sensor_verify_checksum frame_data)
      then mk_parse_result GAS_SENSOR_ERR_CHECKSUM slow_data waveform status
      else
        let frame_id := idx fd 2 in
        let status_byte := idx fd 3 in
        let waveform' :=
          match waveform with
          | Some _ => Some (parse_waveform fd)
          | None => None
          end in
        let status' :=
          match status with
          | Some _ => Some (decode_status status_byte)
          | None => None
          end in
        match slow_data with
        | Some sd =>
            let slow := at_offset fd 14 in
            let sd1 := set_last_frame_id frame_id sd in
            match parse_slow_switch frame_id slow sd1 with
            | Some sd2 => mk_parse_result GAS_SENSOR_OK (Some sd2) waveform' status'
            | None => mk_parse_result GAS_SENSOR_ERR_INVALID_FRAME (Some sd1) waveform' status'
            end
        | None => mk_parse_result GAS_SENSOR_OK None waveform' status'
        end
  end.

(** [gas_sensor_init_slow_data]: [memset] to zero, [last_frame_id = 0xFF],
    the concentrations and the pressure invalid, the two small integers
    of the general values [GAS_SENSOR_NO_DATA]. *)
Definition gas_sensor_init_slow_data
    (slow_data : option gas_sensor_slow_data_t) : option gas_sensor_slow_data_t :=
  match slow_data with
  | None => None
  | Some _ =>
      let inv := GAS_SENSOR_CONC_INVALID in
      let s := slow_data_zero in
      let s := set_last_frame_id 0xFF s in
      let s := set_insp_vals (mk_insp_vals inv inv inv inv inv) s in
      let s := set_exp_vals (mk_exp_vals inv inv inv inv inv) s in
      let s := set_mom_vals (mk_mom_vals inv inv inv inv inv) s in
      let g := gen_vals s in
      let s := set_gen_vals (mk_gen_vals GAS_SENSOR_NO_DATA GAS_SENSOR_NO_DATA
                                         (primary_agent g) (secondary_agent g) inv) s in
      Some s
  end.

Definition gas_sensor_parse_concentration (raw_value : Z) : f32 :=
  parse_concentration raw_value.

(** *** The sensor handle and the receive buffer *)

(** What the registered callback leaves behind. It receives non-const
    pointers to the handle's slow data and to the caller's waveform and
    status, so it may write to all three. *)
Record callback_result : Type := mk_callback_result {
  cb_ret : Z;
  cb_slow_data : gas_sensor_slow_data_t;
  cb_waveform : option gas_sensor_waveform_t;
  cb_status : option gas_sensor_status_t }.

Definition gas_sensor_callback_t : Type :=
  gas_sensor_slow_data_t -> option gas_sensor_waveform_t ->
  option gas_sensor_status_t -> callback_result.

(** [struct gas_sensor_handle]. [rx_buffer] is the whole 256-byte array,
    stale bytes beyond [rx_buffer_len] included; [callback] is [None] for a
    [NULL] function pointer. *)
Record gas_sensor_handle : Type := mk_handle {
  serial_fd : Z;
  callback : option gas_sensor_callback_t;
  slow_data : gas_sensor_slow_data_t;
  rx_buffer : list byte;
  rx_buffer_len : Z }.

Definition set_rx (buf : list byte) (len : Z) (h : gas_sensor_handle) : gas_sensor_handle :=
  mk_handle (serial_fd h) (callback h) (slow_data h) buf len.
Definition set_slow_data (sd : gas_sensor_slow_data_t) (h : gas_sensor_handle) : gas_sensor_handle :=
  mk_handle (serial_fd h) (callback h) sd (rx_buffer h) (rx_buffer_len h).

(** [sizeof(h->rx_buffer)] and [sizeof(temp_buffer)]. *)
Definition RX_BUFFER_SIZE : Z := 256.
Definition TEMP_BUFFER_SIZE : nat := 128.

(** [memcpy(&arr[off], src, n)] and [memmove(arr, &arr[k], n)]. Both stay
    inside the array whenever [off + n] is at most its length; a longer
    copy, undefined in C, would lengthen the list here. *)
Definition memcpy_at (arr : list byte) (off : nat) (src : list byte) (n : nat) : list byte :=
  firstn off arr ++ firstn n src ++ skipn (off + n) arr.
Definition memmove_front (arr : list byte) (k n : nat) : list byte :=
  memcpy_at arr 0 (skipn k arr) n.

(** What the port hands over to one call: a failed [select]/[read]
    ([ReadFile] on Windows), or the bytes it has ready, of which
    [read(fd, temp_buffer, sizeof(temp_buffer))] takes at most 128. *)
Inductive serial_read : Type :=
| ReadError
| ReadReady (pending : list byte).

(** The loop [for (i = 0; i < rx_buffer_len - 1; i++)] looking for
    [0xAA 0x55], with [n] iterations left from index [i]; [-1] when none. *)
Fixpoint sync_scan (rx : list byte) (i n : nat) : Z :=
  match n with
  | O => -1
  | S n' =>
      if (idx rx i =? GAS_SENSOR_FLAG1) && (idx rx (S i) =? GAS_SENSOR_FLAG2)
      then Z.of_nat i
      else sync_scan rx (S i) n'
  end.

Record read_result : Type := mk_read_result {
  rr_ret : Z;
  rr_handle : option gas_sensor_handle;
  rr_slow_data : option gas_sensor_slow_data_t;
  rr_waveform : option gas_sensor_waveform_t;
  rr_status : option gas_sensor_status_t }.

(** The first stage of [gas_sensor_read_frame]: append the new bytes,
    after a reset of the fill length when they would not fit. *)
Definition append_rx (h : gas_sensor_handle) (temp_buffer : list byte) : gas_sensor_handle :=
  let bytes_read := Z.of_nat (length temp_buffer) in
  if bytes_read >? 0 then
    let len0 := if rx_buffer_len h + bytes_read >? RX_BUFFER_SIZE then 0 else rx_buffer_len h in
    set_rx (memcpy_at (rx_buffer h) (Z.to_nat len0) temp_buffer (Z.to_nat bytes_read))
           (len0 + bytes_read) h
  else h.

(** [memmove(h->rx_buffer, &h->rx_buffer[k], h->rx_buffer_len - k);
     h->rx_buffer_len -= k;], the statement pair behind each of the three
    removals (one byte, the bytes before the sync pattern, one frame). *)
Definition drop_front (k : Z) (h : gas_sensor_handle) : gas_sensor_handle :=
  set_rx (memmove_front (rx_buffer h) (Z.to_nat k) (Z.to_nat (rx_buffer_len h - k)))
         (rx_buffer_len h - k) h.

Definition gas_sensor_read_frame
    (handle : option gas_sensor_handle)
    (io : serial_read)
    (slow_data : option gas_sensor_slow_data_t)
    (waveform : option gas_sensor_waveform_t)
    (status : option gas_sensor_status_t) : read_result :=
  match handle with
  | None => mk_read_result GAS_SENSOR_ERR_NULL_PARAM None slow_data waveform status
  | Some h =>
    match io with
    | ReadError => mk_read_result GAS_SENSOR_ERR_SERIAL_READ (Some h) slow_data waveform status
    | ReadReady pending =>
      let temp_buffer := firstn TEMP_BUFFER_SIZE pending in
      let h := append_rx h temp_buffer in
      let frame_start := sync_scan (rx_buffer h) 0 (Z.to_nat (rx_buffer_len h - 1)) in
      if frame_start =? -1 then
        if rx_buffer_len h <? 2
        then mk_read_result GAS_SENSOR_ERR_SERIAL_READ (Some h) slow_data waveform status
        else mk_read_result GAS_SENSOR_ERR_INVALID_FRAME (Some (drop_front 1 h))
                            slow_data waveform status
      else
        let h := if frame_start >? 0 then drop_front frame_start h else h in
        if rx_buffer_len h <? GAS_SENSOR_FRAME_SIZE
        then mk_read_result GAS_SENSOR_ERR_SERIAL_READ (Some h) slow_data waveform status
        else
          let pr := gas_sensor_parse_frame (Some (rx_buffer h)) (Some (SerialLib.slow_data h))
                                           waveform status in
          let h :=
            match out_slow_data pr with
            | Some sd => set_slow_data sd h
            | None => h
            end in
          let result := ret pr in
          let h :=
            if (result =? GAS_SENSOR_OK) || (result =? GAS_SENSOR_ERR_CHECKSUM)
            then drop_front GAS_SENSOR_FRAME_SIZE h
            else h in
          if negb (result =? GAS_SENSOR_OK)
          then mk_read_result result (Some h) slow_data (out_waveform pr) (out_status pr)
          else
            let slow_data' :=
              match slow_data with
              | Some _ => Some (SerialLib.slow_data h)
              | None => None
              end in
            match callback h with
            | Some cb =>
                let r := cb (SerialLib.slow_data h) (out_waveform pr) (out_status pr) in
                let h := set_slow_data (cb_slow_data r) h in
                if negb (cb_ret r =? 0)
                then mk_read_result GAS_SENSOR_ERR_CALLBACK (Some h) slow_data'
                                    (cb_waveform r) (cb_status r)
                else mk_read_result result (Some h) slow_data' (cb_waveform r) (cb_status r)
            | None =>
                mk_read_result result (Some h) slow_data' (out_waveform pr) (out_status pr)
            end
    end
  end.

(** *** Opening and closing the port (POSIX branch) *)

(** The resources [gas_sensor_init] and [gas_sensor_close] take and give
    back: the handle block ([malloc]/[free]) and the descriptor
    ([open]/[close]). *)
Inductive resource_op : Type :=
| OpMalloc
| OpFree
| OpOpen (fd : Z)
| OpClose (fd : Z).

(** What the C library and the system answer during one [gas_sensor_init]:
    the block [malloc] returns ([None] for [NULL]), given by the bytes its
    [rx_buffer] happens to hold, and the results of [open], [tcgetattr]
    and [tcsetattr]. *)
Record init_env : Type := mk_init_env {
  env_malloc : option (list byte);
  env_open : Z;
  env_tcgetattr : Z;
  env_tcsetattr : Z }.

(** The return code, the value of [*handle] after the call ([None] for a
    [NULL] pointer) and the resource operations in order. *)
Record init_result : Type := mk_init_result {
  init_ret : Z;
  init_handle : option (option gas_sensor_handle);
  init_ops : list resource_op }.

Definition gas_sensor_init
    (port : option (list byte))
    (callback : option gas_sensor_callback_t)
    (handle : option (option gas_sensor_handle))
    (env : init_env) : init_result :=
  match port, handle with
  | Some _, Some _ =>
      match env_malloc env with
      | None => mk_init_result GAS_SENSOR_ERR_MEMORY handle []
      | Some block =>
          let sd :=
            match gas_sensor_init_slow_data (Some slow_data_zero) with
            | Some s => s
            | None => slow_data_zero
            end in
          let fd := env_open env in
          if fd <? 0
          then mk_init_result GAS_SENSOR_ERR_SERIAL_OPEN handle [OpMalloc; OpFree]
          else if negb (env_tcgetattr env =? 0)
          then mk_init_result GAS_SENSOR_ERR_SERIAL_OPEN handle
                              [OpMalloc; OpOpen fd; OpClose fd; OpFree]
          else if negb (env_tcsetattr env =? 0)
          then mk_init_result GAS_SENSOR_ERR_SERIAL_OPEN handle
                              [OpMalloc; OpOpen fd; OpClose fd; OpFree]
          else mk_init_result GAS_SENSOR_OK
                              (Some (Some (mk_handle fd callback sd block 0)))
                              [OpMalloc; OpOpen fd]
      end
  | _, _ => mk_init_result GAS_SENSOR_ERR_NULL_PARAM handle []
  end.

(** [gas_sensor_close]: the descriptor is closed when it is not negative,
    the block is freed. *)
Definition gas_sensor_close (handle : option gas_sensor_handle) : Z * list resource_op :=
  match handle with
  | None => (GAS_SENSOR_ERR_NULL_PARAM, [])
  | Some h =>
      (GAS_SENSOR_OK,
       (if serial_fd h >=? 0 then [OpClose (serial_fd h)] else []) ++ [OpFree])
  end.

End SerialLib.

(* ====================================================================== *)
(** ** Vocabulary of the statements

    The specification's own words (checksum, codecs, slots of the
    aggregate), the predicates of the theorems, and the concrete frames and
    handles they are tried on. *)
(* ====================================================================== *)

(** The sum of the bytes 2..19 of the frame (18 bytes). *)
Definition byte_sum_2_19 (b : list byte) : Z :=
  fold_right Z.add 0 (map (idx b) (seq 2 18)).

(** [checksum]: that sum in a 16-bit accumulator, two's-complemented and cut
    to its low byte, [(~sum + 1) & 0xFF]. *)
Definition checksum (b : list byte) : Z :=
  Z.land (Z.lnot (byte_sum_2_19 b mod 2 ^ 16) + 1) 0xFF.

(** The frame of [example_parse_raw_frame] in gas_sensor_example.c. *)
Definition example_frame : list byte :=
  [xaa; x55; x03; x00; x00; x00; x00; x00; x00; x00; x00; x00; x06; x40;
   x00; xff; x04; x00; x03; xf5; xbc].

(** Twenty-one zero bytes: the checksum byte fits, the sync bytes do not. *)
Definition zero_frame : list byte := repeat x00 21.

(** A well-formed frame with the given id and status bytes, CO2 word
    [hi lo], everything else zero, and the checksum byte [chk]. *)
Definition frame_with (id sts hi lo chk : byte) : list byte :=
  [xaa; x55; id; sts; hi; lo] ++ repeat x00 14 ++ [chk].

(** Reserved id 7, unassigned id 10, and a CO2 word of 0xFFFF. *)
Definition reserved_frame : list byte := frame_with x07 x00 x00 x00 xf9.
Definition bad_id_frame : list byte := frame_with x0a x00 x00 x00 xf6.
Definition ffff_frame : list byte := frame_with x00 x00 xff xff x02.

(** [nearest_f32 n d x]: [x] is a normal binary32 value within half a unit
    in the last place of the rational [n / d]. *)
Definition nearest_f32 (n d : Z) (x : f32) : bool :=
  let P := 2 ^ Z.max 0 (expo x) in
  let N := 2 ^ Z.max 0 (- expo x) in
  (2 ^ 23 <=? mant x) && (mant x <? 2 ^ 24) &&
  (2 * Z.abs (mant x * P * d - n * N) <=? P * d).

(** A 21-byte frame with the two sync bytes and a matching checksum byte. *)
Definition valid_frame (b : list byte) : Prop :=
  length b = 21%nat /\
  idx b 0 = GAS_SENSOR_FLAG1 /\ idx b 1 = GAS_SENSOR_FLAG2 /\
  checksum b = idx b 20.

(** The frame-id byte. *)
Definition frame_id_of (b : list byte) : Z := idx b 2.

Definition waveform_zero : gas_sensor_waveform_t :=
  mk_waveform f32_zero f32_zero f32_zero f32_zero f32_zero.
Definition status_zero : gas_sensor_status_t :=
  mk_status false false false false false false false false.

(** The specification's codecs: big-endian composition, and the
    two-byte percentage with its invalid marker. *)
Definition decode_u16_be (b0 b1 : Z) : Z := 256 * b0 + b1.

Definition decode_percent_2byte (raw : Z) : f32 :=
  if raw =? 0xFFFF then GAS_SENSOR_CONC_INVALID
  else f32_div (f32_of_int raw) (f32_of_int 100).

(** The [k]-th waveform word of a frame, bytes [4 + 2k] and [5 + 2k]. *)
Definition waveform_word (b : list byte) (k : nat) : Z :=
  decode_u16_be (idx b (4 + 2 * k)) (idx b (5 + 2 * k)).

Definition waveform_fields (w : gas_sensor_waveform_t) : list f32 :=
  [wf_co2 w; wf_n2o w; wf_aa1 w; wf_aa2 w; wf_o2 w].

(** The two revisions of [gas_sensor_parse_frame] under one name. *)
Inductive revision : Type := Parser | Serial.

Definition parse_frame_of (rev : revision) :=
  match rev with
  | Parser => ParseLib.gas_sensor_parse_frame
  | Serial => SerialLib.gas_sensor_parse_frame
  end.

(** The seven slots of the aggregate and the frame id that selects each. *)
Inductive slot_id : Type :=
| InspVals | ExpVals | MomVals | GenVals | SensorRegs | ConfigData | ServiceData.

Inductive slot_value : Type :=
| SlotInsp (v : gas_sensor_insp_vals_t)
| SlotExp (v : gas_sensor_exp_vals_t)
| SlotMom (v : gas_sensor_mom_vals_t)
| SlotGen (v : gas_sensor_gen_vals_t)
| SlotRegs (v : gas_sensor_sensor_regs_t)
| SlotConfig (v : gas_sensor_config_data_t)
| SlotService (v : gas_sensor_service_data_t).

Definition slot (sd : gas_sensor_slow_data_t) (s : slot_id) : slot_value :=
  match s with
  | InspVals => SlotInsp (insp_vals sd)
  | ExpVals => SlotExp (exp_vals sd)
  | MomVals => SlotMom (mom_vals sd)
  | GenVals => SlotGen (gen_vals sd)
  | SensorRegs => SlotRegs (sensor_regs sd)
  | ConfigData => SlotConfig (config_data sd)
  | ServiceData => SlotService (service_data sd)
  end.

Definition slot_of_frame_id (k : Z) : option slot_id :=
  match k with
  | 0 => Some InspVals
  | 1 => Some ExpVals
  | 2 => Some MomVals
  | 3 => Some GenVals
  | 4 => Some SensorRegs
  | 5 => Some ConfigData
  | 6 => Some ServiceData
  | _ => None
  end.

(** The three caller-supplied structures hold what they held before. *)
Definition untouched (r : parse_result)
    (slow : option gas_sensor_slow_data_t) (w : option gas_sensor_waveform_t)
    (st : option gas_sensor_status_t) : Prop :=
  out_slow_data r = slow /\ out_waveform r = w /\ out_status r = st.

(** The frame does not start with 0xAA 0x55. *)
Definition sync_invalid (fd : option (list byte)) : Prop :=
  match fd with
  | Some b => idx b 0 <> GAS_SENSOR_FLAG1 \/ idx b 1 <> GAS_SENSOR_FLAG2
  | None => False
  end.

(** The fifteen concentrations of the first three slots and the pressure. *)
Definition conc_fields (sd : gas_sensor_slow_data_t) : list f32 :=
  [insp_co2 (insp_vals sd); insp_n2o (insp_vals sd); insp_aa1 (insp_vals sd);
   insp_aa2 (insp_vals sd); insp_o2 (insp_vals sd);
   exp_co2 (exp_vals sd); exp_n2o (exp_vals sd); exp_aa1 (exp_vals sd);
   exp_aa2 (exp_vals sd); exp_o2 (exp_vals sd);
   mom_co2 (mom_vals sd); mom_n2o (mom_vals sd); mom_aa1 (mom_vals sd);
   mom_aa2 (mom_vals sd); mom_o2 (mom_vals sd);
   atm_pressure (gen_vals sd)].

(** The array keeps its 256 bytes and the fill length stays within it. *)
Definition rx_invariant (h : SerialLib.gas_sensor_handle) : Prop :=
  length (SerialLib.rx_buffer h) = 256%nat /\
  0 <= SerialLib.rx_buffer_len h <= SerialLib.RX_BUFFER_SIZE.

(** The bytes the synchronizer holds: the first [rx_buffer_len] of the array. *)
Definition rx_content (h : SerialLib.gas_sensor_handle) : list byte :=
  firstn (Z.to_nat (SerialLib.rx_buffer_len h)) (SerialLib.rx_buffer h).

(** A handle as [gas_sensor_init] leaves it: the aggregate initialised, the
    buffer empty, no callback. The array content and the descriptor are
    whatever they are; zeros and 3 here. *)
Definition fresh_handle : SerialLib.gas_sensor_handle :=
  SerialLib.mk_handle 3 None
    (match SerialLib.gas_sensor_init_slow_data (Some slow_data_zero) with
     | Some s => s
     | None => slow_data_zero
     end)
    (repeat x00 256) 0.

(** The handle after [bad_id_frame] has arrived in an empty buffer. *)
Definition stuck_handle : SerialLib.gas_sensor_handle :=
  SerialLib.mk_handle 3 None
    (set_last_frame_id 10 (SerialLib.slow_data fresh_handle))
    (bad_id_frame ++ repeat x00 235) 21.

(** A frame with a wrong checksum byte. *)
Definition bad_chk_frame : list byte := frame_with x00 x00 x00 x00 x01.

(** The two sync bytes are there; the checksum byte fits the bytes 2..19. *)
Definition sync_ok (b : list byte) : Prop :=
  idx b 0 = GAS_SENSOR_FLAG1 /\ idx b 1 = GAS_SENSOR_FLAG2.

Definition checksum_ok (b : list byte) : Prop := checksum b = idx b 20.

(** What a validated frame leaves in the waveform and in the aggregate,
    read off the two revisions of [gas_sensor_parse_frame]. *)
Definition parse_waveform_of (rev : revision) : list byte -> gas_sensor_waveform_t :=
  match rev with
  | Parser => ParseLib.parse_waveform
  | Serial => SerialLib.parse_waveform
  end.

Definition aggregate_after (rev : revision) (b : list byte)
    (sd : gas_sensor_slow_data_t) : gas_sensor_slow_data_t :=
  match rev with
  | Parser =>
      if idx b 2 >=? GAS_SENSOR_FRAME_ID_MAX then sd
      else ParseLib.parse_slow_switch (idx b 2) (at_offset b 13)
                                      (set_last_frame_id (idx b 2) sd)
  | Serial =>
      match SerialLib.parse_slow_switch (idx b 2) (at_offset b 14)
                                        (set_last_frame_id (idx b 2) sd) with
      | Some sd2 => sd2
      | None => set_last_frame_id (idx b 2) sd
      end
  end.

(** The sum of the bytes 2..20, checksum byte included. *)
Definition byte_sum_2_20 (b : list byte) : Z := byte_sum_2_19 b + idx b 20.

(** The frame [b] with byte [i] replaced by [v]. *)
Definition set_byte (b : list byte) (i : nat) (v : byte) : list byte :=
  firstn i b ++ v :: skipn (S i) b.

(** The status byte rebuilt from the eight flags, bit 0 first. *)
Definition encode_status (s : gas_sensor_status_t) : Z :=
  Z.b2z (breath_detected s) + 2 * Z.b2z (apnea s) + 4 * Z.b2z (o2_low s) +
  8 * Z.b2z (o2_replace s) + 16 * Z.b2z (check_adapter s) +
  32 * Z.b2z (accuracy_out_of_range s) + 64 * Z.b2z (sensor_error s) +
  128 * Z.b2z (o2_calibration_required s).

(** The eight flags in bit order. *)
Definition status_flags (s : gas_sensor_status_t) : list bool :=
  [breath_detected s; apnea s; o2_low s; o2_replace s; check_adapter s;
   accuracy_out_of_range s; sensor_error s; o2_calibration_required s].

(** The two revisions of the public [gas_sensor_parse_concentration]. *)
Definition parse_concentration_of (rev : revision) : Z -> f32 :=
  match rev with
  | Parser => ParseLib.gas_sensor_parse_concentration
  | Serial => SerialLib.gas_sensor_parse_concentration
  end.

(** The value a frame carries for a slot: the decoding of its six payload
    bytes, which start at byte 13 in the parsing library and at byte 14 in
    the serial revision. *)
Definition decode_slot (rev : revision) (b : list byte) (s : slot_id) : slot_value :=
  match rev, s with
  | Parser, InspVals => SlotInsp (ParseLib.parse_insp_vals (at_offset b 13))
  | Parser, ExpVals => SlotExp (ParseLib.parse_exp_vals (at_offset b 13))
  | Parser, MomVals => SlotMom (ParseLib.parse_mom_vals (at_offset b 13))
  | Parser, GenVals => SlotGen (ParseLib.parse_gen_vals (at_offset b 13))
  | Parser, SensorRegs => SlotRegs (ParseLib.parse_sensor_regs (at_offset b 13))
  | Parser, ConfigData => SlotConfig (ParseLib.parse_config_data (at_offset b 13))
  | Parser, ServiceData => SlotService (ParseLib.parse_service_data (at_offset b 13))
  | Serial, InspVals => SlotInsp (SerialLib.parse_insp_vals (at_offset b 14))
  | Serial, ExpVals => SlotExp (SerialLib.parse_exp_vals (at_offset b 14))
  | Serial, MomVals => SlotMom (SerialLib.parse_mom_vals (at_offset b 14))
  | Serial, GenVals => SlotGen (SerialLib.parse_gen_vals (at_offset b 14))
  | Serial, SensorRegs => SlotRegs (SerialLib.parse_sensor_regs (at_offset b 14))
  | Serial, ConfigData => SlotConfig (SerialLib.parse_config_data (at_offset b 14))
  | Serial, ServiceData => SlotService (SerialLib.parse_service_data (at_offset b 14))
  end.

Definition slot_id_eqb (s t : slot_id) : bool :=
  match s, t with
  | InspVals, InspVals | ExpVals, ExpVals | MomVals, MomVals | GenVals, GenVals
  | SensorRegs, SensorRegs | ConfigData, ConfigData | ServiceData, ServiceData => true
  | _, _ => false
  end.

(** The frame's id selects the slot [s]. *)
Definition selects (b : list byte) (s : slot_id) : bool :=
  match slot_of_frame_id (idx b 2) with
  | Some t => slot_id_eqb t s
  | None => false
  end.

(** A frame the decoder accepts with a non-null aggregate. *)
Definition accepted (b : list byte) : Prop :=
  sync_ok b /\ checksum_ok b /\ idx b 2 <= 9.

(** The aggregate after a run of frames, each decoded into it in turn. *)
Definition merge_frames (rev : revision) (frames : list (list byte))
    (sd : gas_sensor_slow_data_t) : gas_sensor_slow_data_t :=
  fold_left
    (fun sd b =>
       match out_slow_data (parse_frame_of rev (Some b) (Some sd) None None) with
       | Some sd' => sd'
       | None => sd
       end)
    frames sd.

(** The last frame of the run whose id selects the slot [s]. *)
Definition last_for_slot (frames : list (list byte)) (s : slot_id) : option (list byte) :=
  find (fun b => selects b s) (rev frames).

(** The sync pattern [0xAA 0x55] at index [i] of a byte sequence. *)
Definition sync_at (l : list byte) (i : nat) : bool :=
  (idx l i =? GAS_SENSOR_FLAG1) && (idx l (S i) =? GAS_SENSOR_FLAG2).

(** No sync pattern lies inside [c]; the first one inside [c] is at [k]. *)
Definition no_sync (c : list byte) : Prop :=
  forall j, (S j < length c)%nat -> sync_at c j = false.

Definition first_sync_at (c : list byte) (k : nat) : Prop :=
  (S k < length c)%nat /\ sync_at c k = true /\
  forall j, (j < k)%nat -> sync_at c j = false.

(** The bytes the synchronizer works on in a call: the buffered bytes
    followed by the (at most 128) bytes read, or the bytes read alone when
    both together exceed the 256 bytes of the array. *)
Definition received (h : SerialLib.gas_sensor_handle) (pending : list byte) : list byte :=
  let new := firstn SerialLib.TEMP_BUFFER_SIZE pending in
  if SerialLib.rx_buffer_len h + Z.of_nat (length new) >? SerialLib.RX_BUFFER_SIZE
  then new
  else rx_content h ++ new.

(** [gas_sensor_read_frame] from the completeness check on, for a handle
    whose buffer starts at the sync pattern. *)
Definition read_frame_from_sync
    (h : SerialLib.gas_sensor_handle)
    (slow_data : option gas_sensor_slow_data_t)
    (waveform : option gas_sensor_waveform_t)
    (status : option gas_sensor_status_t) : SerialLib.read_result :=
  if SerialLib.rx_buffer_len h <? GAS_SENSOR_FRAME_SIZE
  then SerialLib.mk_read_result GAS_SENSOR_ERR_SERIAL_READ (Some h) slow_data waveform status
  else
    let pr := SerialLib.gas_sensor_parse_frame (Some (SerialLib.rx_buffer h))
                (Some (SerialLib.slow_data h)) waveform status in
    let h :=
      match out_slow_data pr with
      | Some sd => SerialLib.set_slow_data sd h
      | None => h
      end in
    let result := ret pr in
    let h :=
      if (result =? GAS_SENSOR_OK) || (result =? GAS_SENSOR_ERR_CHECKSUM)
      then SerialLib.drop_front GAS_SENSOR_FRAME_SIZE h
      else h in
    if negb (result =? GAS_SENSOR_OK)
    then SerialLib.mk_read_result result (Some h) slow_data (out_waveform pr) (out_status pr)
    else
      let slow_data' :=
        match slow_data with
        | Some _ => Some (SerialLib.slow_data h)
        | None => None
        end in
      match SerialLib.callback h with
      | Some cb =>
          let r := cb (SerialLib.slow_data h) (out_waveform pr) (out_status pr) in
          let h := SerialLib.set_slow_data (SerialLib.cb_slow_data r) h in
          if negb (SerialLib.cb_ret r =? 0)
          then SerialLib.mk_read_result GAS_SENSOR_ERR_CALLBACK (Some h) slow_data'
                                        (SerialLib.cb_waveform r) (SerialLib.cb_status r)
          else SerialLib.mk_read_result result (Some h) slow_data'
                                        (SerialLib.cb_waveform r) (SerialLib.cb_status r)
      | None =>
          SerialLib.mk_read_result result (Some h) slow_data' (out_waveform pr) (out_status pr)
      end.



(** A caller polling [gas_sensor_read_frame] on one handle, with no output
    pointers, as the chunks [chunks] arrive one per call: the return codes
    in order and the handle at the end. *)
Fixpoint read_chunks (h : SerialLib.gas_sensor_handle) (chunks : list (list byte))
    : list Z * SerialLib.gas_sensor_handle :=
  match chunks with
  | [] => ([], h)
  | c :: cs =>
      let r := SerialLib.gas_sensor_read_frame (Some h) (SerialLib.ReadReady c)
                                               None None None in
      let h' := match SerialLib.rr_handle r with Some h' => h' | None => h end in
      let (rets, hf) := read_chunks h' cs in
      (SerialLib.rr_ret r :: rets, hf)
  end.

(** One accepted 21-byte frame cut into chunks, the last one not empty. *)
Definition chunked_frame (cs : list (list byte)) : Prop :=
  accepted (concat cs) /\ length (concat cs) = 21%nat /\ last cs [] <> [].

(** The codes of the calls that receive the chunks of one frame. *)
Definition expected_rets (cs : list (list byte)) : list Z :=
  repeat GAS_SENSOR_ERR_SERIAL_READ (length cs - 1) ++ [GAS_SENSOR_OK].

(** The resources still held after a run of operations: the number of
    blocks and the open descriptors. *)
Definition resource_step (held : Z * list Z) (op : SerialLib.resource_op) : Z * list Z :=
  match op with
  | SerialLib.OpMalloc => (fst held + 1, snd held)
  | SerialLib.OpFree => (fst held - 1, snd held)
  | SerialLib.OpOpen fd => (fst held, fd :: snd held)
  | SerialLib.OpClose fd => (fst held, remove Z.eq_dec fd (snd held))
  end.

Definition outstanding (ops : list SerialLib.resource_op) : Z * list Z :=
  fold_left resource_step ops (0, []).

(** The arguments of one call of [gas_sensor_read_frame]: what the port
    does and the three output pointers. *)
Record read_call : Type := mk_read_call {
  call_io : SerialLib.serial_read;
  call_slow_data : option gas_sensor_slow_data_t;
  call_waveform : option gas_sensor_waveform_t;
  call_status : option gas_sensor_status_t }.

(** The handle after a run of calls of [gas_sensor_read_frame] on it. *)
Fixpoint poll (h : SerialLib.gas_sensor_handle) (calls : list read_call)
    : SerialLib.gas_sensor_handle :=
  match calls with
  | [] => h
  | c :: rest =>
      match SerialLib.rr_handle
              (SerialLib.gas_sensor_read_frame (Some h) (call_io c) (call_slow_data c)
                                               (call_waveform c) (call_status c)) with
      | Some h' => poll h' rest
      | None => h
      end
  end.

(** An environment in which [malloc] fails. *)
Definition no_memory_env : SerialLib.init_env := SerialLib.mk_init_env None 3 0 0.

(** An environment in which every step succeeds, the descriptor being 3. *)
Definition good_env : SerialLib.init_env :=
  SerialLib.mk_init_env (Some (repeat xff 256)) 3 0 0.

(** What every call keeps of the handle: the bounds of the buffer, the
    descriptor and the callback. *)
Definition handle_kept (h0 h : SerialLib.gas_sensor_handle) : Prop :=
  rx_invariant h /\ SerialLib.serial_fd h = SerialLib.serial_fd h0 /\
  SerialLib.callback h = SerialLib.callback h0.

(** The flags of the register structures, in the order of their fields. *)
Definition error_flags (e : gas_sensor_error_reg_t) : list bool :=
  [sw_error e; hw_error e; motor_fail e; uncalibrated e].

Definition adapter_flags (a : gas_sensor_adapter_reg_t) : list bool :=
  [replace_adapter a; no_adapter a; o2_clogged a].

Definition data_valid_flags (d : gas_sensor_data_valid_reg_t) : list bool :=
  [co2_out_of_range d; n2o_out_of_range d; agent_out_of_range d; o2_out_of_range d;
   temp_out_of_range d; pressure_out_of_range d; zero_calibration_required d].

Definition fitted_flags (c : gas_sensor_config_data_t) : list bool :=
  [o2_fitted c; co2_fitted c; n2o_fitted c; halothane_fitted c;
   enflurane_fitted c; isoflurane_fitted c; sevoflurane_fitted c; desflurane_fitted c].

Definition service_flags (s : gas_sensor_service_status_t) : list bool :=
  [zero_disabled s; zero_in_progress s; span_calibration_error s;
   span_calibration_in_progress s].

(** The low [n] bits of [x], bit 0 first. *)
Definition low_bits (x : Z) (n : nat) : list bool :=
  map (fun i => Z.testbit x (Z.of_nat i)) (seq 0 n).

(** Accepted frames with the ids 4, 5 and 6 and an all-zero payload. *)
Definition regs_frame : list byte := frame_with x04 x00 x00 x00 xfc.
Definition config_frame : list byte := frame_with x05 x00 x00 x00 xfb.
Definition service_frame : list byte := frame_with x06 x00 x00 x00 xfa.

(** A handle holding 200 buffered bytes. *)
Definition filled_handle : SerialLib.gas_sensor_handle :=
  SerialLib.mk_handle 3 None (SerialLib.slow_data fresh_handle) (repeat x00 256) 200.

(** The five concentrations of the slot selected by the ids 0, 1 and 2, in
    the order CO2, N2O, AA1, AA2, O2. *)
Definition slot_concentrations (sd : gas_sensor_slow_data_t) (k : Z) : list f32 :=
  match k with
  | 0 => [insp_co2 (insp_vals sd); insp_n2o (insp_vals sd); insp_aa1 (insp_vals sd);
          insp_aa2 (insp_vals sd); insp_o2 (insp_vals sd)]
  | 1 => [exp_co2 (exp_vals sd); exp_n2o (exp_vals sd); exp_aa1 (exp_vals sd);
          exp_aa2 (exp_vals sd); exp_o2 (exp_vals sd)]
  | 2 => [mom_co2 (mom_vals sd); mom_n2o (mom_vals sd); mom_aa1 (mom_vals sd);
          mom_aa2 (mom_vals sd); mom_o2 (mom_vals sd)]
  | _ => []
  end.

(** The frame byte at which the six slow-data bytes start. *)
Definition payload_start (rev : revision) : nat :=
  match rev with
  | Parser => 13
  | Serial => 14
  end.

(** An accepted frame with id 1 and an all-zero payload. *)
Definition exp_frame : list byte := frame_with x01 x00 x00 x00 xff.

(* ====================================================================== *)
(** * Properties *)
(* ====================================================================== *)

(* ====================================================================== *)
(** ** Arithmetic of bytes and words *)
(* ====================================================================== *)

Lemma u8_range (b : byte) : 0 <= u8 b <= 255.
Proof.
  unfold u8. pose proof (Byte.to_N_bounded b). lia.
Qed.

Lemma idx_range (p : list byte) (i : nat) : 0 <= idx p i <= 255.
Proof. apply u8_range. Qed.

Lemma idx_at_offset (p : list byte) (k i : nat) :
  idx (at_offset p k) i = idx p (k + i).
Proof. unfold idx, at_offset. now rewrite nth_skipn. Qed.

Lemma land_shiftl8_low (a b : Z) : 0 <= b <= 255 -> Z.land (Z.shiftl a 8) b = 0.
Proof.
  intros Hb. apply Z.bits_inj'. intros n Hn.
  rewrite Z.land_spec, Z.bits_0.
  destruct (Z.ltb_spec n 8) as [Hlt | Hge].
  - rewrite Z.shiftl_spec_low by lia. reflexivity.
  - destruct (Z.eq_dec b 0) as [-> | Hnz].
    + rewrite Z.bits_0. apply andb_false_r.
    + rewrite (Z.bits_above_log2 b n); [apply andb_false_r | lia |].
      assert (Z.log2 b < 8) by (apply Z.log2_lt_pow2; lia). lia.
Qed.

(** The big-endian word built with shift and or is [256 * hi + lo]. *)
Lemma be16_value (hi lo : Z) :
  0 <= hi <= 255 -> 0 <= lo <= 255 ->
  to_u16 (Z.lor (Z.shiftl (to_u16 hi) 8) lo) = 256 * hi + lo.
Proof.
  intros Hhi Hlo. unfold to_u16.
  rewrite (Z.mod_small hi) by lia.
  pose proof (Z.add_lor_land (Z.shiftl hi 8) lo) as E.
  rewrite land_shiftl8_low in E by lia.
  rewrite Z.shiftl_mul_pow2 in E by lia.
  change (2 ^ 8) with 256 in E.
  rewrite Z.shiftl_mul_pow2 by lia. change (2 ^ 8) with 256.
  rewrite Z.mod_small; lia.
Qed.

(** The checksum of the specification and the loop of the code. *)

Lemma sum_idx_bounds (b : list byte) (l : list nat) :
  0 <= fold_right Z.add 0 (map (idx b) l) <= 255 * Z.of_nat (length l).
Proof.
  induction l as [| i l IH]; simpl fold_right; simpl length.
  - lia.
  - pose proof (idx_range b i). lia.
Qed.

(** The accumulator loop never wraps while the running total fits 16 bits. *)
Lemma acc16_no_wrap (b : list byte) (l : list nat) (acc : Z) :
  0 <= acc -> acc + 255 * Z.of_nat (length l) < 65536 ->
  fold_left (fun sum i => to_u16 (sum + idx b i)) l acc =
  acc + fold_right Z.add 0 (map (idx b) l).
Proof.
  revert acc. induction l as [| i l IH]; intros acc H0 Hlt.
  - simpl. lia.
  - pose proof (idx_range b i) as Hi.
    change (fold_left (fun sum i0 => to_u16 (sum + idx b i0)) (i :: l) acc)
      with (fold_left (fun sum i0 => to_u16 (sum + idx b i0)) l (to_u16 (acc + idx b i))).
    simpl length in Hlt. rewrite Nat2Z.inj_succ in Hlt.
    unfold to_u16 at 2. rewrite Z.mod_small by lia.
    rewrite IH by lia. simpl. lia.
Qed.

Lemma byte_sum_range (b : list byte) : 0 <= byte_sum_2_19 b <= 4590.
Proof.
  unfold byte_sum_2_19.
  pose proof (sum_idx_bounds b (seq 2 18)) as H.
  rewrite length_seq in H. lia.
Qed.

Lemma low_byte_of_neg (s : Z) : to_u8 (Z.land (Z.lnot s + 1) 0xFF) = (- s) mod 256.
Proof.
  rewrite Z.succ_lnot. change 0xFF with (Z.ones 8).
  rewrite Z.land_ones by lia. change (2 ^ 8) with 256.
  unfold to_u8. apply Z.mod_mod. lia.
Qed.

Lemma checksum_value (b : list byte) : checksum b = (- byte_sum_2_19 b) mod 256.
Proof.
  unfold checksum. pose proof (byte_sum_range b).
  rewrite Z.mod_small by lia.
  rewrite Z.succ_lnot. change 0xFF with (Z.ones 8).
  rewrite Z.land_ones by lia. reflexivity.
Qed.

(** Both revisions compute the checksum of the specification. *)
Lemma ParseLib_calculate_checksum_spec (b : list byte) :
  ParseLib.calculate_checksum b = checksum b.
Proof.
  unfold ParseLib.calculate_checksum.
  rewrite acc16_no_wrap by (rewrite ?length_seq; lia).
  rewrite low_byte_of_neg, checksum_value. reflexivity.
Qed.

Lemma SerialLib_calculate_checksum_spec (b : list byte) :
  SerialLib.calculate_checksum b = checksum b.
Proof.
  unfold SerialLib.calculate_checksum.
  rewrite acc16_no_wrap by (rewrite ?length_seq; lia).
  rewrite low_byte_of_neg, checksum_value. reflexivity.
Qed.

(* ====================================================================== *)
(** ** Checksum verification *)
(* ====================================================================== *)

Lemma eqb_sym_iff (a b : Z) : (a =? b) = true <-> b = a.
Proof. rewrite Z.eqb_eq. split; congruence. Qed.

(** The serial revision compares the two bytes and nothing else. *)
Lemma SerialLib_verify_checksum_iff (b : list byte) :
  SerialLib.gas_sensor_verify_checksum (Some b) = true <-> checksum b = idx b 20.
Proof.
  unfold SerialLib.gas_sensor_verify_checksum.
  rewrite SerialLib_calculate_checksum_spec. apply eqb_sym_iff.
Qed.

(** The parsing library asks for the sync bytes first. *)
Lemma ParseLib_verify_checksum_iff (b : list byte) :
  ParseLib.gas_sensor_verify_checksum (Some b) = true <->
  idx b 0 = GAS_SENSOR_FLAG1 /\ idx b 1 = GAS_SENSOR_FLAG2 /\ checksum b = idx b 20.
Proof.
  unfold ParseLib.gas_sensor_verify_checksum.
  rewrite ParseLib_calculate_checksum_spec.
  destruct (Z.eqb_spec (idx b 0) GAS_SENSOR_FLAG1) as [E0 | N0];
    destruct (Z.eqb_spec (idx b 1) GAS_SENSOR_FLAG2) as [E1 | N1];
    cbn [negb orb]; try (split; [discriminate | tauto]).
  rewrite Z.eqb_eq. tauto.
Qed.

(** C2 (as stated) does not hold of the parsing library: on twenty-one zero
    bytes the checksum of bytes 2..19 equals byte 20, yet
    [gas_sensor_verify_checksum] answers false, the sync bytes being absent. *)
Lemma verify_checksum_requires_sync :
  ~ (forall b : list byte, length b = 21%nat ->
       (ParseLib.gas_sensor_verify_checksum (Some b) = true <->
        checksum b = idx b 20)).
Proof.
  intros H. destruct (H zero_frame eq_refl) as [_ Hback].
  discriminate (Hback eq_refl).
Qed.

(** C2 (amended): for every 21-byte array [b], the serial revision's
    [gas_sensor_verify_checksum] returns true exactly when the checksum of
    bytes 2..19 (16-bit sum, two's complement, low byte) equals [b[20]]; the
    parsing library's returns true exactly when, in addition, [b[0] = 0xAA]
    and [b[1] = 0x55]. *)
Theorem verify_checksum_by_revision (b : list byte) :
  length b = 21%nat ->
  (SerialLib.gas_sensor_verify_checksum (Some b) = true <->
   checksum b = idx b 20) /\
  (ParseLib.gas_sensor_verify_checksum (Some b) = true <->
   idx b 0 = GAS_SENSOR_FLAG1 /\ idx b 1 = GAS_SENSOR_FLAG2 /\
   checksum b = idx b 20).
Proof.
  intros _. split.
  - apply SerialLib_verify_checksum_iff.
  - apply ParseLib_verify_checksum_iff.
Qed.

(** The theorem at the frame of the example program. *)
Lemma verify_checksum_by_revision_witness :
  (SerialLib.gas_sensor_verify_checksum (Some example_frame) = true <->
   checksum example_frame = idx example_frame 20) /\
  (ParseLib.gas_sensor_verify_checksum (Some example_frame) = true <->
   idx example_frame 0 = GAS_SENSOR_FLAG1 /\
   idx example_frame 1 = GAS_SENSOR_FLAG2 /\
   checksum example_frame = idx example_frame 20).
Proof. apply (verify_checksum_by_revision example_frame). reflexivity. Defined.

(* ====================================================================== *)
(** ** Facts about the float model *)
(* ====================================================================== *)

(** The model against known binary32 values: 0.01f is 0x3C23D70A, 0.1f is
    0x3DCCCCCD, 655.35f is 0x4423D666; 2^24 + 1 rounds to even. *)
Example f32_hundredth : f32_div (f32_of_int 1) (f32_of_int 100) = mk_f32 0xA3D70A (-30).
Proof. reflexivity. Qed.

Example f32_tenth : f32_div (f32_of_int 1) (f32_of_int 10) = mk_f32 0xCCCCCD (-27).
Proof. reflexivity. Qed.

Example f32_655_35 : f32_div (f32_of_int 65535) (f32_of_int 100) = mk_f32 0xA3D666 (-14).
Proof. reflexivity. Qed.

Example f32_ties_to_even : f32_of_int (2 ^ 24 + 1) = f32_of_int (2 ^ 24).
Proof. reflexivity. Qed.

Example f32_minus_one : GAS_SENSOR_CONC_INVALID = mk_f32 (- 2 ^ 23) (-23).
Proof. reflexivity. Qed.

Lemma round_pos_nonneg (a d : Z) : 0 < a -> 0 < d -> 0 <= mant (round_pos a d).
Proof.
  intros Ha Hd. unfold round_pos.
  set (e := (if _ <? _ then _ else _) - 23).
  set (num := a * 2 ^ Z.max 0 (- e)). set (den := d * 2 ^ Z.max 0 e).
  assert (Hden : 0 < den).
  { unfold den. apply Z.mul_pos_pos; [lia |]. apply Z.pow_pos_nonneg; lia. }
  assert (Hnum : 0 <= num).
  { unfold num. apply Z.mul_nonneg_nonneg; [lia |]. apply Z.pow_nonneg; lia. }
  assert (Hq : 0 <= num / den) by (apply Z.div_pos; lia).
  destruct (_ || _); destruct (_ =? 2 ^ 24); cbn [mant]; lia.
Qed.

Lemma round_quot_nonneg (n d : Z) : 0 <= n -> 0 < d -> 0 <= mant (round_quot n d).
Proof.
  intros Hn Hd. unfold round_quot.
  destruct (Z.eqb_spec n 0); [cbn; lia |].
  destruct (Z.ltb_spec n 0); [lia |].
  apply round_pos_nonneg; lia.
Qed.

Lemma f32_div_nonneg (x y : f32) : 0 <= mant x -> 0 < mant y -> 0 <= mant (f32_div x y).
Proof.
  intros Hx Hy. unfold f32_div. apply round_quot_nonneg.
  - apply Z.mul_nonneg_nonneg; [lia |]. apply Z.pow_nonneg; lia.
  - apply Z.mul_pos_pos; [lia |]. apply Z.pow_pos_nonneg; lia.
Qed.

(** The invalid marker is negative; no quotient of a non-negative integer
    by a positive literal equals it. *)
Lemma conc_invalid_negative : mant GAS_SENSOR_CONC_INVALID < 0.
Proof. reflexivity. Qed.

Lemma scaled_not_invalid (raw k : Z) :
  0 <= raw -> 0 < mant (f32_of_int k) ->
  f32_div (f32_of_int raw) (f32_of_int k) <> GAS_SENSOR_CONC_INVALID.
Proof.
  intros Hraw Hk E.
  pose proof (f32_div_nonneg (f32_of_int raw) (f32_of_int k)
                (round_quot_nonneg raw 1 Hraw ltac:(lia)) Hk) as Hpos.
  rewrite E in Hpos. pose proof conc_invalid_negative. lia.
Qed.

Lemma pow2_pos (e : Z) : 0 < 2 ^ Z.max 0 e.
Proof. apply Z.pow_pos_nonneg; lia. Qed.

(** [2^(e+k)] against [2^e], numerators and denominators apart. *)
Lemma pow2_shift (e k : Z) :
  0 <= k ->
  2 ^ Z.max 0 (e + k) * 2 ^ Z.max 0 (- e) =
  2 ^ k * 2 ^ Z.max 0 e * 2 ^ Z.max 0 (- (e + k)).
Proof.
  intros Hk. rewrite <- !Z.pow_add_r by lia. f_equal. lia.
Qed.

Lemma pow2_add (x y z : Z) : 0 <= x -> 0 <= y -> x + y = z -> 2 ^ x * 2 ^ y = 2 ^ z.
Proof. intros Hx Hy <-. now rewrite Z.pow_add_r. Qed.

(** The exponent [fl] chosen by [round_pos] brackets the quotient:
    [2^fl <= a/d < 2^(fl+1)]. *)
Lemma round_pos_bracket (a d : Z) :
  0 < a -> 0 < d ->
  let l := Z.log2 a - Z.log2 d in
  let fl := if a * 2 ^ Z.max 0 (- l) <? d * 2 ^ Z.max 0 l then l - 1 else l in
  d * 2 ^ Z.max 0 fl <= a * 2 ^ Z.max 0 (- fl) /\
  a * 2 ^ Z.max 0 (- (fl + 1)) < d * 2 ^ Z.max 0 (fl + 1).
Proof.
  intros Ha Hd l fl.
  pose proof (Z.log2_spec a Ha) as [La Ua].
  pose proof (Z.log2_spec d Hd) as [Ld Ud].
  pose proof (Z.log2_nonneg a) as Na. pose proof (Z.log2_nonneg d) as Nd.
  rewrite <- Z.add_1_r in Ua, Ud.
  unfold fl. destruct (Z.ltb_spec (a * 2 ^ Z.max 0 (- l)) (d * 2 ^ Z.max 0 l)) as [Hlt | Hge].
  - split.
    + destruct (Z.le_gt_cases 0 (l - 1)) as [Hp | Hn].
      * rewrite (Z.max_r 0 (l - 1)), (Z.max_l 0 (- (l - 1))) by lia.
        rewrite Z.pow_0_r, Z.mul_1_r.
        apply Z.le_trans with (2 ^ (Z.log2 d + 1) * 2 ^ (l - 1)).
        -- apply Z.mul_le_mono_nonneg_r; [apply Z.pow_nonneg; lia | lia].
        -- rewrite (pow2_add _ _ (Z.log2 a)) by (unfold l; lia). exact La.
      * rewrite (Z.max_l 0 (l - 1)), (Z.max_r 0 (- (l - 1))) by lia.
        rewrite Z.pow_0_r, Z.mul_1_r.
        apply Z.le_trans with (2 ^ Z.log2 a * 2 ^ (- (l - 1))).
        -- rewrite (pow2_add _ _ (Z.log2 d + 1)) by (unfold l; lia). lia.
        -- apply Z.mul_le_mono_nonneg_r; [apply Z.pow_nonneg; lia | exact La].
    + replace (l - 1 + 1) with l by lia. exact Hlt.
  - split; [exact Hge |].
    destruct (Z.le_gt_cases 0 (l + 1)) as [Hp | Hn].
    + rewrite (Z.max_r 0 (l + 1)), (Z.max_l 0 (- (l + 1))) by lia.
      rewrite Z.pow_0_r, Z.mul_1_r.
      apply Z.lt_le_trans with (2 ^ Z.log2 d * 2 ^ (l + 1)).
      * rewrite (pow2_add _ _ (Z.log2 a + 1)) by (unfold l; lia). exact Ua.
      * apply Z.mul_le_mono_nonneg_r; [apply Z.pow_nonneg; lia | exact Ld].
    + rewrite (Z.max_l 0 (l + 1)), (Z.max_r 0 (- (l + 1))) by lia.
      rewrite Z.pow_0_r, Z.mul_1_r.
      apply Z.lt_le_trans with (2 ^ (Z.log2 a + 1) * 2 ^ (- (l + 1))).
      * apply Z.mul_lt_mono_pos_r; [apply Z.pow_pos_nonneg; lia | exact Ua].
      * rewrite (pow2_add _ _ (Z.log2 d)) by (unfold l; lia). exact Ld.
Qed.

(** [round_pos] gives a normal mantissa and an error of at most half a
    unit in the last place. *)
Lemma round_pos_nearest (a d : Z) :
  0 < a -> 0 < d -> nearest_f32 a d (round_pos a d) = true.
Proof.
  intros Ha Hd.
  pose proof (round_pos_bracket a d Ha Hd) as Hbr. cbv zeta in Hbr.
  unfold round_pos.
  set (fl := if _ <? _ then _ else _) in *. destruct Hbr as [Hlo Hhi].
  set (e := fl - 23).
  pose proof (pow2_shift e 23 ltac:(lia)) as S23.
  pose proof (pow2_shift e 24 ltac:(lia)) as S24.
  pose proof (pow2_shift e 1 ltac:(lia)) as S1.
  replace (e + 23) with fl in S23 by (unfold e; lia).
  replace (e + 24) with (fl + 1) in S24 by (unfold e; lia).
  change (2 ^ 1) with 2 in S1.
  pose proof (pow2_pos e) as PPe. pose proof (pow2_pos (- e)) as PNe.
  pose proof (pow2_pos (- fl)) as PNf.
  pose proof (pow2_pos (- (fl + 1))) as PNf1.
  pose proof (pow2_pos (- (e + 1))) as PNe1.
  set (Pe := 2 ^ Z.max 0 e) in *. set (Ne := 2 ^ Z.max 0 (- e)) in *.
  set (Pf := 2 ^ Z.max 0 fl) in *. set (Nf := 2 ^ Z.max 0 (- fl)) in *.
  set (Pf1 := 2 ^ Z.max 0 (fl + 1)) in *. set (Nf1 := 2 ^ Z.max 0 (- (fl + 1))) in *.
  set (Pe1 := 2 ^ Z.max 0 (e + 1)) in *. set (Ne1 := 2 ^ Z.max 0 (- (e + 1))) in *.
  clearbody Pf Nf Pf1 Nf1. clearbody fl.
  set (T23 := 2 ^ 23) in *. set (T24 := 2 ^ 24) in *.
  assert (HT : T24 = 2 * T23) by reflexivity.
  assert (HT23 : 0 < T23) by reflexivity.
  set (num := a * Ne). set (den := d * Pe).
  assert (Hden : 0 < den) by (apply Z.mul_pos_pos; assumption).
  assert (B1 : T23 * den <= num).
  { apply (Z.mul_le_mono_pos_r _ _ Nf PNf). unfold num, den.
    replace (T23 * (d * Pe) * Nf) with (d * (T23 * Pe * Nf)) by ring.
    rewrite <- S23.
    replace (d * (Pf * Ne)) with (d * Pf * Ne) by ring.
    replace (a * Ne * Nf) with (a * Nf * Ne) by ring.
    apply Z.mul_le_mono_nonneg_r; [lia | exact Hlo]. }
  assert (B2 : num < T24 * den).
  { apply (Z.mul_lt_mono_pos_r Nf1 _ _ PNf1). unfold num, den.
    replace (T24 * (d * Pe) * Nf1) with (d * (T24 * Pe * Nf1)) by ring.
    rewrite <- S24.
    replace (d * (Pf1 * Ne)) with (d * Pf1 * Ne) by ring.
    replace (a * Ne * Nf1) with (a * Nf1 * Ne) by ring.
    apply Z.mul_lt_mono_pos_r; [exact PNe | exact Hhi]. }
  pose proof (Z.div_mod num den ltac:(lia)) as Hdm.
  pose proof (Z.mod_pos_bound num den Hden) as Hr.
  assert (Q1 : T23 <= num / den)
    by (apply Z.div_le_lower_bound; [exact Hden | rewrite Z.mul_comm; exact B1]).
  assert (Q2 : num / den < T24)
    by (apply Z.div_lt_upper_bound; [exact Hden | rewrite Z.mul_comm; exact B2]).
  set (q := num / den) in *. set (r := num mod den) in *.
  clearbody q r.
  (* the value [m * 2^e] against [num / den], for the exponent [e] *)
  assert (Hsame : forall m, m * Pe * d - a * Ne = m * den - num)
    by (intros m; unfold num, den; ring).
  assert (Hden' : Pe * d = den) by (unfold den; ring).
  (* and for the exponent [e + 1] *)
  assert (E1 : (T23 * Pe1 * d - a * Ne1) * Ne = Ne1 * (T24 * den - num)).
  { transitivity (T23 * d * (Pe1 * Ne) - a * Ne1 * Ne); [ring |].
    rewrite S1, HT. unfold num, den. ring. }
  assert (E2 : Pe1 * d * Ne = Ne1 * (2 * den)).
  { transitivity (d * (Pe1 * Ne)); [ring |]. rewrite S1. unfold den. ring. }
  clearbody num den.
  unfold nearest_f32.
  destruct ((den <? 2 * r) || (den =? 2 * r) && Z.odd q) eqn:Hup.
  - assert (Hge : den <= 2 * r).
    { apply orb_true_iff in Hup as [H | H].
      - apply Z.ltb_lt in H. lia.
      - apply andb_true_iff in H as [H _]. apply Z.eqb_eq in H. lia. }
    destruct (Z.eqb_spec (q + 1) T24) as [Htop | Hin]; cbn [mant expo];
      fold T23 T24 Pe Ne Pe1 Ne1.
    + assert (K : 0 <= T24 * den - num <= den).
      { rewrite <- Htop. rewrite Hdm. split.
        - replace ((q + 1) * den - (den * q + r)) with (den - r) by ring. lia.
        - replace ((q + 1) * den - (den * q + r)) with (den - r) by ring. lia. }
      assert (Hsgn : 0 <= T23 * Pe1 * d - a * Ne1).
      { apply (Z.mul_le_mono_pos_r _ _ Ne PNe). rewrite E1, Z.mul_0_l.
        apply Z.mul_nonneg_nonneg; [clear - PNe1; lia | apply K]. }
      assert (Herr : 2 * (T23 * Pe1 * d - a * Ne1) <= Pe1 * d).
      { apply (Z.mul_le_mono_pos_r _ _ Ne PNe).
        rewrite <- Z.mul_assoc, E1, E2.
        rewrite Z.mul_assoc, (Z.mul_comm 2 Ne1), <- Z.mul_assoc.
        apply Z.mul_le_mono_nonneg_l; [clear - PNe1; lia | clear - K; lia]. }
      rewrite Z.abs_eq by exact Hsgn.
      rewrite !andb_true_iff, Z.leb_le, Z.ltb_lt, Z.leb_le.
      clear - HT HT23 Herr. lia.
    + rewrite Hsame, Hden'.
      rewrite !andb_true_iff, Z.leb_le, Z.ltb_lt, Z.leb_le.
      split; [clear - Q1 Q2 Hin; lia |].
      replace ((q + 1) * den - num) with (den - r)
        by (rewrite Hdm; ring).
      clear - Hge Hr. rewrite Z.abs_eq; lia.
  - assert (Hle : 2 * r <= den).
    { apply orb_false_iff in Hup as [H _]. apply Z.ltb_ge in H. lia. }
    destruct (Z.eqb_spec q T24) as [Htop | Hin]; [clear - Htop Q2; lia |].
    cbn [mant expo].
    fold T23 T24 Pe Ne. rewrite Hsame, Hden'.
    rewrite !andb_true_iff, Z.leb_le, Z.ltb_lt, Z.leb_le.
    split; [clear - Q1 Q2; lia |].
    replace (q * den - num) with (- r) by (rewrite Hdm; ring).
    clear - Hle Hr. rewrite Z.abs_opp, Z.abs_eq; lia.
Qed.

Lemma round_quot_nearest (n d : Z) :
  0 < n -> 0 < d -> nearest_f32 n d (round_quot n d) = true.
Proof.
  intros Hn Hd. unfold round_quot.
  destruct (Z.eqb_spec n 0); [lia |].
  destruct (Z.ltb_spec n 0); [lia |].
  now apply round_pos_nearest.
Qed.

(** Being nearest to a fraction does not depend on how it is written. *)
Lemma nearest_f32_frac (n1 d1 n2 d2 : Z) (x : f32) :
  0 < d1 -> 0 < d2 -> n1 * d2 = n2 * d1 ->
  nearest_f32 n1 d1 x = true -> nearest_f32 n2 d2 x = true.
Proof.
  intros H1 H2 E. unfold nearest_f32.
  set (P := 2 ^ Z.max 0 (expo x)). set (N := 2 ^ Z.max 0 (- expo x)).
  rewrite !andb_true_iff, !Z.leb_le, !Z.ltb_lt.
  intros [Hm Herr]. split; [exact Hm |].
  assert (EX : (mant x * P * d1 - n1 * N) * d2 = (mant x * P * d2 - n2 * N) * d1).
  { transitivity (mant x * P * d1 * d2 - n1 * d2 * N); [ring |]. rewrite E. ring. }
  apply (Z.mul_le_mono_pos_r _ _ d1 H1).
  rewrite <- Z.mul_assoc, <- (Z.abs_eq d1) at 1 by lia.
  rewrite <- Z.abs_mul, <- EX, Z.abs_mul, (Z.abs_eq d2) by lia.
  replace (P * d2 * d1) with (P * d1 * d2) by ring.
  rewrite Z.mul_assoc. apply Z.mul_le_mono_nonneg_r; [lia | exact Herr].
Qed.

(** Integers below [2^23] convert to [float] without rounding. *)
Lemma f32_of_int_exact (a : Z) :
  0 < a < 2 ^ 23 ->
  expo (f32_of_int a) <= 0 /\
  mant (f32_of_int a) = a * 2 ^ (- expo (f32_of_int a)) /\
  0 < mant (f32_of_int a).
Proof.
  intros Ha. unfold f32_of_int.
  pose proof (round_quot_nearest a 1 ltac:(lia) ltac:(lia)) as Hn.
  unfold nearest_f32 in Hn.
  set (x := round_quot a 1) in *.
  rewrite !andb_true_iff, !Z.leb_le, !Z.ltb_lt in Hn.
  destruct Hn as [[Hlo Hhi] Herr]. rewrite !Z.mul_1_r in Herr.
  set (T := 2 ^ 23) in *. assert (HT : T = 8388608) by reflexivity. clearbody T.
  destruct (Z.le_gt_cases (expo x) 0) as [He | He].
  - split; [exact He |].
    rewrite (Z.max_l 0 (expo x)), (Z.max_r 0 (- expo x)) in Herr by lia.
    rewrite Z.pow_0_r, Z.mul_1_r in Herr. split; lia.
  - exfalso.
    rewrite (Z.max_r 0 (expo x)), (Z.max_l 0 (- expo x)) in Herr by lia.
    rewrite Z.pow_0_r, Z.mul_1_r in Herr.
    assert (HP : 2 ^ 1 <= 2 ^ expo x) by (apply Z.pow_le_mono_r; lia).
    change (2 ^ 1) with 2 in HP.
    assert (HmP : T * 2 ^ expo x <= mant x * 2 ^ expo x)
      by (apply Z.mul_le_mono_nonneg_r; lia).
    set (P := 2 ^ expo x) in *. clearbody P. clear - Ha HT Herr HP HmP. lia.
Qed.

(** The quotient of two small integers, computed in [float], is the
    binary32 value nearest to the exact quotient. *)
Lemma f32_div_int_nearest (raw k : Z) :
  0 < raw < 2 ^ 23 -> 0 < k < 2 ^ 23 ->
  nearest_f32 raw k (f32_div (f32_of_int raw) (f32_of_int k)) = true.
Proof.
  intros Hraw Hk.
  destruct (f32_of_int_exact raw Hraw) as (Hex & Hmx & Hpx).
  destruct (f32_of_int_exact k Hk) as (Hey & Hmy & Hpy).
  unfold f32_div.
  set (x := f32_of_int raw) in *. set (y := f32_of_int k) in *.
  set (s := expo x - expo y).
  assert (Hn : 0 < mant x * 2 ^ Z.max 0 s)
    by (apply Z.mul_pos_pos; [exact Hpx | apply pow2_pos]).
  assert (Hd : 0 < mant y * 2 ^ Z.max 0 (- s))
    by (apply Z.mul_pos_pos; [exact Hpy | apply pow2_pos]).
  apply (nearest_f32_frac (mant x * 2 ^ Z.max 0 s) (mant y * 2 ^ Z.max 0 (- s)) raw k);
    [exact Hd | lia | | now apply round_quot_nearest].
  rewrite Hmx, Hmy.
  transitivity (raw * k * (2 ^ (- expo x) * 2 ^ Z.max 0 s)); [ring |].
  transitivity (raw * k * (2 ^ (- expo y) * 2 ^ Z.max 0 (- s))); [| ring].
  f_equal. rewrite <- !Z.pow_add_r by lia. f_equal. unfold s. lia.
Qed.

(** Every 16-bit word but zero, divided by [100.0f], is the binary32 value
    nearest to the hundredth part of the word. *)
Lemma percent_word_nearest (raw : Z) :
  0 < raw <= 65535 ->
  nearest_f32 raw 100 (f32_div (f32_of_int raw) (f32_of_int 100)) = true.
Proof.
  intros Hraw. apply f32_div_int_nearest.
  - change (2 ^ 23) with 8388608. lia.
  - change (2 ^ 23) with 8388608. lia.
Qed.

Lemma percent_zero : f32_div (f32_of_int 0) (f32_of_int 100) = f32_zero.
Proof. reflexivity. Qed.

(* ====================================================================== *)
(** ** Well-formed frames *)
(* ====================================================================== *)

Lemma ParseLib_verify_valid (b : list byte) :
  valid_frame b -> ParseLib.gas_sensor_verify_checksum (Some b) = true.
Proof.
  intros (Hlen & H0 & H1 & Hc).
  apply ParseLib_verify_checksum_iff. auto.
Qed.

Lemma SerialLib_verify_valid (b : list byte) :
  valid_frame b -> SerialLib.gas_sensor_verify_checksum (Some b) = true.
Proof.
  intros (Hlen & H0 & H1 & Hc).
  apply SerialLib_verify_checksum_iff. exact Hc.
Qed.

(** Past the two validation steps of [gas_sensor_parse_frame]. *)
Ltac pass_validation Hv :=
  let Hlen := fresh "Hlen" in
  let H0 := fresh "Hsync0" in
  let H1 := fresh "Hsync1" in
  let Hc := fresh "Hchk" in
  pose proof Hv as (Hlen & H0 & H1 & Hc);
  unfold ParseLib.gas_sensor_parse_frame, SerialLib.gas_sensor_parse_frame;
  rewrite ?(ParseLib_verify_valid _ Hv), ?(SerialLib_verify_valid _ Hv);
  rewrite ?H0, ?H1, ?Z.eqb_refl;
  cbn [negb orb].

(* ====================================================================== *)
(** ** Waveform decoding *)
(* ====================================================================== *)

(** The specification's two sample values: the marker, and 500 for 5.00. *)
Example decode_percent_2byte_samples :
  decode_percent_2byte 0xFFFF = GAS_SENSOR_CONC_INVALID /\
  decode_percent_2byte 500 = f32_of_int 5 /\
  ParseLib.parse_concentration_2byte 500 = f32_of_int 5.
Proof. repeat split. Qed.

Lemma waveform_word_range (b : list byte) (k : nat) : 0 <= waveform_word b k <= 65535.
Proof.
  unfold waveform_word, decode_u16_be.
  pose proof (idx_range b (4 + 2 * k)). pose proof (idx_range b (5 + 2 * k)). lia.
Qed.

Lemma ParseLib_uint16_be_at (b : list byte) (k : nat) :
  ParseLib.parse_uint16_be (at_offset b k) = decode_u16_be (idx b k) (idx b (S k)).
Proof.
  unfold ParseLib.parse_uint16_be, decode_u16_be.
  rewrite !idx_at_offset, Nat.add_0_r, Nat.add_1_r.
  apply be16_value; apply idx_range.
Qed.

Lemma SerialLib_uint16_be_at (b : list byte) (k : nat) :
  SerialLib.parse_uint16_be (at_offset b k) = decode_u16_be (idx b k) (idx b (S k)).
Proof.
  unfold SerialLib.parse_uint16_be, decode_u16_be.
  rewrite !idx_at_offset, Nat.add_0_r, Nat.add_1_r.
  apply be16_value; apply idx_range.
Qed.

Lemma at_offset_add (b : list byte) (j k : nat) :
  at_offset (at_offset b j) k = at_offset b (j + k).
Proof. unfold at_offset. rewrite skipn_skipn. f_equal. lia. Qed.

Lemma ParseLib_parse_waveform_fields (b : list byte) :
  waveform_fields (ParseLib.parse_waveform b) =
  map (fun k => decode_percent_2byte (waveform_word b k)) (seq 0 5).
Proof.
  unfold ParseLib.parse_waveform, waveform_fields, ParseLib.parse_concentration_2byte.
  cbn [wf_co2 wf_n2o wf_aa1 wf_aa2 wf_o2].
  rewrite !ParseLib_uint16_be_at. reflexivity.
Qed.

Lemma SerialLib_parse_waveform_fields (b : list byte) :
  waveform_fields (SerialLib.parse_waveform b) =
  map (fun k => f32_div (f32_of_int (waveform_word b k)) (f32_of_int 100)) (seq 0 5).
Proof.
  unfold SerialLib.parse_waveform, waveform_fields.
  cbn [wf_co2 wf_n2o wf_aa1 wf_aa2 wf_o2].
  rewrite !at_offset_add, !SerialLib_uint16_be_at. reflexivity.
Qed.

(** Whatever the frame id and the slow-data pointer, a validated frame has
    its waveform written when the pointer is there. *)
Lemma ParseLib_waveform_written b slow w st :
  valid_frame b ->
  out_waveform (ParseLib.gas_sensor_parse_frame (Some b) slow (Some w) st) =
  Some (ParseLib.parse_waveform b).
Proof.
  intros Hv. pass_validation Hv.
  destruct slow; [destruct (_ >=? _) |]; reflexivity.
Qed.

Lemma SerialLib_waveform_written b slow w st :
  valid_frame b ->
  out_waveform (SerialLib.gas_sensor_parse_frame (Some b) slow (Some w) st) =
  Some (SerialLib.parse_waveform b).
Proof.
  intros Hv. pass_validation Hv.
  destruct slow; [destruct (SerialLib.parse_slow_switch _ _ _) |]; reflexivity.
Qed.

(** C4 (as stated) does not hold of the serial revision: in [ffff_frame],
    a valid frame, the CO2 word is 0xFFFF, and the decoded CO2 is
    655.35 (10737254 * 2^-14) instead of the invalid marker. *)
Lemma serial_waveform_ffff_is_not_marker :
  valid_frame ffff_frame /\
  waveform_word ffff_frame 0 = 0xFFFF /\
  option_map wf_co2
    (out_waveform (SerialLib.gas_sensor_parse_frame
                     (Some ffff_frame) None (Some waveform_zero) None))
  = Some (mk_f32 10737254 (-14)) /\
  mk_f32 10737254 (-14) <> GAS_SENSOR_CONC_INVALID.
Proof.
  split; [repeat split |]. split; [reflexivity |]. split; [reflexivity |].
  discriminate.
Qed.

(** C4 (amended): for every 21-byte frame with valid sync and checksum, the
    five waveform concentrations come from the big-endian 16-bit words in
    bytes [4..14). In the parsing library a word 0xFFFF yields the marker
    [GAS_SENSOR_CONC_INVALID] and any other word [raw / 100.0f]. In the
    serial revision every word, 0xFFFF included, yields [raw / 100.0f]. The
    quotient is zero for a zero word, else the binary32 value nearest to
    raw/100, and it is never the marker. *)
Theorem waveform_decode_by_revision
    (b : list byte) (slow : option gas_sensor_slow_data_t)
    (w : gas_sensor_waveform_t) (st : option gas_sensor_status_t) :
  valid_frame b ->
  (exists w', out_waveform (ParseLib.gas_sensor_parse_frame (Some b) slow (Some w) st)
              = Some w' /\
              waveform_fields w' =
              map (fun k => decode_percent_2byte (waveform_word b k)) (seq 0 5)) /\
  (exists w', out_waveform (SerialLib.gas_sensor_parse_frame (Some b) slow (Some w) st)
              = Some w' /\
              waveform_fields w' =
              map (fun k => f32_div (f32_of_int (waveform_word b k)) (f32_of_int 100))
                  (seq 0 5)) /\
  (forall k, let raw := waveform_word b k in
             let x := f32_div (f32_of_int raw) (f32_of_int 100) in
             (raw = 0xFFFF -> decode_percent_2byte raw = GAS_SENSOR_CONC_INVALID) /\
             (raw <> 0xFFFF -> decode_percent_2byte raw = x) /\
             x <> GAS_SENSOR_CONC_INVALID /\
             (raw = 0 -> x = f32_zero) /\
             (raw <> 0 -> nearest_f32 raw 100 x = true)).
Proof.
  intros Hv. split; [| split].
  - exists (ParseLib.parse_waveform b). split.
    + now apply ParseLib_waveform_written.
    + apply ParseLib_parse_waveform_fields.
  - exists (SerialLib.parse_waveform b). split.
    + now apply SerialLib_waveform_written.
    + apply SerialLib_parse_waveform_fields.
  - intros k raw x. pose proof (waveform_word_range b k) as Hr. fold raw in Hr.
    unfold decode_percent_2byte. repeat split.
    + intros ->. reflexivity.
    + intros Hne. destruct (Z.eqb_spec raw 0xFFFF); [contradiction | reflexivity].
    + apply scaled_not_invalid; [lia | reflexivity].
    + intros E. unfold x. rewrite E. reflexivity.
    + intros Hne. apply percent_word_nearest. lia.
Qed.

(** The theorem at the frame of the example program. *)
Lemma waveform_decode_by_revision_witness :
  valid_frame example_frame /\
  exists w',
    out_waveform (ParseLib.gas_sensor_parse_frame
                    (Some example_frame) None (Some waveform_zero) None) = Some w' /\
    waveform_fields w' =
    map (fun k => decode_percent_2byte (waveform_word example_frame k)) (seq 0 5).
Proof.
  assert (Hv : valid_frame example_frame) by (repeat split).
  split; [exact Hv |].
  exact (proj1 (waveform_decode_by_revision example_frame None waveform_zero None Hv)).
Defined.

(* ====================================================================== *)
(** ** The slow-data aggregate *)
(* ====================================================================== *)

(** An aggregate is its last frame id and its seven slots. *)
Lemma slow_data_ext (a b : gas_sensor_slow_data_t) :
  last_frame_id a = last_frame_id b ->
  (forall s, slot a s = slot b s) ->
  a = b.
Proof.
  intros Hid Hs. destruct a, b. cbn in Hid. subst.
  pose proof (Hs InspVals) as H1. pose proof (Hs ExpVals) as H2.
  pose proof (Hs MomVals) as H3. pose proof (Hs GenVals) as H4.
  pose proof (Hs SensorRegs) as H5. pose proof (Hs ConfigData) as H6.
  pose proof (Hs ServiceData) as H7.
  cbn in H1, H2, H3, H4, H5, H6, H7. congruence.
Qed.

Lemma small_id_cases (k : Z) :
  0 <= k <= 9 ->
  k = 0 \/ k = 1 \/ k = 2 \/ k = 3 \/ k = 4 \/ k = 5 \/ k = 6 \/ k = 7 \/ k = 8 \/ k = 9.
Proof. lia. Qed.

Ltac each_id H :=
  apply small_id_cases in H;
  destruct H as [H | [H | [H | [H | [H | [H | [H | [H | [H | H]]]]]]]]].

(** The serial revision's switch falls to its default label from 10 on. *)
Lemma serial_switch_default (k : Z) (slow : list byte) (sd : gas_sensor_slow_data_t) :
  10 <= k -> SerialLib.parse_slow_switch k slow sd = None.
Proof.
  intros Hk. unfold SerialLib.parse_slow_switch.
  destruct k as [| p | p]; try lia.
  do 4 (destruct p as [p | p |]; try lia; try reflexivity).
Qed.

(** C3: for every 21-byte frame with valid sync and checksum whose frame id
    [k] is in 0..6, and every non-null aggregate, [gas_sensor_parse_frame]
    (either revision) succeeds, sets [last_frame_id] to [k], and leaves every
    slot other than the one selected by [k] at its pre-call value; the
    selected slot is overwritten, its new value not depending on the old
    aggregate. *)
Theorem parse_frame_merges_one_slot
    (rev : revision) (b : list byte) (sd : gas_sensor_slow_data_t)
    (w : option gas_sensor_waveform_t) (st : option gas_sensor_status_t) (k : Z) :
  valid_frame b -> frame_id_of b = k -> 0 <= k <= 6 ->
  exists sd' sel,
    ret (parse_frame_of rev (Some b) (Some sd) w st) = GAS_SENSOR_OK /\
    out_slow_data (parse_frame_of rev (Some b) (Some sd) w st) = Some sd' /\
    last_frame_id sd' = k /\
    slot_of_frame_id k = Some sel /\
    (forall s, s <> sel -> slot sd' s = slot sd s) /\
    (forall sd2 sd2',
        out_slow_data (parse_frame_of rev (Some b) (Some sd2) w st) = Some sd2' ->
        slot sd2' sel = slot sd' sel).
Proof.
  intros Hv Hid Hk. unfold frame_id_of in Hid.
  assert (Hk9 : 0 <= k <= 9) by lia.
  destruct rev; cbn [parse_frame_of]; pass_validation Hv; rewrite Hid; clear Hid;
    each_id Hk9; try lia; subst k; cbn;
    eexists; eexists;
    (split; [reflexivity |]); (split; [reflexivity |]); (split; [reflexivity |]);
    (split; [reflexivity |]);
    (split; [intros s Hs; destruct s; try reflexivity; contradiction |]);
    intros sd2 sd2' E; injection E as <-; reflexivity.
Qed.

(** The theorem at the frame of the example program, frame id 3. *)
Lemma parse_frame_merges_one_slot_witness :
  exists sd' sel,
    ret (parse_frame_of Serial (Some example_frame) (Some slow_data_zero) None None)
    = GAS_SENSOR_OK /\
    out_slow_data (parse_frame_of Serial (Some example_frame) (Some slow_data_zero)
                                  None None) = Some sd' /\
    last_frame_id sd' = 3 /\
    slot_of_frame_id 3 = Some sel /\
    (forall s, s <> sel -> slot sd' s = slot slow_data_zero s) /\
    (forall sd2 sd2',
        out_slow_data (parse_frame_of Serial (Some example_frame) (Some sd2) None None)
        = Some sd2' ->
        slot sd2' sel = slot sd' sel).
Proof.
  apply (parse_frame_merges_one_slot Serial example_frame slow_data_zero None None 3).
  - repeat split.
  - reflexivity.
  - lia.
Defined.

(* ====================================================================== *)
(** ** Frame ids 7..9 and from 10 on *)
(* ====================================================================== *)

(** C5 (as stated) does not hold: [bad_id_frame] is a valid frame with frame
    id 10, and with a [NULL] slow-data pointer both revisions return
    [GAS_SENSOR_OK], not [GAS_SENSOR_ERR_INVALID_FRAME]. *)
Lemma bad_id_accepted_without_slow_data :
  valid_frame bad_id_frame /\
  frame_id_of bad_id_frame = 10 /\
  ret (ParseLib.gas_sensor_parse_frame (Some bad_id_frame) None
         (Some waveform_zero) (Some status_zero)) = GAS_SENSOR_OK /\
  ret (SerialLib.gas_sensor_parse_frame (Some bad_id_frame) None
         (Some waveform_zero) (Some status_zero)) = GAS_SENSOR_OK /\
  GAS_SENSOR_OK <> GAS_SENSOR_ERR_INVALID_FRAME.
Proof.
  split; [repeat split |]. repeat split. discriminate.
Qed.

(** C5 (amended): for every 21-byte frame with valid sync and checksum whose
    frame id is at least 10, and every combination of the waveform and status
    pointers, [gas_sensor_parse_frame] (either revision) returns
    [GAS_SENSOR_ERR_INVALID_FRAME] when the slow-data pointer is non-null,
    and [GAS_SENSOR_OK] when it is [NULL]: the frame id is examined only
    inside the slow-data branch. *)
Theorem bad_id_rejected_with_slow_data
    (rev : revision) (b : list byte) (slow : option gas_sensor_slow_data_t)
    (w : option gas_sensor_waveform_t) (st : option gas_sensor_status_t) :
  valid_frame b -> 10 <= frame_id_of b ->
  ret (parse_frame_of rev (Some b) slow w st) =
  match slow with
  | Some _ => GAS_SENSOR_ERR_INVALID_FRAME
  | None => GAS_SENSOR_OK
  end.
Proof.
  intros Hv Hid. unfold frame_id_of in Hid.
  destruct rev; cbn [parse_frame_of]; pass_validation Hv; destruct slow as [sd |];
    try reflexivity.
  - unfold GAS_SENSOR_FRAME_ID_MAX.
    destruct (Z.geb_spec (idx b 2) 10); [reflexivity | lia].
  - rewrite serial_switch_default by exact Hid. reflexivity.
Qed.

(** The theorem at [bad_id_frame], frame id 10. *)
Lemma bad_id_rejected_with_slow_data_witness :
  ret (parse_frame_of Serial (Some bad_id_frame) (Some slow_data_zero) None None)
  = GAS_SENSOR_ERR_INVALID_FRAME.
Proof.
  apply (bad_id_rejected_with_slow_data Serial bad_id_frame (Some slow_data_zero) None None).
  - repeat split.
  - vm_compute. discriminate.
Defined.

(** C6 (as stated) does not hold: [reserved_frame] is a valid frame with
    frame id 7; parsed into an aggregate whose [last_frame_id] is 0, both
    revisions succeed and leave [last_frame_id] at 7. *)
Lemma reserved_id_sets_last_frame_id :
  valid_frame reserved_frame /\
  frame_id_of reserved_frame = 7 /\
  last_frame_id slow_data_zero = 0 /\
  option_map last_frame_id
    (out_slow_data (ParseLib.gas_sensor_parse_frame
                      (Some reserved_frame) (Some slow_data_zero) None None)) = Some 7 /\
  option_map last_frame_id
    (out_slow_data (SerialLib.gas_sensor_parse_frame
                      (Some reserved_frame) (Some slow_data_zero) None None)) = Some 7.
Proof.
  split; [repeat split |]. repeat split.
Qed.

(** C6 (amended): for every 21-byte frame with valid sync and checksum whose
    frame id [k] is 7, 8 or 9, [gas_sensor_parse_frame] (either revision)
    returns success and changes none of the seven slots of the aggregate; its
    [last_frame_id] is set to [k]. *)
Theorem reserved_id_keeps_slots
    (rev : revision) (b : list byte) (slow : option gas_sensor_slow_data_t)
    (w : option gas_sensor_waveform_t) (st : option gas_sensor_status_t) (k : Z) :
  valid_frame b -> frame_id_of b = k -> 7 <= k <= 9 ->
  ret (parse_frame_of rev (Some b) slow w st) = GAS_SENSOR_OK /\
  out_slow_data (parse_frame_of rev (Some b) slow w st)
  = option_map (set_last_frame_id k) slow /\
  (forall sd sd', out_slow_data (parse_frame_of rev (Some b) (Some sd) w st) = Some sd' ->
                  last_frame_id sd' = k /\ forall s, slot sd' s = slot sd s).
Proof.
  intros Hv Hid Hk. unfold frame_id_of in Hid.
  assert (Hk9 : 0 <= k <= 9) by lia.
  destruct rev; cbn [parse_frame_of]; pass_validation Hv; rewrite Hid; clear Hid;
    each_id Hk9; try lia; subst k; cbn;
    (split; [destruct slow; reflexivity |]);
    (split; [destruct slow; reflexivity |]);
    (intros sd sd' E; injection E as <-;
     split; [reflexivity | intros s; destruct s; reflexivity]).
Qed.

(** The theorem at [reserved_frame], frame id 7. *)
Lemma reserved_id_keeps_slots_witness :
  ret (parse_frame_of Parser (Some reserved_frame) (Some slow_data_zero) None None)
  = GAS_SENSOR_OK /\
  out_slow_data (parse_frame_of Parser (Some reserved_frame) (Some slow_data_zero) None None)
  = option_map (set_last_frame_id 7) (Some slow_data_zero) /\
  (forall sd sd',
      out_slow_data (parse_frame_of Parser (Some reserved_frame) (Some sd) None None)
      = Some sd' ->
      last_frame_id sd' = 7 /\ forall s, slot sd' s = slot sd s).
Proof.
  apply (reserved_id_keeps_slots Parser reserved_frame (Some slow_data_zero) None None 7).
  - repeat split.
  - reflexivity.
  - lia.
Defined.

(* ====================================================================== *)
(** ** Errors raised before any output is written *)
(* ====================================================================== *)

(** C9: whenever [gas_sensor_parse_frame] (either revision) returns the
    NULL-parameter error, the checksum error, or the invalid-frame error for
    missing sync bytes, the slow-data, waveform and status structures equal
    their pre-call values. The NULL frame pointer gives the first error and
    missing sync bytes give the invalid-frame error. *)
Theorem early_errors_write_nothing
    (rev : revision) (fd : option (list byte))
    (slow : option gas_sensor_slow_data_t)
    (w : option gas_sensor_waveform_t) (st : option gas_sensor_status_t) :
  (forall b, fd = Some b -> length b = 21%nat) ->
  (fd = None -> ret (parse_frame_of rev fd slow w st) = GAS_SENSOR_ERR_NULL_PARAM) /\
  (sync_invalid fd ->
   ret (parse_frame_of rev fd slow w st) = GAS_SENSOR_ERR_INVALID_FRAME) /\
  (ret (parse_frame_of rev fd slow w st) = GAS_SENSOR_ERR_NULL_PARAM \/
   ret (parse_frame_of rev fd slow w st) = GAS_SENSOR_ERR_CHECKSUM \/
   sync_invalid fd ->
   untouched (parse_frame_of rev fd slow w st) slow w st).
Proof.
  intros _.
  destruct rev; cbn [parse_frame_of];
    unfold ParseLib.gas_sensor_parse_frame, SerialLib.gas_sensor_parse_frame;
    (destruct fd as [b |];
     [| split; [reflexivity |]; split; [contradiction | intros _; repeat split]]);
    cbn [sync_invalid];
    destruct (Z.eqb_spec (idx b 0) GAS_SENSOR_FLAG1) as [E0 | N0];
    destruct (Z.eqb_spec (idx b 1) GAS_SENSOR_FLAG2) as [E1 | N1];
    cbn [negb orb];
    try (split; [discriminate |]; split; [reflexivity | intros _; repeat split]);
    (match goal with
     | |- context [negb ?c] => destruct c
     end; cbn [negb];
     [| split; [discriminate |]; split; [tauto | intros _; repeat split]]);
    (split; [discriminate |]); (split; [tauto |]);
    intros [H | [H | [H | H]]]; try contradiction; exfalso; revert H;
    destruct slow;
    repeat match goal with
           | |- context [if ?c then _ else _] => destruct c
           | |- context [match ?c with Some _ => _ | None => _ end] => destruct c
           end; discriminate.
Qed.

(** The theorem at twenty-one zero bytes, which lack the sync bytes. *)
Lemma early_errors_write_nothing_witness :
  untouched (parse_frame_of Serial (Some zero_frame) (Some slow_data_zero)
                            (Some waveform_zero) (Some status_zero))
            (Some slow_data_zero) (Some waveform_zero) (Some status_zero).
Proof.
  apply (early_errors_write_nothing Serial (Some zero_frame)).
  - intros b E. injection E as <-. reflexivity.
  - right. right. left. vm_compute. discriminate.
Defined.

(* ====================================================================== *)
(** ** Initialisation of the aggregate *)
(* ====================================================================== *)

(** C7 (as stated) does not hold of the parsing library: after its
    [gas_sensor_init_slow_data], [last_frame_id], [resp_rate] and
    [time_since_breath] are 0, not 0xFF. *)
Lemma parser_init_leaves_zero :
  exists s,
    ParseLib.gas_sensor_init_slow_data (Some slow_data_zero) = Some s /\
    last_frame_id s = 0 /\
    resp_rate (gen_vals s) = 0 /\
    time_since_breath (gen_vals s) = 0 /\
    0 <> GAS_SENSOR_NO_DATA.
Proof.
  eexists. split; [reflexivity |]. repeat split. discriminate.
Qed.

(** C7 (amended): for every non-null aggregate, [gas_sensor_init_slow_data]
    sets the fifteen concentrations and the atmospheric pressure to
    [GAS_SENSOR_CONC_INVALID] in both revisions. The serial revision sets
    [resp_rate] and [time_since_breath] to 0xFF and [last_frame_id] to 0xFF;
    the parsing library leaves these three at 0. All other members are
    zero or false in both. *)
Theorem init_slow_data_by_revision (sd0 : gas_sensor_slow_data_t) :
  (exists s,
      SerialLib.gas_sensor_init_slow_data (Some sd0) = Some s /\
      conc_fields s = repeat GAS_SENSOR_CONC_INVALID 16 /\
      resp_rate (gen_vals s) = GAS_SENSOR_NO_DATA /\
      time_since_breath (gen_vals s) = GAS_SENSOR_NO_DATA /\
      last_frame_id s = 0xFF /\
      primary_agent (gen_vals s) = 0 /\ secondary_agent (gen_vals s) = 0 /\
      sensor_regs s = sensor_regs slow_data_zero /\
      config_data s = config_data slow_data_zero /\
      service_data s = service_data slow_data_zero) /\
  (exists s,
      ParseLib.gas_sensor_init_slow_data (Some sd0) = Some s /\
      conc_fields s = repeat GAS_SENSOR_CONC_INVALID 16 /\
      resp_rate (gen_vals s) = 0 /\
      time_since_breath (gen_vals s) = 0 /\
      last_frame_id s = 0 /\
      primary_agent (gen_vals s) = 0 /\ secondary_agent (gen_vals s) = 0 /\
      sensor_regs s = sensor_regs slow_data_zero /\
      config_data s = config_data slow_data_zero /\
      service_data s = service_data slow_data_zero).
Proof.
  split; eexists; (split; [reflexivity |]); repeat split.
Qed.

(* ====================================================================== *)
(** ** The frame of the example program *)
(* ====================================================================== *)

(** C8 (as stated) does not hold: bytes 12 and 13 of the example frame are
    06 40, so the fifth waveform word is 0x0640 = 1600 and the decoded O2
    concentration is 16.0 (2^23 * 2^-19) in both revisions, not zero. *)
Lemma example_frame_o2_is_sixteen :
  waveform_word example_frame 4 = 1600 /\
  option_map wf_o2
    (out_waveform (ParseLib.gas_sensor_parse_frame (Some example_frame)
       (Some slow_data_zero) (Some waveform_zero) (Some status_zero)))
  = Some (mk_f32 (2 ^ 23) (-19)) /\
  option_map wf_o2
    (out_waveform (SerialLib.gas_sensor_parse_frame (Some example_frame)
       (Some slow_data_zero) (Some waveform_zero) (Some status_zero)))
  = Some (mk_f32 (2 ^ 23) (-19)) /\
  mk_f32 (2 ^ 23) (-19) = f32_of_int 16 /\
  mk_f32 (2 ^ 23) (-19) <> f32_zero.
Proof.
  repeat split. discriminate.
Qed.

(** C8 (amended): the frame AA 55 03 00 00 00 00 00 00 00 00 00 06 40 00 FF
    04 00 03 F5 BC passes checksum verification (0xBC is the two's complement
    of the sum 580 of its bytes 2..19), and [gas_sensor_parse_frame] (either
    revision) succeeds on it with frame id 3 and with the CO2, N2O, AA1 and
    AA2 concentrations zero and the O2 concentration 16.0. *)
Theorem example_frame_decodes
    (rev : revision) (sd : gas_sensor_slow_data_t)
    (w : gas_sensor_waveform_t) (st : option gas_sensor_status_t) :
  byte_sum_2_19 example_frame = 580 /\
  checksum example_frame = 0xBC /\
  idx example_frame 20 = 0xBC /\
  ParseLib.gas_sensor_verify_checksum (Some example_frame) = true /\
  SerialLib.gas_sensor_verify_checksum (Some example_frame) = true /\
  exists sd' w',
    parse_frame_of rev (Some example_frame) (Some sd) (Some w) st
    = mk_parse_result GAS_SENSOR_OK (Some sd') (Some w')
        (option_map (fun _ => decode_status 0) st) /\
    last_frame_id sd' = 3 /\
    waveform_fields w' = [f32_zero; f32_zero; f32_zero; f32_zero; f32_of_int 16].
Proof.
  do 5 (split; [reflexivity |]).
  destruct rev; eexists; eexists; (split; [destruct st; reflexivity |]);
    split; reflexivity.
Qed.

(* ====================================================================== *)
(** ** The receive buffer of the serial revision *)
(* ====================================================================== *)

Section RxBuffer.

Import SerialLib.

Lemma memcpy_at_length (arr src : list byte) (off n : nat) :
  (off + n <= length arr)%nat -> (n <= length src)%nat ->
  length (memcpy_at arr off src n) = length arr.
Proof.
  intros Harr Hsrc. unfold memcpy_at.
  rewrite !length_app, !length_firstn, length_skipn. lia.
Qed.

Lemma memmove_front_length (arr : list byte) (k n : nat) :
  (k + n <= length arr)%nat -> length (memmove_front arr k n) = length arr.
Proof.
  intros H. unfold memmove_front. apply memcpy_at_length.
  - lia.
  - rewrite length_skipn. lia.
Qed.

(** The scan answers -1 or an index among those it visited. *)
Lemma sync_scan_range (rx : list byte) (n : nat) :
  forall i, sync_scan rx i n = -1 \/
            Z.of_nat i <= sync_scan rx i n < Z.of_nat i + Z.of_nat n.
Proof.
  induction n as [| n IH]; intros i; simpl.
  - now left.
  - destruct (_ && _).
    + right. lia.
    + destruct (IH (S i)) as [E | R]; [now left | right; lia].
Qed.

(** Where the scan stops, the two sync bytes are. *)
Lemma sync_scan_found (rx : list byte) (n : nat) :
  forall i, sync_scan rx i n <> -1 ->
            idx rx (Z.to_nat (sync_scan rx i n)) = GAS_SENSOR_FLAG1 /\
            idx rx (S (Z.to_nat (sync_scan rx i n))) = GAS_SENSOR_FLAG2.
Proof.
  induction n as [| n IH]; intros i; simpl.
  - congruence.
  - destruct (Z.eqb_spec (idx rx i) GAS_SENSOR_FLAG1) as [E1 | N1];
      destruct (Z.eqb_spec (idx rx (S i)) GAS_SENSOR_FLAG2) as [E2 | N2];
      cbn [andb]; try apply IH.
    intros _. rewrite Nat2Z.id. auto.
Qed.

Lemma append_rx_invariant (h : gas_sensor_handle) (temp_buffer : list byte) :
  rx_invariant h -> (length temp_buffer <= TEMP_BUFFER_SIZE)%nat ->
  rx_invariant (append_rx h temp_buffer).
Proof.
  intros [Hlen Hfill] Htemp. unfold append_rx, TEMP_BUFFER_SIZE, RX_BUFFER_SIZE in *.
  destruct (Z.gtb_spec (Z.of_nat (length temp_buffer)) 0) as [Hpos | Hzero];
    [| now split].
  rewrite Nat2Z.id.
  destruct (Z.gtb_spec (rx_buffer_len h + Z.of_nat (length temp_buffer)) 256);
    (split; cbn [rx_buffer rx_buffer_len set_rx]; unfold RX_BUFFER_SIZE;
     [rewrite memcpy_at_length; lia | lia]).
Qed.

Lemma drop_front_invariant (k : Z) (h : gas_sensor_handle) :
  rx_invariant h -> 0 <= k <= rx_buffer_len h -> rx_invariant (drop_front k h).
Proof.
  intros [Hlen Hfill] Hk. unfold drop_front, RX_BUFFER_SIZE in *.
  split; cbn [rx_buffer rx_buffer_len set_rx]; unfold RX_BUFFER_SIZE; [| lia].
  rewrite memmove_front_length; lia.
Qed.

Lemma set_slow_data_invariant (sd : gas_sensor_slow_data_t) (h : gas_sensor_handle) :
  rx_invariant h -> rx_invariant (set_slow_data sd h).
Proof. intros H. exact H. Qed.

Lemma drop_front_len (k : Z) (h : gas_sensor_handle) :
  rx_buffer_len (drop_front k h) = rx_buffer_len h - k.
Proof. reflexivity. Qed.

(** The fill length once the new bytes are in: zero was put in its place
    first when they did not fit. *)
Lemma append_rx_len (h : gas_sensor_handle) (temp_buffer : list byte) :
  rx_buffer_len h <= RX_BUFFER_SIZE ->
  rx_buffer_len (append_rx h temp_buffer) =
  if rx_buffer_len h + Z.of_nat (length temp_buffer) >? RX_BUFFER_SIZE
  then Z.of_nat (length temp_buffer)
  else rx_buffer_len h + Z.of_nat (length temp_buffer).
Proof.
  intros Hfill. unfold append_rx.
  destruct (Z.gtb_spec (Z.of_nat (length temp_buffer)) 0) as [Hpos | Hzero].
  - destruct (_ >? RX_BUFFER_SIZE); reflexivity.
  - assert (Z.of_nat (length temp_buffer) = 0) as -> by lia. rewrite Z.add_0_r.
    destruct (Z.gtb_spec (rx_buffer_len h) RX_BUFFER_SIZE); [lia | reflexivity].
Qed.

(** C10: every call of [gas_sensor_read_frame] preserves the bounds
    [0 <= rx_buffer_len <= 256] (and the 256 bytes of the array). A call
    takes at most 128 new bytes; the fill length is reset to 0 before the
    append exactly when the new bytes would exceed the capacity; and the
    removals that follow (one byte, the bytes before the sync pattern, one
    frame) never raise the fill length above its value after the append. *)
Theorem read_frame_preserves_rx_bounds
    (h : gas_sensor_handle) (io : serial_read)
    (slow : option gas_sensor_slow_data_t)
    (w : option gas_sensor_waveform_t) (st : option gas_sensor_status_t) :
  rx_invariant h ->
  exists h',
    rr_handle (gas_sensor_read_frame (Some h) io slow w st) = Some h' /\
    rx_invariant h' /\
    match io with
    | ReadError => h' = h
    | ReadReady pending =>
        let temp_buffer := firstn TEMP_BUFFER_SIZE pending in
        let n := Z.of_nat (length temp_buffer) in
        n <= 128 /\
        rx_buffer_len (append_rx h temp_buffer) =
        (if rx_buffer_len h + n >? RX_BUFFER_SIZE then n else rx_buffer_len h + n) /\
        rx_buffer_len h' <= rx_buffer_len (append_rx h temp_buffer)
    end.
Proof.
  intros Hinv. unfold gas_sensor_read_frame.
  destruct io as [| pending].
  { exists h. repeat split; apply Hinv. }
  cbv zeta.
  assert (Htemp : (length (firstn TEMP_BUFFER_SIZE pending) <= TEMP_BUFFER_SIZE)%nat)
    by (rewrite length_firstn; lia).
  pose proof (append_rx_invariant h _ Hinv Htemp) as H1.
  pose proof (append_rx_len h (firstn TEMP_BUFFER_SIZE pending) (proj2 (proj2 Hinv))) as Hlen1.
  set (h1 := append_rx h (firstn TEMP_BUFFER_SIZE pending)) in *.
  pose proof (sync_scan_range (rx_buffer h1) (Z.to_nat (rx_buffer_len h1 - 1)) 0) as Hscan.
  set (fs := sync_scan (rx_buffer h1) 0 (Z.to_nat (rx_buffer_len h1 - 1))) in *.
  assert (Hn : Z.of_nat (length (firstn TEMP_BUFFER_SIZE pending)) <= 128)
    by (unfold TEMP_BUFFER_SIZE in *; lia).
  assert (Hfill1 : 0 <= rx_buffer_len h1 <= RX_BUFFER_SIZE) by apply H1.
  destruct (Z.eqb_spec fs (-1)) as [Hnone | Hsome].
  { destruct (Z.ltb_spec (rx_buffer_len h1) 2).
    - exists h1. cbn [rr_handle]. repeat split; try apply H1; try assumption; lia.
    - exists (drop_front 1 h1). cbn [rr_handle].
      split; [reflexivity |]. split; [apply drop_front_invariant; [assumption | lia] |].
      rewrite drop_front_len. repeat split; try assumption; lia. }
  assert (Hfs : 0 <= fs < rx_buffer_len h1 - 1) by (destruct Hscan; lia).
  set (h2 := if fs >? 0 then drop_front fs h1 else h1).
  assert (H2 : rx_invariant h2 /\ rx_buffer_len h2 <= rx_buffer_len h1).
  { unfold h2. destruct (fs >? 0).
    - split; [apply drop_front_invariant; [assumption | lia] | rewrite drop_front_len; lia].
    - split; [assumption | lia]. }
  clearbody h2. destruct H2 as [H2 Hle2].
  destruct (Z.ltb_spec (rx_buffer_len h2) GAS_SENSOR_FRAME_SIZE) as [Hshort | Hfull].
  { exists h2. cbn [rr_handle]. repeat split; try apply H2; try assumption; lia. }
  set (pr := gas_sensor_parse_frame (Some (rx_buffer h2)) (Some (slow_data h2)) w st).
  set (h3 := match out_slow_data pr with Some sd => set_slow_data sd h2 | None => h2 end).
  assert (H3 : rx_invariant h3 /\ rx_buffer_len h3 = rx_buffer_len h2)
    by (unfold h3; destruct (out_slow_data pr); split; (assumption || reflexivity)).
  clearbody h3. destruct H3 as [H3 Heq3].
  set (h4 := if (ret pr =? GAS_SENSOR_OK) || (ret pr =? GAS_SENSOR_ERR_CHECKSUM)
             then drop_front GAS_SENSOR_FRAME_SIZE h3 else h3).
  assert (H4 : rx_invariant h4 /\ rx_buffer_len h4 <= rx_buffer_len h3).
  { unfold h4. destruct (_ || _).
    - split; [apply drop_front_invariant; [assumption | unfold GAS_SENSOR_FRAME_SIZE in *; lia]
             | rewrite drop_front_len; unfold GAS_SENSOR_FRAME_SIZE; lia].
    - split; [assumption | lia]. }
  clearbody h4. destruct H4 as [H4 Hle4].
  destruct (negb (ret pr =? GAS_SENSOR_OK)).
  { exists h4. cbn [rr_handle]. repeat split; try apply H4; try assumption; lia. }
  destruct (callback h4) as [cb |].
  - destruct (negb _); eexists; cbn [rr_handle]; (split; [reflexivity |]);
      (split; [apply set_slow_data_invariant; assumption |]);
      cbn [rx_buffer_len set_slow_data]; repeat split; try assumption; lia.
  - exists h4. cbn [rr_handle]. repeat split; try apply H4; try assumption; lia.
Qed.

(** The theorem at a fresh handle receiving the frame of the example program. *)
Lemma read_frame_preserves_rx_bounds_witness :
  exists h',
    rr_handle (gas_sensor_read_frame (Some fresh_handle) (ReadReady example_frame)
                                     None None None) = Some h' /\
    rx_invariant h' /\
    Z.of_nat (length (firstn TEMP_BUFFER_SIZE example_frame)) <= 128 /\
    rx_buffer_len (append_rx fresh_handle (firstn TEMP_BUFFER_SIZE example_frame)) = 21 /\
    rx_buffer_len h' <= 21.
Proof.
  apply (read_frame_preserves_rx_bounds fresh_handle (ReadReady example_frame) None None None).
  split; [reflexivity | unfold RX_BUFFER_SIZE; cbn; lia].
Defined.

Lemma firstn_skipn_swap (l : list byte) (k n : nat) :
  firstn n (skipn k l) = skipn k (firstn (k + n) l).
Proof.
  revert l. induction k as [| k IH]; intros l.
  - reflexivity.
  - destruct l as [| x l]; [now rewrite firstn_nil | apply IH].
Qed.

(** The content after a removal is the content without its first [k] bytes. *)
Lemma drop_front_content (k : Z) (h : gas_sensor_handle) :
  rx_invariant h -> 0 <= k <= rx_buffer_len h ->
  rx_content (drop_front k h) = skipn (Z.to_nat k) (rx_content h).
Proof.
  intros [Hlen Hfill] Hk. unfold rx_content, drop_front, RX_BUFFER_SIZE in *.
  cbn [rx_buffer rx_buffer_len set_rx]. unfold memmove_front, memcpy_at.
  cbn [firstn app Nat.add].
  rewrite firstn_app, firstn_firstn, Nat.min_id.
  rewrite length_firstn, length_skipn.
  replace (Z.to_nat (rx_buffer_len h - k)
           - Nat.min (Z.to_nat (rx_buffer_len h - k)) (length (rx_buffer h) - Z.to_nat k))%nat
    with 0%nat by lia.
  cbn [firstn]. rewrite app_nil_r, firstn_skipn_swap. do 2 f_equal. lia.
Qed.

(** With no new byte, an aligned buffer holding a whole frame loses its
    first 21 bytes when the decode reports success or a checksum error,
    and nothing otherwise; a decode error is the result of the call. *)
Lemma read_frame_aligned
    (h : gas_sensor_handle) (slow : option gas_sensor_slow_data_t)
    (w : option gas_sensor_waveform_t) (st : option gas_sensor_status_t) :
  rx_invariant h ->
  idx (rx_buffer h) 0 = GAS_SENSOR_FLAG1 -> idx (rx_buffer h) 1 = GAS_SENSOR_FLAG2 ->
  GAS_SENSOR_FRAME_SIZE <= rx_buffer_len h ->
  let pr := gas_sensor_parse_frame (Some (rx_buffer h)) (Some (slow_data h)) w st in
  let r := gas_sensor_read_frame (Some h) (ReadReady []) slow w st in
  exists h',
    rr_handle r = Some h' /\
    rx_content h' =
    (if (ret pr =? GAS_SENSOR_OK) || (ret pr =? GAS_SENSOR_ERR_CHECKSUM)
     then skipn 21 (rx_content h) else rx_content h) /\
    (ret pr <> GAS_SENSOR_OK -> rr_ret r = ret pr).
Proof.
  intros Hinv H0 H1 Hfull pr r. unfold GAS_SENSOR_FRAME_SIZE in Hfull.
  unfold r, gas_sensor_read_frame. cbv zeta.
  change (append_rx h (firstn TEMP_BUFFER_SIZE [])) with h.
  destruct (Z.to_nat (rx_buffer_len h - 1)) as [| m] eqn:Em; [lia |].
  cbn [sync_scan]. rewrite H0, H1, !Z.eqb_refl. cbn [andb Z.of_nat Z.eqb Z.gtb Z.compare].
  destruct (Z.ltb_spec (rx_buffer_len h) GAS_SENSOR_FRAME_SIZE) as [Hshort | _];
    [unfold GAS_SENSOR_FRAME_SIZE in Hshort; lia |].
  fold pr.
  set (h3 := match out_slow_data pr with Some sd => set_slow_data sd h | None => h end).
  assert (H3 : rx_invariant h3 /\ rx_buffer_len h3 = rx_buffer_len h /\
               rx_content h3 = rx_content h)
    by (unfold h3; destruct (out_slow_data pr); repeat split; apply Hinv).
  clearbody h3. destruct H3 as (H3 & Hlen3 & Hc3).
  assert (Hdrop : rx_content (drop_front GAS_SENSOR_FRAME_SIZE h3) = skipn 21 (rx_content h))
    by (rewrite drop_front_content, Hc3;
        [reflexivity | assumption | unfold GAS_SENSOR_FRAME_SIZE; lia]).
  destruct (Z.eqb_spec (ret pr) GAS_SENSOR_OK) as [Eok | Nok]; cbn [negb orb].
  - destruct (callback (drop_front GAS_SENSOR_FRAME_SIZE h3)) as [cb |];
      [destruct (negb _) |];
      (eexists; split; [reflexivity |]; split; [exact Hdrop | contradiction]).
  - destruct (ret pr =? GAS_SENSOR_ERR_CHECKSUM);
      (eexists; split; [reflexivity |]; split; [assumption | reflexivity]).
Qed.

(** C1 fails in the code for the invalid-frame-id outcome. [bad_id_frame]
    (valid sync and checksum, frame id 10) arrives in an empty buffer:
    [gas_sensor_read_frame] returns [GAS_SENSOR_ERR_INVALID_FRAME] and
    removes nothing, the 21 bytes staying at the buffer front; the next call,
    with no new byte, decodes the same frame again, returns the same error
    and leaves the same state. A frame failing the checksum is removed. *)
Theorem invalid_id_frame_is_not_removed :
  gas_sensor_read_frame (Some fresh_handle) (ReadReady bad_id_frame) None None None
  = mk_read_result GAS_SENSOR_ERR_INVALID_FRAME (Some stuck_handle) None None None /\
  rx_content stuck_handle = bad_id_frame /\
  gas_sensor_read_frame (Some stuck_handle) (ReadReady []) None None None
  = mk_read_result GAS_SENSOR_ERR_INVALID_FRAME (Some stuck_handle) None None None /\
  (exists h',
      gas_sensor_read_frame (Some fresh_handle) (ReadReady bad_chk_frame) None None None
      = mk_read_result GAS_SENSOR_ERR_CHECKSUM (Some h') None None None /\
      rx_content h' = []).
Proof.
  split; [vm_compute; reflexivity |].
  split; [reflexivity |].
  split; [vm_compute; reflexivity |].
  eexists. split; vm_compute; reflexivity.
Qed.

End RxBuffer.

(* ====================================================================== *)
(** ** The return code of the decoder *)
(* ====================================================================== *)

Lemma sync_ok_dec (b : list byte) :
  negb (idx b 0 =? GAS_SENSOR_FLAG1) || negb (idx b 1 =? GAS_SENSOR_FLAG2) = false <->
  sync_ok b.
Proof.
  unfold sync_ok.
  destruct (Z.eqb_spec (idx b 0) GAS_SENSOR_FLAG1);
    destruct (Z.eqb_spec (idx b 1) GAS_SENSOR_FLAG2); cbn; intuition congruence.
Qed.

(** The serial revision's switch has a case label for each id up to 9. *)
Lemma serial_switch_some (k : Z) (slow : list byte) (sd : gas_sensor_slow_data_t) :
  0 <= k <= 9 -> SerialLib.parse_slow_switch k slow sd <> None.
Proof.
  intros Hk. each_id Hk; subst k; discriminate.
Qed.

(** The return code as a decision table over the inputs. *)
Lemma parse_frame_ret (rev : revision) (fd : option (list byte))
    (slow : option gas_sensor_slow_data_t)
    (w : option gas_sensor_waveform_t) (st : option gas_sensor_status_t) :
  ret (parse_frame_of rev fd slow w st) =
  match fd with
  | None => GAS_SENSOR_ERR_NULL_PARAM
  | Some b =>
      if negb (idx b 0 =? GAS_SENSOR_FLAG1) || negb (idx b 1 =? GAS_SENSOR_FLAG2)
      then GAS_SENSOR_ERR_INVALID_FRAME
      else if checksum b =? idx b 20
           then match slow with
                | Some _ => if idx b 2 >=? 10 then GAS_SENSOR_ERR_INVALID_FRAME
                            else GAS_SENSOR_OK
                | None => GAS_SENSOR_OK
                end
           else GAS_SENSOR_ERR_CHECKSUM
  end.
Proof.
  destruct fd as [b |]; [| destruct rev; reflexivity].
  destruct rev; cbn [parse_frame_of];
    unfold ParseLib.gas_sensor_parse_frame, SerialLib.gas_sensor_parse_frame;
    destruct (negb (idx b 0 =? GAS_SENSOR_FLAG1) || negb (idx b 1 =? GAS_SENSOR_FLAG2)) eqn:Hs;
    try reflexivity.
  - unfold ParseLib.gas_sensor_verify_checksum. rewrite Hs.
    rewrite ParseLib_calculate_checksum_spec.
    destruct (checksum b =? idx b 20); cbn [negb]; [| reflexivity].
    destruct slow; [| reflexivity].
    unfold GAS_SENSOR_FRAME_ID_MAX. destruct (idx b 2 >=? 10); reflexivity.
  - unfold SerialLib.gas_sensor_verify_checksum.
    rewrite SerialLib_calculate_checksum_spec, Z.eqb_sym.
    destruct (checksum b =? idx b 20); cbn [negb]; [| reflexivity].
    destruct slow as [sd |]; [| reflexivity].
    pose proof (idx_range b 2) as Hr.
    destruct (Z.geb_spec (idx b 2) 10) as [Hge | Hlt].
    + rewrite serial_switch_default by lia. reflexivity.
    + destruct (SerialLib.parse_slow_switch (idx b 2) (at_offset b 14)
                  (set_last_frame_id (idx b 2) sd)) eqn:E; [reflexivity |].
      exfalso. revert E. apply serial_switch_some. lia.
Qed.

(** X1: the return code of [gas_sensor_parse_frame] (either revision) is
    decided by the inputs as follows. NULL-parameter: exactly for a NULL
    frame pointer. Checksum error: exactly when the sync bytes are there and
    the checksum byte does not fit. Invalid frame: exactly when the sync
    bytes are missing, or sync and checksum are fine, the slow-data pointer
    is non-null and the frame id is 10 or more. Success: exactly when sync
    and checksum are fine and the slow-data pointer is NULL or the frame id
    at most 9. No other code is returned. *)
Theorem parse_frame_return_code
    (rev : revision) (fd : option (list byte))
    (slow : option gas_sensor_slow_data_t)
    (w : option gas_sensor_waveform_t) (st : option gas_sensor_status_t) :
  let r := ret (parse_frame_of rev fd slow w st) in
  (r = GAS_SENSOR_ERR_NULL_PARAM <-> fd = None) /\
  (r = GAS_SENSOR_ERR_CHECKSUM <->
   exists b, fd = Some b /\ sync_ok b /\ ~ checksum_ok b) /\
  (r = GAS_SENSOR_ERR_INVALID_FRAME <->
   exists b, fd = Some b /\
             (~ sync_ok b \/
              (sync_ok b /\ checksum_ok b /\ slow <> None /\ 10 <= idx b 2))) /\
  (r = GAS_SENSOR_OK <->
   exists b, fd = Some b /\ sync_ok b /\ checksum_ok b /\
             (slow = None \/ idx b 2 <= 9)) /\
  (r = GAS_SENSOR_OK \/ r = GAS_SENSOR_ERR_INVALID_FRAME \/
   r = GAS_SENSOR_ERR_CHECKSUM \/ r = GAS_SENSOR_ERR_NULL_PARAM).
Proof.
  intros r. unfold r. rewrite parse_frame_ret. clear r.
  destruct fd as [b |].
  2:{ repeat split; try discriminate; try (intros (b & E & _); discriminate);
      auto. }
  pose proof (sync_ok_dec b) as Hs.
  destruct (negb (idx b 0 =? GAS_SENSOR_FLAG1) || negb (idx b 1 =? GAS_SENSOR_FLAG2)).
  { assert (Hn : ~ sync_ok b) by (intros H; apply Hs in H; discriminate).
    repeat split; try discriminate; auto;
      try (intros (b' & E & H); injection E as <-; tauto).
    intros _. exists b. auto. }
  assert (Hy : sync_ok b) by (now apply Hs). clear Hs.
  unfold checksum_ok.
  destruct (Z.eqb_spec (checksum b) (idx b 20)) as [Hc | Hc].
  2:{ repeat split; try discriminate; auto;
        try (intros (b' & E & H); injection E as <-; tauto).
      intros _. exists b. auto. }
  destruct slow as [sd |].
  - destruct (Z.geb_spec (idx b 2) 10) as [Hge | Hlt].
    + repeat split; try discriminate; auto;
        try (intros (b' & E & H); injection E as <-; intuition (discriminate || lia)).
      intros _. exists b. split; [reflexivity |]. right.
      split; [exact Hy |]. split; [exact Hc |]. split; [discriminate | exact Hge].
    + repeat split; try discriminate; auto;
        try (intros (b' & E & H); injection E as <-; intuition (discriminate || lia)).
      intros _. exists b. split; [reflexivity |].
      split; [exact Hy |]. split; [exact Hc |]. right. lia.
  - repeat split; try discriminate; auto;
      try (intros (b' & E & H); injection E as <-; intuition (discriminate || lia)).
    intros _. exists b. split; [reflexivity |].
    split; [exact Hy |]. split; [exact Hc |]. left. reflexivity.
Qed.

(* ====================================================================== *)
(** ** What a validated frame writes *)
(* ====================================================================== *)

Lemma ParseLib_verify_ok (b : list byte) :
  sync_ok b -> checksum_ok b -> ParseLib.gas_sensor_verify_checksum (Some b) = true.
Proof. intros [H0 H1] Hc. apply ParseLib_verify_checksum_iff. auto. Qed.

Lemma SerialLib_verify_ok (b : list byte) :
  checksum_ok b -> SerialLib.gas_sensor_verify_checksum (Some b) = true.
Proof. intros Hc. now apply SerialLib_verify_checksum_iff. Qed.

(** The whole result for a frame that passes both validations. *)
Lemma parse_frame_accepts (rev : revision) (b : list byte)
    (slow : option gas_sensor_slow_data_t)
    (w : option gas_sensor_waveform_t) (st : option gas_sensor_status_t) :
  sync_ok b -> checksum_ok b ->
  parse_frame_of rev (Some b) slow w st =
  mk_parse_result (ret (parse_frame_of rev (Some b) slow w st))
                  (option_map (aggregate_after rev b) slow)
                  (option_map (fun _ => parse_waveform_of rev b) w)
                  (option_map (fun _ => decode_status (idx b 3)) st).
Proof.
  intros Hs Hc. pose proof Hs as [H0 H1].
  destruct rev; cbn [parse_frame_of parse_waveform_of aggregate_after].
  - unfold ParseLib.gas_sensor_parse_frame.
    rewrite (ParseLib_verify_ok b Hs Hc), H0, H1, !Z.eqb_refl. cbn [negb orb].
    destruct slow as [sd |], w, st; cbn [option_map aggregate_after];
      try destruct (idx b 2 >=? GAS_SENSOR_FRAME_ID_MAX); reflexivity.
  - unfold SerialLib.gas_sensor_parse_frame.
    rewrite (SerialLib_verify_ok b Hc), H0, H1, !Z.eqb_refl. cbn [negb orb].
    destruct slow as [sd |], w, st; cbn [option_map aggregate_after];
      try destruct (SerialLib.parse_slow_switch _ _ _); reflexivity.
Qed.

(** X2: a frame with valid sync and checksum whose id is 10 or more, decoded
    with a non-null slow-data pointer, is rejected with
    [GAS_SENSOR_ERR_INVALID_FRAME] only after the outputs were written: the
    waveform and the status (where their pointers are non-null) hold the
    values decoded from this frame. The parsing library leaves the
    aggregate as it was; the serial revision has already stored the
    rejected id in [last_frame_id], the seven slots unchanged. *)
Theorem invalid_id_still_writes_outputs
    (rev : revision) (b : list byte) (sd : gas_sensor_slow_data_t)
    (w : option gas_sensor_waveform_t) (st : option gas_sensor_status_t) :
  sync_ok b -> checksum_ok b -> 10 <= idx b 2 ->
  parse_frame_of rev (Some b) (Some sd) w st =
  mk_parse_result GAS_SENSOR_ERR_INVALID_FRAME
    (Some (match rev with
           | Parser => sd
           | Serial => set_last_frame_id (idx b 2) sd
           end))
    (option_map (fun _ => parse_waveform_of rev b) w)
    (option_map (fun _ => decode_status (idx b 3)) st).
Proof.
  intros Hs Hc Hid. rewrite (parse_frame_accepts rev b _ w st Hs Hc).
  rewrite parse_frame_ret. apply sync_ok_dec in Hs. rewrite Hs.
  unfold checksum_ok in Hc. rewrite Hc, Z.eqb_refl.
  destruct (Z.geb_spec (idx b 2) 10) as [_ | Hlt]; [| lia].
  cbn [option_map]. do 2 f_equal.
  destruct rev; cbn [aggregate_after].
  - unfold GAS_SENSOR_FRAME_ID_MAX.
    destruct (Z.geb_spec (idx b 2) 10); [reflexivity | lia].
  - rewrite serial_switch_default by exact Hid. reflexivity.
Qed.

(** The theorem at [bad_id_frame], frame id 10, in the serial revision. *)
Lemma invalid_id_still_writes_outputs_witness :
  parse_frame_of Serial (Some bad_id_frame) (Some slow_data_zero)
                 (Some waveform_zero) (Some status_zero) =
  mk_parse_result GAS_SENSOR_ERR_INVALID_FRAME
    (Some (set_last_frame_id (idx bad_id_frame 2) slow_data_zero))
    (Some (SerialLib.parse_waveform bad_id_frame))
    (Some (decode_status (idx bad_id_frame 3))).
Proof.
  apply (invalid_id_still_writes_outputs Serial bad_id_frame slow_data_zero
           (Some waveform_zero) (Some status_zero)).
  - split; reflexivity.
  - reflexivity.
  - vm_compute. discriminate.
Defined.

(* ====================================================================== *)
(** ** The decoder reads 21 bytes *)
(* ====================================================================== *)

Lemma idx_firstn (l : list byte) (n i : nat) :
  (i < n)%nat -> idx (firstn n l) i = idx l i.
Proof.
  intros Hi. unfold idx. f_equal. revert l i Hi.
  induction n as [| n IH]; intros l i Hi; [lia |].
  destruct l as [| x l]; [now destruct i |].
  destruct i as [| i]; [reflexivity |]. cbn. apply IH. lia.
Qed.

Lemma checksum_prefix (l : list byte) : checksum (firstn 21 l) = checksum l.
Proof.
  unfold checksum, byte_sum_2_19. do 5 f_equal.
  apply map_ext_in. intros i Hi. apply in_seq in Hi. apply idx_firstn. lia.
Qed.

Ltac to_frame_bytes :=
  rewrite ?at_offset_add; rewrite ?idx_at_offset; cbn [Nat.add];
  rewrite ?idx_firstn by lia.

Lemma ParseLib_parse_frame_prefix (l : list byte)
    (slow : option gas_sensor_slow_data_t)
    (w : option gas_sensor_waveform_t) (st : option gas_sensor_status_t) :
  ParseLib.gas_sensor_parse_frame (Some (firstn 21 l)) slow w st =
  ParseLib.gas_sensor_parse_frame (Some l) slow w st.
Proof.
  unfold ParseLib.gas_sensor_parse_frame, ParseLib.gas_sensor_verify_checksum.
  rewrite !ParseLib_calculate_checksum_spec, checksum_prefix.
  unfold ParseLib.parse_waveform, ParseLib.parse_slow_switch,
    ParseLib.parse_insp_vals, ParseLib.parse_exp_vals, ParseLib.parse_mom_vals,
    ParseLib.parse_gen_vals, ParseLib.parse_sensor_regs, ParseLib.parse_config_data,
    ParseLib.parse_service_data, ParseLib.parse_uint16_be.
  to_frame_bytes. reflexivity.
Qed.

Lemma SerialLib_parse_frame_prefix (l : list byte)
    (slow : option gas_sensor_slow_data_t)
    (w : option gas_sensor_waveform_t) (st : option gas_sensor_status_t) :
  SerialLib.gas_sensor_parse_frame (Some (firstn 21 l)) slow w st =
  SerialLib.gas_sensor_parse_frame (Some l) slow w st.
Proof.
  unfold SerialLib.gas_sensor_parse_frame, SerialLib.gas_sensor_verify_checksum.
  rewrite !SerialLib_calculate_checksum_spec, checksum_prefix.
  unfold SerialLib.parse_waveform, SerialLib.parse_slow_switch,
    SerialLib.parse_insp_vals, SerialLib.parse_exp_vals, SerialLib.parse_mom_vals,
    SerialLib.parse_gen_vals, SerialLib.parse_sensor_regs, SerialLib.parse_config_data,
    SerialLib.parse_service_data, SerialLib.parse_uint16_be.
  to_frame_bytes. reflexivity.
Qed.

(** X3: [gas_sensor_parse_frame] (either revision) reads no byte past
    [frame_data[20]]: on any buffer its result, return code and the three
    outputs, is the result on the buffer's first 21 bytes; and so are the
    results of [gas_sensor_verify_checksum]. *)
Theorem parse_frame_reads_21_bytes
    (rev : revision) (l : list byte) (slow : option gas_sensor_slow_data_t)
    (w : option gas_sensor_waveform_t) (st : option gas_sensor_status_t) :
  parse_frame_of rev (Some l) slow w st =
  parse_frame_of rev (Some (firstn 21 l)) slow w st /\
  ParseLib.gas_sensor_verify_checksum (Some l) =
  ParseLib.gas_sensor_verify_checksum (Some (firstn 21 l)) /\
  SerialLib.gas_sensor_verify_checksum (Some l) =
  SerialLib.gas_sensor_verify_checksum (Some (firstn 21 l)).
Proof.
  split; [| split].
  - destruct rev; cbn [parse_frame_of]; symmetry.
    + apply ParseLib_parse_frame_prefix.
    + apply SerialLib_parse_frame_prefix.
  - unfold ParseLib.gas_sensor_verify_checksum.
    rewrite !ParseLib_calculate_checksum_spec, checksum_prefix.
    now rewrite !idx_firstn by lia.
  - unfold SerialLib.gas_sensor_verify_checksum.
    rewrite !SerialLib_calculate_checksum_spec, checksum_prefix.
    now rewrite !idx_firstn by lia.
Qed.

(* ====================================================================== *)
(** ** What the checksum detects *)
(* ====================================================================== *)

Lemma u8_inj (a b : byte) : u8 a = u8 b -> a = b.
Proof.
  unfold u8. intros H. apply N2Z.inj in H.
  pose proof (Byte.of_to_N a) as Ha. pose proof (Byte.of_to_N b) as Hb.
  rewrite H in Ha. congruence.
Qed.

Lemma checksum_ok_iff (b : list byte) :
  checksum_ok b <-> byte_sum_2_20 b mod 256 = 0.
Proof.
  unfold checksum_ok, byte_sum_2_20. rewrite checksum_value.
  pose proof (idx_range b 20). pose proof (byte_sum_range b).
  generalize dependent (byte_sum_2_19 b). generalize dependent (idx b 20).
  intros c Hc s Hs. split; intros H; Z.div_mod_to_equations; lia.
Qed.

Lemma idx_set_byte (b : list byte) (i j : nat) (v : byte) :
  (i < length b)%nat ->
  idx (set_byte b i v) j = if (j =? i)%nat then u8 v else idx b j.
Proof.
  intros Hi. unfold set_byte.
  assert (Hl : length (firstn i b) = i) by (rewrite length_firstn; lia).
  destruct (Nat.eqb_spec j i) as [-> | Hne].
  - unfold idx. rewrite app_nth2 by lia. now rewrite Hl, Nat.sub_diag.
  - destruct (Nat.lt_ge_cases j i) as [Hlt | Hge].
    + unfold idx at 1. rewrite app_nth1 by lia.
      fold (idx (firstn i b) j). now apply idx_firstn.
    + unfold idx. rewrite app_nth2 by lia. rewrite Hl.
      destruct (j - i)%nat as [| d] eqn:Ed; [lia |]. cbn [nth].
      rewrite nth_skipn. do 2 f_equal. lia.
Qed.

(** Replacing one byte moves the sum over a range of indices by the
    difference of the two values when the index lies in the range. *)
Lemma sum_set_byte (b : list byte) (i : nat) (v : byte) (n s : nat) :
  (i < length b)%nat ->
  fold_right Z.add 0 (map (idx (set_byte b i v)) (seq s n)) =
  fold_right Z.add 0 (map (idx b) (seq s n)) +
  (if (s <=? i)%nat && (i <? s + n)%nat then u8 v - idx b i else 0).
Proof.
  intros Hi. revert s. induction n as [| n IH]; intros s.
  - cbn [seq map fold_right].
    destruct (Nat.leb_spec s i); destruct (Nat.ltb_spec i (s + 0)); cbn; lia.
  - cbn [seq map fold_right]. rewrite IH, idx_set_byte by exact Hi.
    destruct (Nat.eqb_spec s i) as [-> | Hne].
    + destruct (Nat.leb_spec (S i) i); [lia |].
      destruct (Nat.leb_spec i i); [| lia].
      destruct (Nat.ltb_spec i (i + S n)); [| lia]. cbn [andb]. lia.
    + destruct (Nat.leb_spec (S s) i); destruct (Nat.leb_spec s i);
        destruct (Nat.ltb_spec i (S s + n)); destruct (Nat.ltb_spec i (s + S n));
        cbn [andb]; lia.
Qed.

(** X4: [calculate_checksum] (either revision) returns the one byte value
    that, added to the bytes 2..19, makes the sum a multiple of 256; hence
    the checksum byte of a frame fits exactly when the bytes 2..20 sum to a
    multiple of 256, which is what the serial revision's
    [gas_sensor_verify_checksum] tests. *)
Theorem checksum_makes_zero_sum (b : list byte) :
  ParseLib.calculate_checksum b = SerialLib.calculate_checksum b /\
  0 <= SerialLib.calculate_checksum b <= 255 /\
  (byte_sum_2_19 b + SerialLib.calculate_checksum b) mod 256 = 0 /\
  (forall c, 0 <= c <= 255 -> (byte_sum_2_19 b + c) mod 256 = 0 ->
             c = SerialLib.calculate_checksum b) /\
  (SerialLib.gas_sensor_verify_checksum (Some b) = true <->
   byte_sum_2_20 b mod 256 = 0).
Proof.
  rewrite ParseLib_calculate_checksum_spec, SerialLib_calculate_checksum_spec.
  split; [reflexivity |].
  rewrite SerialLib_verify_checksum_iff. fold (checksum_ok b).
  rewrite checksum_ok_iff. rewrite checksum_value.
  pose proof (byte_sum_range b) as Hs.
  generalize dependent (byte_sum_2_19 b). intros s Hs.
  repeat split; try tauto; try (Z.div_mod_to_equations; lia).
  intros c Hc H. Z.div_mod_to_equations. lia.
Qed.

(** X5: the checksum detects every single-byte error past the sync bytes.
    If a 21-byte frame has valid sync and checksum and one of its bytes
    2..20 is replaced by a different value, [gas_sensor_verify_checksum]
    (either revision) returns false on the result and
    [gas_sensor_parse_frame] (either revision, any output pointers) returns
    [GAS_SENSOR_ERR_CHECKSUM]. *)
Theorem single_byte_error_detected
    (rev : revision) (b : list byte) (i : nat) (v : byte)
    (slow : option gas_sensor_slow_data_t)
    (w : option gas_sensor_waveform_t) (st : option gas_sensor_status_t) :
  valid_frame b -> (2 <= i <= 20)%nat -> v <> nth i b x00 ->
  ParseLib.gas_sensor_verify_checksum (Some (set_byte b i v)) = false /\
  SerialLib.gas_sensor_verify_checksum (Some (set_byte b i v)) = false /\
  ret (parse_frame_of rev (Some (set_byte b i v)) slow w st) = GAS_SENSOR_ERR_CHECKSUM.
Proof.
  intros (Hlen & H0 & H1 & Hc) Hi Hv.
  assert (Hil : (i < length b)%nat) by lia.
  assert (Hs : sync_ok (set_byte b i v)).
  { split; rewrite idx_set_byte by exact Hil.
    - destruct (Nat.eqb_spec 0 i); [lia | exact H0].
    - destruct (Nat.eqb_spec 1 i); [lia | exact H1]. }
  assert (Hbad : ~ checksum_ok (set_byte b i v)).
  { rewrite checksum_ok_iff. apply checksum_ok_iff in Hc.
    unfold byte_sum_2_20, byte_sum_2_19 in *.
    rewrite sum_set_byte, idx_set_byte by exact Hil.
    assert (Hne : u8 v <> idx b i) by (intros E; apply Hv; now apply u8_inj).
    pose proof (u8_range v) as Rv. pose proof (idx_range b i) as Ri.
    destruct (Nat.eqb_spec 20 i) as [<- | Hn20].
    - cbn [Nat.leb Nat.ltb Nat.add andb].
      generalize dependent (fold_right Z.add 0 (map (idx b) (seq 2 18))).
      intros s Hs'. Z.div_mod_to_equations. lia.
    - destruct (Nat.leb_spec 2 i); [| lia].
      destruct (Nat.ltb_spec i (2 + 18)); [| lia]. cbn [andb].
      generalize dependent (fold_right Z.add 0 (map (idx b) (seq 2 18))).
      intros s Hs'. pose proof (idx_range b 20). Z.div_mod_to_equations. lia. }
  split; [| split].
  - destruct (ParseLib.gas_sensor_verify_checksum (Some (set_byte b i v))) eqn:E;
      [| reflexivity].
    apply ParseLib_verify_checksum_iff in E. exfalso. apply Hbad. apply E.
  - destruct (SerialLib.gas_sensor_verify_checksum (Some (set_byte b i v))) eqn:E;
      [| reflexivity].
    apply SerialLib_verify_checksum_iff in E. exfalso. now apply Hbad.
  - rewrite parse_frame_ret. apply sync_ok_dec in Hs. rewrite Hs.
    destruct (Z.eqb_spec (checksum (set_byte b i v)) (idx (set_byte b i v) 20));
      [contradiction | reflexivity].
Qed.

(** The theorem at the frame of the example program, its status byte
    (byte 3) turned from 00 into 01. *)
Lemma single_byte_error_detected_witness :
  ParseLib.gas_sensor_verify_checksum (Some (set_byte example_frame 3 x01)) = false /\
  SerialLib.gas_sensor_verify_checksum (Some (set_byte example_frame 3 x01)) = false /\
  ret (parse_frame_of Serial (Some (set_byte example_frame 3 x01)) None None None)
  = GAS_SENSOR_ERR_CHECKSUM.
Proof.
  apply (single_byte_error_detected Serial example_frame 3 x01 None None None).
  - repeat split.
  - lia.
  - discriminate.
Defined.

(* ====================================================================== *)
(** ** The status byte *)
(* ====================================================================== *)

Lemma decode_status_bits (c : byte) :
  status_flags (decode_status (u8 c)) = map (Z.testbit (u8 c)) [0; 1; 2; 3; 4; 5; 6; 7] /\
  encode_status (decode_status (u8 c)) = u8 c.
Proof. destruct c; split; reflexivity. Qed.

(** X6: for a frame with valid sync and checksum and a non-null status
    pointer, [gas_sensor_parse_frame] (either revision), whatever the frame
    id, the return code and the other pointers, writes the eight status
    flags as the bits 0..7 of frame byte 3, in the order of the structure;
    the status byte is rebuilt from the flags. *)
Theorem status_flags_are_the_bits
    (rev : revision) (b : list byte) (slow : option gas_sensor_slow_data_t)
    (w : option gas_sensor_waveform_t) (s0 : gas_sensor_status_t) :
  sync_ok b -> checksum_ok b ->
  exists s,
    out_status (parse_frame_of rev (Some b) slow w (Some s0)) = Some s /\
    status_flags s = map (Z.testbit (idx b 3)) [0; 1; 2; 3; 4; 5; 6; 7] /\
    encode_status s = idx b 3.
Proof.
  intros Hs Hc. rewrite (parse_frame_accepts rev b slow w (Some s0) Hs Hc).
  cbn [out_status option_map]. eexists. split; [reflexivity |].
  unfold idx. apply decode_status_bits.
Qed.

(** The theorem at the frame of the example program. *)
Lemma status_flags_are_the_bits_witness :
  exists s,
    out_status (parse_frame_of Parser (Some example_frame) None None (Some status_zero))
    = Some s /\
    status_flags s = map (Z.testbit (idx example_frame 3)) [0; 1; 2; 3; 4; 5; 6; 7] /\
    encode_status s = idx example_frame 3.
Proof.
  apply (status_flags_are_the_bits Parser example_frame None None status_zero).
  - split; reflexivity.
  - reflexivity.
Defined.

(* ====================================================================== *)
(** ** Concentrations: the marker and the values *)
(* ====================================================================== *)

(** A binary32 value is nearest to at most one quotient [r / k] of a
    numerator below [2^23 - 1]: the spacing [1 / k] of the quotients
    exceeds the unit in the last place. *)
Lemma nearest_f32_inj (r1 r2 k : Z) (x : f32) :
  0 < k -> 0 <= r1 < 2 ^ 23 - 1 -> 0 <= r2 < 2 ^ 23 - 1 ->
  nearest_f32 r1 k x = true -> nearest_f32 r2 k x = true -> r1 = r2.
Proof.
  intros Hk Hr1 Hr2. unfold nearest_f32.
  pose proof (pow2_pos (expo x)) as HP. pose proof (pow2_pos (- expo x)) as HN.
  set (P := 2 ^ Z.max 0 (expo x)) in *. set (N := 2 ^ Z.max 0 (- expo x)) in *.
  clearbody P N.
  set (T := 2 ^ 23) in *. assert (HT : T = 8388608) by reflexivity.
  set (T' := 2 ^ 24) in *. clearbody T T'.
  rewrite !andb_true_iff, !Z.leb_le, !Z.ltb_lt.
  intros [[Hm _] H1] [_ H2].
  assert (HC : 0 < P * k) by (apply Z.mul_pos_pos; assumption).
  replace (mant x * P * k) with (mant x * (P * k)) in H1, H2 by ring.
  assert (HA : T * (P * k) <= mant x * (P * k))
    by (apply Z.mul_le_mono_nonneg_r; lia).
  set (C := P * k) in *. set (A := mant x * C) in *. clearbody A C.
  destruct (Z.eq_dec r1 r2) as [E | Hne]; [exact E | exfalso].
  assert (Hgap : N <= Z.abs (r1 * N - r2 * N)).
  { replace (r1 * N - r2 * N) with ((r1 - r2) * N) by ring.
    rewrite Z.abs_mul, (Z.abs_eq N) by lia.
    rewrite <- (Z.mul_1_l N) at 1. apply Z.mul_le_mono_nonneg_r; lia. }
  assert (HNC : N <= C) by (clear - H1 H2 Hgap; lia).
  assert (HB : r1 * N <= (T - 2) * C).
  { apply Z.le_trans with (r1 * C).
    - apply Z.mul_le_mono_nonneg_l; lia.
    - apply Z.mul_le_mono_nonneg_r; lia. }
  clear - H1 HA HB HC HT. lia.
Qed.

Lemma f32_div_zero (k : Z) : f32_div (f32_of_int 0) (f32_of_int k) = f32_zero.
Proof. reflexivity. Qed.

Lemma nearest_f32_nonzero (n d : Z) (x : f32) :
  nearest_f32 n d x = true -> x <> f32_zero.
Proof.
  unfold nearest_f32. rewrite !andb_true_iff, Z.leb_le.
  intros [[Hm _] _] ->. cbn in Hm. lia.
Qed.

(** Division of small integers by a fixed literal loses nothing. *)
Lemma f32_div_int_inj (r1 r2 k : Z) :
  0 <= r1 < 2 ^ 23 - 1 -> 0 <= r2 < 2 ^ 23 - 1 -> 0 < k < 2 ^ 23 ->
  f32_div (f32_of_int r1) (f32_of_int k) = f32_div (f32_of_int r2) (f32_of_int k) ->
  r1 = r2.
Proof.
  intros H1 H2 Hk E.
  destruct (Z.eq_dec r1 0) as [-> | N1]; destruct (Z.eq_dec r2 0) as [-> | N2];
    try reflexivity.
  - exfalso. rewrite f32_div_zero in E. symmetry in E. revert E.
    apply (nearest_f32_nonzero r2 k). apply f32_div_int_nearest; lia.
  - exfalso. rewrite f32_div_zero in E. revert E.
    apply (nearest_f32_nonzero r1 k). apply f32_div_int_nearest; lia.
  - apply (nearest_f32_inj r1 r2 k (f32_div (f32_of_int r1) (f32_of_int k)));
      try lia.
    + apply f32_div_int_nearest; lia.
    + rewrite E. apply f32_div_int_nearest; lia.
Qed.

(** Conversion of small integers to [float] loses nothing. *)
Lemma f32_of_int_inj (r1 r2 : Z) :
  0 <= r1 < 2 ^ 23 - 1 -> 0 <= r2 < 2 ^ 23 - 1 ->
  f32_of_int r1 = f32_of_int r2 -> r1 = r2.
Proof.
  intros H1 H2 E.
  destruct (Z.eq_dec r1 0) as [-> | N1]; destruct (Z.eq_dec r2 0) as [-> | N2];
    try reflexivity.
  - exfalso. symmetry in E. revert E. change (f32_of_int 0) with f32_zero.
    apply (nearest_f32_nonzero r2 1). apply round_quot_nearest; lia.
  - exfalso. revert E. change (f32_of_int 0) with f32_zero.
    apply (nearest_f32_nonzero r1 1). apply round_quot_nearest; lia.
  - apply (nearest_f32_inj r1 r2 1 (f32_of_int r1)); try lia.
    + apply round_quot_nearest; lia.
    + rewrite E. apply round_quot_nearest; lia.
Qed.

Lemma f32_of_int_nonneg (r : Z) : 0 <= r -> f32_of_int r <> GAS_SENSOR_CONC_INVALID.
Proof.
  intros Hr E. pose proof (round_quot_nonneg r 1 Hr ltac:(lia)) as Hp.
  unfold f32_of_int in E. rewrite E in Hp. pose proof conc_invalid_negative. lia.
Qed.

Lemma u8_xff (c : byte) : u8 c = 0xFF <-> c = xff.
Proof.
  split; [| now intros ->]. intros H. apply u8_inj. exact H.
Qed.

(** Small integers convert exactly, zero included. *)
Lemma f32_of_int_value (r : Z) :
  0 <= r < 2 ^ 23 ->
  f32_num (f32_of_int r) = r * f32_den (f32_of_int r).
Proof.
  intros Hr. destruct (Z.eq_dec r 0) as [-> | Hnz]; [reflexivity |].
  destruct (f32_of_int_exact r ltac:(lia)) as (He & Hm & _).
  unfold f32_num, f32_den.
  rewrite (Z.max_l 0 (expo (f32_of_int r))), (Z.max_r 0 (- expo (f32_of_int r))) by lia.
  rewrite Z.pow_0_r, Z.mul_1_r. exact Hm.
Qed.

(** X7: [gas_sensor_parse_concentration] returns the marker
    [GAS_SENSOR_CONC_INVALID] for the raw byte 0xFF and for no other byte,
    in both revisions. For the other bytes the serial revision returns the
    byte's value exactly, and the parsing library returns zero for zero and
    else the binary32 value nearest to a tenth of the byte. *)
Theorem parse_concentration_marker_and_value (c : byte) :
  (ParseLib.gas_sensor_parse_concentration (u8 c) = GAS_SENSOR_CONC_INVALID <-> c = xff) /\
  (SerialLib.gas_sensor_parse_concentration (u8 c) = GAS_SENSOR_CONC_INVALID <-> c = xff) /\
  (c <> xff ->
   f32_num (SerialLib.gas_sensor_parse_concentration (u8 c)) =
   u8 c * f32_den (SerialLib.gas_sensor_parse_concentration (u8 c))) /\
  (c <> xff -> c <> x00 ->
   nearest_f32 (u8 c) 10 (ParseLib.gas_sensor_parse_concentration (u8 c)) = true) /\
  ParseLib.gas_sensor_parse_concentration (u8 x00) = f32_zero.
Proof.
  unfold ParseLib.gas_sensor_parse_concentration, SerialLib.gas_sensor_parse_concentration,
    ParseLib.parse_concentration, SerialLib.parse_concentration, GAS_SENSOR_NO_DATA.
  pose proof (u8_range c) as Hr. pose proof (u8_xff c) as Hff.
  destruct (Z.eqb_spec (u8 c) 0xFF) as [E | N].
  - assert (c = xff) as -> by (now apply Hff).
    repeat split; auto; try contradiction.
  - assert (Hc : c <> xff) by (intros ->; now apply N).
    split; [| split; [| split; [| split]]].
    + split; [| contradiction]. intros E. exfalso. revert E.
      apply scaled_not_invalid; [lia | reflexivity].
    + split; [| contradiction]. intros E. exfalso. revert E.
      apply f32_of_int_nonneg. lia.
    + intros _. apply f32_of_int_value. change (2 ^ 23) with 8388608. lia.
    + intros _ H0. apply f32_div_int_nearest.
      * assert (u8 c <> 0) by (intros E; apply H0; now apply u8_inj).
        change (2 ^ 23) with 8388608. lia.
      * change (2 ^ 23) with 8388608. lia.
    + reflexivity.
Qed.

Lemma parse_concentration_of_inj (rev : revision) (r1 r2 : Z) :
  0 <= r1 <= 255 -> 0 <= r2 <= 255 ->
  parse_concentration_of rev r1 = parse_concentration_of rev r2 -> r1 = r2.
Proof.
  intros H1 H2.
  destruct rev; cbn [parse_concentration_of];
    unfold ParseLib.gas_sensor_parse_concentration, SerialLib.gas_sensor_parse_concentration,
      ParseLib.parse_concentration, SerialLib.parse_concentration, GAS_SENSOR_NO_DATA;
    destruct (Z.eqb_spec r1 0xFF) as [E1 | N1];
    destruct (Z.eqb_spec r2 0xFF) as [E2 | N2]; intros E; try congruence.
  - exfalso. symmetry in E. revert E. apply scaled_not_invalid; [lia | reflexivity].
  - exfalso. revert E. apply scaled_not_invalid; [lia | reflexivity].
  - apply (f32_div_int_inj r1 r2 10); change (2 ^ 23) with 8388608; try lia. exact E.
  - exfalso. symmetry in E. revert E. apply f32_of_int_nonneg. lia.
  - exfalso. revert E. apply f32_of_int_nonneg. lia.
  - apply f32_of_int_inj; change (2 ^ 23) with 8388608; try lia. exact E.
Qed.

(** X8: [gas_sensor_parse_concentration] (either revision) loses nothing:
    two raw bytes with the same result are the same byte. *)
Theorem parse_concentration_is_injective (rev : revision) (c1 c2 : byte) :
  parse_concentration_of rev (u8 c1) = parse_concentration_of rev (u8 c2) -> c1 = c2.
Proof.
  intros E. apply u8_inj.
  apply (parse_concentration_of_inj rev); [apply u8_range | apply u8_range | exact E].
Qed.

(** The theorem at the bytes of 5.0 per cent in the parsing library. *)
Lemma parse_concentration_is_injective_witness : x32 = x32.
Proof. apply (parse_concentration_is_injective Parser x32 x32). reflexivity. Defined.

Lemma decode_u16_be_inj (h1 l1 h2 l2 : Z) :
  0 <= h1 <= 255 -> 0 <= l1 <= 255 -> 0 <= h2 <= 255 -> 0 <= l2 <= 255 ->
  decode_u16_be h1 l1 = decode_u16_be h2 l2 -> h1 = h2 /\ l1 = l2.
Proof. unfold decode_u16_be. lia. Qed.

Lemma percent_2byte_inj (r1 r2 : Z) :
  0 <= r1 <= 65535 -> 0 <= r2 <= 65535 ->
  decode_percent_2byte r1 = decode_percent_2byte r2 -> r1 = r2.
Proof.
  intros H1 H2. unfold decode_percent_2byte.
  destruct (Z.eqb_spec r1 0xFFFF) as [E1 | N1];
    destruct (Z.eqb_spec r2 0xFFFF) as [E2 | N2]; intros E; try congruence.
  - exfalso. symmetry in E. revert E. apply scaled_not_invalid; [lia | reflexivity].
  - exfalso. revert E. apply scaled_not_invalid; [lia | reflexivity].
  - apply (f32_div_int_inj r1 r2 100); change (2 ^ 23) with 8388608; try lia. exact E.
Qed.

Lemma percent_word_inj (r1 r2 : Z) :
  0 <= r1 <= 65535 -> 0 <= r2 <= 65535 ->
  f32_div (f32_of_int r1) (f32_of_int 100) = f32_div (f32_of_int r2) (f32_of_int 100) ->
  r1 = r2.
Proof.
  intros H1 H2 E.
  apply (f32_div_int_inj r1 r2 100); change (2 ^ 23) with 8388608; try lia. exact E.
Qed.

Lemma waveform_words_bytes (b1 b2 : list byte) :
  (forall k, (k < 5)%nat -> waveform_word b1 k = waveform_word b2 k) ->
  map (idx b1) (seq 4 10) = map (idx b2) (seq 4 10).
Proof.
  intros H. unfold waveform_word in H.
  pose proof (H 0%nat ltac:(lia)) as E0. pose proof (H 1%nat ltac:(lia)) as E1.
  pose proof (H 2%nat ltac:(lia)) as E2. pose proof (H 3%nat ltac:(lia)) as E3.
  pose proof (H 4%nat ltac:(lia)) as E4. cbn [Nat.add Nat.mul] in *.
  apply decode_u16_be_inj in E0 as [? ?]; try apply idx_range.
  apply decode_u16_be_inj in E1 as [? ?]; try apply idx_range.
  apply decode_u16_be_inj in E2 as [? ?]; try apply idx_range.
  apply decode_u16_be_inj in E3 as [? ?]; try apply idx_range.
  apply decode_u16_be_inj in E4 as [? ?]; try apply idx_range.
  cbn [seq map]. congruence.
Qed.

(** X9: the waveform decoding (either revision) loses nothing: two frames
    whose five decoded concentrations agree have the same bytes 4..13. In
    the parsing library this includes the word 0xFFFF, the only one decoded
    to the marker. *)
Theorem waveform_decoding_is_injective (rev : revision) (b1 b2 : list byte) :
  parse_waveform_of rev b1 = parse_waveform_of rev b2 ->
  map (idx b1) (seq 4 10) = map (idx b2) (seq 4 10).
Proof.
  intros E. apply (f_equal waveform_fields) in E.
  apply waveform_words_bytes. intros k Hk.
  pose proof (waveform_word_range b1 k) as R1.
  pose proof (waveform_word_range b2 k) as R2.
  destruct rev; cbn [parse_waveform_of] in E.
  - rewrite !ParseLib_parse_waveform_fields in E.
    apply percent_2byte_inj; [exact R1 | exact R2 |].
    apply (f_equal (fun l => nth k l f32_zero)) in E.
    do 5 (destruct k as [| k]; [exact E |]). lia.
  - rewrite !SerialLib_parse_waveform_fields in E.
    apply percent_word_inj; [exact R1 | exact R2 |].
    apply (f_equal (fun l => nth k l f32_zero)) in E.
    do 5 (destruct k as [| k]; [exact E |]). lia.
Qed.

(** The theorem at two frames that differ in their id and checksum bytes. *)
Lemma waveform_decoding_is_injective_witness :
  map (idx reserved_frame) (seq 4 10) = map (idx bad_id_frame) (seq 4 10).
Proof.
  apply (waveform_decoding_is_injective Serial reserved_frame bad_id_frame).
  reflexivity.
Defined.

(* ====================================================================== *)
(** ** The general values (frame id 3) *)
(* ====================================================================== *)

Lemma idx_at_offset_0 (p : list byte) (k : nat) : idx (at_offset p k) 0 = idx p k.
Proof. rewrite idx_at_offset. now rewrite Nat.add_0_r. Qed.

(** X10: in [parse_gen_vals] the atmospheric pressure is the marker
    [GAS_SENSOR_CONC_INVALID] exactly when, in the serial revision, at least
    one of the two pressure bytes is 0xFF, and in the parsing library, both
    are. In the serial revision the respiratory rate and the time since the
    last breath are the raw bytes in every case, 0xFF included, and an agent
    byte 0xFF is stored as agent 0. *)
Theorem gen_vals_markers (p : list byte) :
  (atm_pressure (SerialLib.parse_gen_vals p) = GAS_SENSOR_CONC_INVALID <->
   idx p 4 = 0xFF \/ idx p 5 = 0xFF) /\
  (atm_pressure (ParseLib.parse_gen_vals p) = GAS_SENSOR_CONC_INVALID <->
   idx p 4 = 0xFF /\ idx p 5 = 0xFF) /\
  resp_rate (SerialLib.parse_gen_vals p) = idx p 0 /\
  time_since_breath (SerialLib.parse_gen_vals p) = idx p 1 /\
  primary_agent (SerialLib.parse_gen_vals p) = (if idx p 2 =? 0xFF then 0 else idx p 2) /\
  secondary_agent (SerialLib.parse_gen_vals p) = (if idx p 3 =? 0xFF then 0 else idx p 3).
Proof.
  unfold SerialLib.parse_gen_vals, ParseLib.parse_gen_vals, GAS_SENSOR_NO_DATA.
  cbn [atm_pressure resp_rate time_since_breath primary_agent secondary_agent].
  rewrite ParseLib_uint16_be_at, SerialLib_uint16_be_at. unfold decode_u16_be.
  pose proof (idx_range p 4) as R4. pose proof (idx_range p 5) as R5.
  split; [| split; [| split; [| split; [| split]]]].
  - destruct (Z.eqb_spec (idx p 4) 0xFF) as [E4 | N4];
      destruct (Z.eqb_spec (idx p 5) 0xFF) as [E5 | N5]; cbn [orb];
      try (split; [auto | reflexivity]).
    split; [| intros [? | ?]; contradiction].
    intros E. exfalso. revert E. apply scaled_not_invalid; [lia | reflexivity].
  - destruct (Z.eqb_spec (256 * idx p 4 + idx p 5) 0xFFFF) as [E | N].
    + split; [intros _; lia | reflexivity].
    + split; [| intros [? ?]; lia].
      intros E. exfalso. revert E. apply scaled_not_invalid; [lia | reflexivity].
  - destruct (Z.eqb_spec (idx p 0) 0xFF) as [E | N]; congruence.
  - destruct (Z.eqb_spec (idx p 1) 0xFF) as [E | N]; congruence.
  - reflexivity.
  - reflexivity.
Qed.

(* ====================================================================== *)
(** ** The aggregate over a run of frames *)
(* ====================================================================== *)

(** One accepted frame: the selected slot takes the frame's value, the
    others stay, and [last_frame_id] is the frame's id. *)
Lemma aggregate_after_accepted (rev : revision) (b : list byte)
    (sd : gas_sensor_slow_data_t) :
  idx b 2 <= 9 ->
  last_frame_id (aggregate_after rev b sd) = idx b 2 /\
  forall s, slot (aggregate_after rev b sd) s =
            if selects b s then decode_slot rev b s else slot sd s.
Proof.
  intros Hid. pose proof (idx_range b 2) as Hr.
  assert (Hk : 0 <= idx b 2 <= 9) by lia.
  unfold selects, aggregate_after, GAS_SENSOR_FRAME_ID_MAX.
  destruct (Z.geb_spec (idx b 2) 10) as [Hge | _]; [lia |].
  generalize dependent (idx b 2). intros k _ _ Hk.
  each_id Hk; subst k; destruct rev; (split; [reflexivity |]);
    intros s; destruct s; reflexivity.
Qed.

Lemma merge_frames_step (rev : revision) (b : list byte) (sd : gas_sensor_slow_data_t) :
  accepted b ->
  out_slow_data (parse_frame_of rev (Some b) (Some sd) None None) =
  Some (aggregate_after rev b sd).
Proof.
  intros (Hs & Hc & _). now rewrite (parse_frame_accepts rev b _ None None Hs Hc).
Qed.

Lemma merge_frames_snoc (rev : revision) (frames : list (list byte)) (b : list byte)
    (sd : gas_sensor_slow_data_t) :
  accepted b ->
  merge_frames rev (frames ++ [b]) sd = aggregate_after rev b (merge_frames rev frames sd).
Proof.
  intros Hb. unfold merge_frames. rewrite fold_left_app. cbn [fold_left].
  now rewrite merge_frames_step.
Qed.

(** X11: the aggregate holds the latest value of every slot. After a run of
    frames, each with valid sync and checksum and an id of at most 9,
    decoded in turn into the same aggregate by [gas_sensor_parse_frame]
    (either revision), every slot holds the value carried by the last frame
    of the run that selects it, or its initial value when no frame of the
    run selects it; [last_frame_id] is the id of the last frame of the run. *)
Theorem aggregate_holds_latest_values
    (rev : revision) (frames : list (list byte)) (sd : gas_sensor_slow_data_t) :
  Forall accepted frames ->
  (forall s, slot (merge_frames rev frames sd) s =
             match last_for_slot frames s with
             | Some b => decode_slot rev b s
             | None => slot sd s
             end) /\
  last_frame_id (merge_frames rev frames sd) =
  last (map (fun b => idx b 2) frames) (last_frame_id sd).
Proof.
  induction frames as [| b frames IH] using rev_ind; intros Hall.
  - split; reflexivity.
  - apply Forall_app in Hall as [Hfs Hb]. apply Forall_inv in Hb.
    destruct (IH Hfs) as [IHs IHid].
    rewrite (merge_frames_snoc rev frames b sd Hb).
    destruct Hb as (_ & _ & Hid).
    destruct (aggregate_after_accepted rev b (merge_frames rev frames sd) Hid)
      as [Elast Eslot].
    split.
    + intros s. rewrite Eslot. unfold last_for_slot.
      rewrite rev_app_distr. cbn [List.rev app find].
      destruct (selects b s); [reflexivity | apply IHs].
    + rewrite Elast, map_app. cbn [map]. now rewrite last_last.
Qed.

(** The theorem at the frame of the example program (id 3) followed by a
    reserved frame (id 7). *)
Lemma aggregate_holds_latest_values_witness :
  (forall s, slot (merge_frames Serial [example_frame; reserved_frame] slow_data_zero) s =
             match last_for_slot [example_frame; reserved_frame] s with
             | Some b => decode_slot Serial b s
             | None => slot slow_data_zero s
             end) /\
  last_frame_id (merge_frames Serial [example_frame; reserved_frame] slow_data_zero) =
  last (map (fun b => idx b 2) [example_frame; reserved_frame])
       (last_frame_id slow_data_zero).
Proof.
  apply (aggregate_holds_latest_values Serial [example_frame; reserved_frame]).
  repeat constructor; vm_compute; discriminate.
Defined.

(* ====================================================================== *)
(** ** The synchronizer on the buffered bytes *)
(* ====================================================================== *)

Section Synchronizer.

Import SerialLib.

Lemma rx_content_length (h : gas_sensor_handle) :
  rx_invariant h -> Z.of_nat (length (rx_content h)) = rx_buffer_len h.
Proof.
  intros [Hlen Hfill]. unfold rx_content, RX_BUFFER_SIZE in *.
  rewrite length_firstn. lia.
Qed.

Lemma idx_rx_content (h : gas_sensor_handle) (i : nat) :
  Z.of_nat i < rx_buffer_len h -> idx (rx_content h) i = idx (rx_buffer h) i.
Proof. intros Hi. unfold rx_content. apply idx_firstn. lia. Qed.

Lemma sync_at_rx_content (h : gas_sensor_handle) (j : nat) :
  Z.of_nat (S j) < rx_buffer_len h ->
  sync_at (rx_content h) j = sync_at (rx_buffer h) j.
Proof.
  intros Hj. unfold sync_at. rewrite !idx_rx_content by lia. reflexivity.
Qed.

(** The bytes in the buffer once the bytes read are appended. *)
Lemma append_rx_content (h : gas_sensor_handle) (pending : list byte) :
  rx_invariant h ->
  rx_content (append_rx h (firstn TEMP_BUFFER_SIZE pending)) = received h pending.
Proof.
  intros [Hlen Hfill]. unfold received, append_rx, rx_content. cbv zeta.
  set (new := firstn TEMP_BUFFER_SIZE pending).
  assert (Hnew : (length new <= 128)%nat)
    by (unfold new, TEMP_BUFFER_SIZE; rewrite length_firstn; lia).
  unfold RX_BUFFER_SIZE in *.
  destruct (Z.gtb_spec (Z.of_nat (length new)) 0) as [Hpos | Hzero].
  - destruct (Z.gtb_spec (rx_buffer_len h + Z.of_nat (length new)) 256) as [Hover | Hfit];
      cbn [rx_buffer rx_buffer_len set_rx]; unfold memcpy_at; rewrite Nat2Z.id.
    + cbn [Z.to_nat firstn app Nat.add Z.add].
      rewrite firstn_all. rewrite firstn_app, Nat2Z.id, firstn_all, Nat.sub_diag.
      cbn [firstn]. apply app_nil_r.
    + rewrite firstn_all. rewrite app_assoc, firstn_app.
      rewrite length_app, length_firstn.
      replace (Init.Nat.min (Z.to_nat (rx_buffer_len h)) (length (rx_buffer h)))
        with (Z.to_nat (rx_buffer_len h)) by lia.
      replace (Z.to_nat (rx_buffer_len h + Z.of_nat (length new)))
        with (Z.to_nat (rx_buffer_len h) + length new)%nat by lia.
      rewrite Nat.sub_diag. cbn [firstn]. rewrite app_nil_r.
      apply firstn_all2. rewrite length_app, length_firstn. lia.
  - assert (E : new = []) by (destruct new; [reflexivity | cbn in Hzero; lia]).
    rewrite E. cbn [length Z.of_nat]. rewrite Z.add_0_r.
    destruct (Z.gtb_spec (rx_buffer_len h) 256); [lia |]. now rewrite app_nil_r.
Qed.

Lemma append_rx_fields (h : gas_sensor_handle) (temp_buffer : list byte) :
  slow_data (append_rx h temp_buffer) = slow_data h /\
  callback (append_rx h temp_buffer) = callback h.
Proof. unfold append_rx. destruct (_ >? 0); split; reflexivity. Qed.

Lemma sync_scan_first (rx : list byte) (k : nat) :
  forall n i,
    (i <= k < i + n)%nat ->
    (forall j, (i <= j < k)%nat -> sync_at rx j = false) ->
    sync_at rx k = true ->
    sync_scan rx i n = Z.of_nat k.
Proof.
  induction n as [| n IH]; intros i Hk Hbefore Hat; [lia |].
  cbn [sync_scan]. fold (sync_at rx i).
  destruct (Nat.eq_dec i k) as [-> | Hne].
  - now rewrite Hat.
  - rewrite Hbefore by lia. apply IH; [lia | | assumption].
    intros j Hj. apply Hbefore. lia.
Qed.

Lemma sync_scan_none (rx : list byte) :
  forall n i,
    (forall j, (i <= j < i + n)%nat -> sync_at rx j = false) ->
    sync_scan rx i n = -1.
Proof.
  induction n as [| n IH]; intros i Hnone; [reflexivity |].
  cbn [sync_scan]. fold (sync_at rx i). rewrite Hnone by lia.
  apply IH. intros j Hj. apply Hnone. lia.
Qed.

(** The search loop of [gas_sensor_read_frame] in terms of the buffered bytes. *)
Lemma scan_no_sync (h : gas_sensor_handle) :
  rx_invariant h -> no_sync (rx_content h) ->
  sync_scan (rx_buffer h) 0 (Z.to_nat (rx_buffer_len h - 1)) = -1.
Proof.
  intros Hinv Hnone. pose proof (rx_content_length h Hinv) as Hlen.
  apply sync_scan_none. intros j Hj.
  rewrite <- sync_at_rx_content by lia. apply Hnone. lia.
Qed.

Lemma scan_first_sync (h : gas_sensor_handle) (k : nat) :
  rx_invariant h -> first_sync_at (rx_content h) k ->
  sync_scan (rx_buffer h) 0 (Z.to_nat (rx_buffer_len h - 1)) = Z.of_nat k.
Proof.
  intros Hinv (Hk & Hat & Hbefore). pose proof (rx_content_length h Hinv) as Hlen.
  apply sync_scan_first.
  - lia.
  - intros j Hj. rewrite <- sync_at_rx_content by lia. apply Hbefore. lia.
  - rewrite <- sync_at_rx_content by lia. exact Hat.
Qed.

(** The call up to the completeness check: with the first sync pattern of
    the received bytes at [k], the rest of the call runs on a handle whose
    buffer holds the received bytes from [k] on. *)
Lemma read_frame_to_sync
    (h : gas_sensor_handle) (pending : list byte) (k : nat)
    (slow : option gas_sensor_slow_data_t)
    (w : option gas_sensor_waveform_t) (st : option gas_sensor_status_t) :
  rx_invariant h -> first_sync_at (received h pending) k ->
  exists h2,
    gas_sensor_read_frame (Some h) (ReadReady pending) slow w st =
    read_frame_from_sync h2 slow w st /\
    rx_invariant h2 /\ rx_content h2 = skipn k (received h pending) /\
    slow_data h2 = slow_data h /\ callback h2 = callback h.
Proof.
  intros Hinv Hfirst.
  assert (Htemp : (length (firstn TEMP_BUFFER_SIZE pending) <= TEMP_BUFFER_SIZE)%nat)
    by (rewrite length_firstn; lia).
  pose proof (append_rx_invariant h _ Hinv Htemp) as H1.
  pose proof (append_rx_content h pending Hinv) as Hc1.
  destruct (append_rx_fields h (firstn TEMP_BUFFER_SIZE pending)) as [Hsd1 Hcb1].
  unfold gas_sensor_read_frame. cbv zeta.
  set (h1 := append_rx h (firstn TEMP_BUFFER_SIZE pending)) in *.
  rewrite <- Hc1 in Hfirst |- *.
  rewrite (scan_first_sync h1 k H1 Hfirst).
  pose proof (rx_content_length h1 H1) as Hlen1.
  destruct Hfirst as (Hk & _ & _).
  destruct (Z.eqb_spec (Z.of_nat k) (-1)) as [Hneg | _]; [lia |].
  destruct (Z.gtb_spec (Z.of_nat k) 0) as [Hpos | Hzero].
  - exists (drop_front (Z.of_nat k) h1).
    split; [unfold read_frame_from_sync; cbv zeta; reflexivity |].
    split; [apply drop_front_invariant; [assumption | lia] |].
    split; [rewrite drop_front_content, Nat2Z.id; [reflexivity | assumption | lia] |].
    split; [exact Hsd1 | exact Hcb1].
  - exists h1. assert (k = 0%nat) as -> by lia.
    split; [unfold read_frame_from_sync; cbv zeta; reflexivity |]. split; [assumption |].
    split; [reflexivity |]. split; [exact Hsd1 | exact Hcb1].
Qed.

Lemma firstn_21_rx (h : gas_sensor_handle) :
  GAS_SENSOR_FRAME_SIZE <= rx_buffer_len h ->
  firstn 21 (rx_content h) = firstn 21 (rx_buffer h).
Proof.
  unfold GAS_SENSOR_FRAME_SIZE, rx_content. intros Hfull.
  rewrite firstn_firstn. f_equal. lia.
Qed.

(** The decoder on the buffer array is the decoder on the first 21
    buffered bytes. *)
Lemma parse_frame_on_rx (h : gas_sensor_handle)
    (slow : option gas_sensor_slow_data_t)
    (w : option gas_sensor_waveform_t) (st : option gas_sensor_status_t) :
  GAS_SENSOR_FRAME_SIZE <= rx_buffer_len h ->
  gas_sensor_parse_frame (Some (rx_buffer h)) slow w st =
  gas_sensor_parse_frame (Some (firstn 21 (rx_content h))) slow w st.
Proof.
  intros Hfull. rewrite firstn_21_rx by assumption.
  symmetry. apply SerialLib_parse_frame_prefix.
Qed.

End Synchronizer.

Section ReadFrame.

Import SerialLib.

(** With a non-null aggregate the decoder hands an aggregate back. *)
Lemma parse_frame_aggregate_some (b : list byte) (sd : gas_sensor_slow_data_t)
    (w : option gas_sensor_waveform_t) (st : option gas_sensor_status_t) :
  exists sd', out_slow_data (gas_sensor_parse_frame (Some b) (Some sd) w st) = Some sd'.
Proof.
  unfold gas_sensor_parse_frame.
  destruct (_ || _); [eexists; reflexivity |].
  destruct (negb _); [eexists; reflexivity |].
  cbv zeta. destruct (parse_slow_switch _ _ _); eexists; reflexivity.
Qed.

(** The call without a sync pattern among the received bytes. *)
Lemma read_frame_no_sync_eq
    (h : gas_sensor_handle) (pending : list byte)
    (slow : option gas_sensor_slow_data_t)
    (w : option gas_sensor_waveform_t) (st : option gas_sensor_status_t) :
  rx_invariant h -> no_sync (received h pending) ->
  exists h',
    gas_sensor_read_frame (Some h) (ReadReady pending) slow w st =
    mk_read_result (if Z.of_nat (length (received h pending)) <? 2
                    then GAS_SENSOR_ERR_SERIAL_READ else GAS_SENSOR_ERR_INVALID_FRAME)
                   (Some h') slow w st /\
    rx_invariant h' /\
    rx_content h' = (if Z.of_nat (length (received h pending)) <? 2
                     then received h pending else skipn 1 (received h pending)) /\
    slow_data h' = slow_data h /\ callback h' = callback h.
Proof.
  intros Hinv Hnone.
  assert (Htemp : (length (firstn TEMP_BUFFER_SIZE pending) <= TEMP_BUFFER_SIZE)%nat)
    by (rewrite length_firstn; lia).
  pose proof (append_rx_invariant h _ Hinv Htemp) as H1.
  pose proof (append_rx_content h pending Hinv) as Hc1.
  destruct (append_rx_fields h (firstn TEMP_BUFFER_SIZE pending)) as [Hsd1 Hcb1].
  unfold gas_sensor_read_frame. cbv zeta.
  set (h1 := append_rx h (firstn TEMP_BUFFER_SIZE pending)) in *.
  rewrite <- Hc1 in Hnone |- *.
  rewrite (scan_no_sync h1 H1 Hnone), Z.eqb_refl.
  rewrite (rx_content_length h1 H1).
  destruct (Z.ltb_spec (rx_buffer_len h1) 2) as [Hshort | Hlong].
  - exists h1. repeat split; try apply H1; assumption.
  - exists (drop_front 1 h1).
    split; [reflexivity |].
    split; [apply drop_front_invariant; [assumption | lia] |].
    split; [apply drop_front_content; [assumption | lia] |].
    split; assumption.
Qed.

(** The call from the completeness check on, for a buffer holding a whole
    frame: the decoder runs on the first 21 buffered bytes; the frame leaves
    the buffer on success and on a checksum error; the caller's aggregate
    is copied before the callback runs; the callback runs on success only. *)
Lemma read_frame_from_sync_full
    (h2 : gas_sensor_handle)
    (slow : option gas_sensor_slow_data_t)
    (w : option gas_sensor_waveform_t) (st : option gas_sensor_status_t) :
  rx_invariant h2 -> GAS_SENSOR_FRAME_SIZE <= rx_buffer_len h2 ->
  let pr := gas_sensor_parse_frame (Some (firstn 21 (rx_content h2)))
                                   (Some (slow_data h2)) w st in
  exists sd' h4,
    out_slow_data pr = Some sd' /\
    rx_invariant h4 /\ slow_data h4 = sd' /\ callback h4 = callback h2 /\
    rx_content h4 =
      (if (ret pr =? GAS_SENSOR_OK) || (ret pr =? GAS_SENSOR_ERR_CHECKSUM)
       then skipn 21 (rx_content h2) else rx_content h2) /\
    read_frame_from_sync h2 slow w st =
      if negb (ret pr =? GAS_SENSOR_OK)
      then mk_read_result (ret pr) (Some h4) slow (out_waveform pr) (out_status pr)
      else
        match callback h2 with
        | Some cb =>
            let r := cb sd' (out_waveform pr) (out_status pr) in
            mk_read_result (if negb (cb_ret r =? 0) then GAS_SENSOR_ERR_CALLBACK else ret pr)
                           (Some (set_slow_data (cb_slow_data r) h4))
                           (option_map (fun _ => sd') slow) (cb_waveform r) (cb_status r)
        | None =>
            mk_read_result (ret pr) (Some h4) (option_map (fun _ => sd') slow)
                           (out_waveform pr) (out_status pr)
        end.
Proof.
  intros H2 Hfull pr.
  destruct (parse_frame_aggregate_some (firstn 21 (rx_content h2)) (slow_data h2) w st)
    as [sd' Hsd']. fold pr in Hsd'.
  set (h4 := if (ret pr =? GAS_SENSOR_OK) || (ret pr =? GAS_SENSOR_ERR_CHECKSUM)
             then drop_front GAS_SENSOR_FRAME_SIZE (set_slow_data sd' h2)
             else set_slow_data sd' h2).
  exists sd', h4.
  assert (H3 : rx_invariant (set_slow_data sd' h2)) by exact H2.
  assert (Hdrop : 0 <= GAS_SENSOR_FRAME_SIZE <= rx_buffer_len (set_slow_data sd' h2))
    by (cbn [rx_buffer_len set_slow_data]; unfold GAS_SENSOR_FRAME_SIZE in *; lia).
  split; [exact Hsd' |].
  split; [unfold h4; destruct (_ || _);
          [apply drop_front_invariant; assumption | assumption] |].
  split; [unfold h4; destruct (_ || _); reflexivity |].
  split; [unfold h4; destruct (_ || _); reflexivity |].
  split; [unfold h4; destruct (_ || _);
          [rewrite drop_front_content by assumption; reflexivity | reflexivity] |].
  unfold read_frame_from_sync.
  destruct (Z.ltb_spec (rx_buffer_len h2) GAS_SENSOR_FRAME_SIZE) as [Hshort | _]; [lia |].
  rewrite (parse_frame_on_rx h2 _ w st Hfull). fold pr. cbv zeta. rewrite Hsd'. fold h4.
  destruct (negb (ret pr =? GAS_SENSOR_OK)); [reflexivity |].
  replace (callback h4) with (callback h2)
    by (unfold h4; destruct (_ || _); reflexivity).
  replace (slow_data h4) with sd'
    by (unfold h4; destruct (_ || _); reflexivity).
  destruct (callback h2) as [cb |].
  - destruct (negb (cb_ret _ =? 0)); destruct slow; reflexivity.
  - destruct slow; reflexivity.
Qed.

(** X12: without a sync pattern among the received bytes,
    [gas_sensor_read_frame] writes to none of the caller's outputs and
    leaves the aggregate of the handle alone; with fewer than two bytes it
    returns [GAS_SENSOR_ERR_SERIAL_READ] and keeps them, otherwise it
    returns [GAS_SENSOR_ERR_INVALID_FRAME] and removes exactly the first
    byte. *)
Theorem read_frame_without_sync_skips_one_byte
    (h : gas_sensor_handle) (pending : list byte)
    (slow : option gas_sensor_slow_data_t)
    (w : option gas_sensor_waveform_t) (st : option gas_sensor_status_t) :
  rx_invariant h -> no_sync (received h pending) ->
  let c := received h pending in
  let r := gas_sensor_read_frame (Some h) (ReadReady pending) slow w st in
  rr_ret r = (if Z.of_nat (length c) <? 2
              then GAS_SENSOR_ERR_SERIAL_READ else GAS_SENSOR_ERR_INVALID_FRAME) /\
  rr_slow_data r = slow /\ rr_waveform r = w /\ rr_status r = st /\
  exists h',
    rr_handle r = Some h' /\
    rx_content h' = (if Z.of_nat (length c) <? 2 then c else skipn 1 c) /\
    slow_data h' = slow_data h.
Proof.
  intros Hinv Hnone c r.
  destruct (read_frame_no_sync_eq h pending slow w st Hinv Hnone)
    as (h' & Heq & _ & Hc & Hsd & _).
  unfold r. rewrite Heq. cbn [rr_ret rr_slow_data rr_waveform rr_status rr_handle].
  repeat (split; [reflexivity |]). exists h'. auto.
Qed.

(** The theorem at three bytes of noise arriving in an empty buffer. *)
Lemma read_frame_without_sync_skips_one_byte_witness :
  let c := received fresh_handle [x01; x02; x03] in
  let r := gas_sensor_read_frame (Some fresh_handle) (ReadReady [x01; x02; x03])
                                 None None None in
  rr_ret r = (if Z.of_nat (length c) <? 2
              then GAS_SENSOR_ERR_SERIAL_READ else GAS_SENSOR_ERR_INVALID_FRAME) /\
  rr_slow_data r = None /\ rr_waveform r = None /\ rr_status r = None /\
  exists h',
    rr_handle r = Some h' /\
    rx_content h' = (if Z.of_nat (length c) <? 2 then c else skipn 1 c) /\
    slow_data h' = slow_data fresh_handle.
Proof.
  apply (read_frame_without_sync_skips_one_byte fresh_handle [x01; x02; x03]).
  - split; [reflexivity | unfold RX_BUFFER_SIZE; cbn; lia].
  - intros j Hj. cbn in Hj.
    destruct j as [| [| j]]; [reflexivity | reflexivity | lia].
Defined.

(** X13: with the first sync pattern of the received bytes at [k] and fewer
    than 21 bytes from there on, [gas_sensor_read_frame] returns
    [GAS_SENSOR_ERR_SERIAL_READ], writes to none of the caller's outputs,
    leaves the aggregate alone, and keeps exactly the bytes from [k] on:
    the bytes before the sync pattern are discarded, the partial frame
    waits for the rest. *)
Theorem read_frame_keeps_partial_frame
    (h : gas_sensor_handle) (pending : list byte) (k : nat)
    (slow : option gas_sensor_slow_data_t)
    (w : option gas_sensor_waveform_t) (st : option gas_sensor_status_t) :
  rx_invariant h -> first_sync_at (received h pending) k ->
  (length (received h pending) < k + 21)%nat ->
  let r := gas_sensor_read_frame (Some h) (ReadReady pending) slow w st in
  rr_ret r = GAS_SENSOR_ERR_SERIAL_READ /\
  rr_slow_data r = slow /\ rr_waveform r = w /\ rr_status r = st /\
  exists h',
    rr_handle r = Some h' /\
    rx_content h' = skipn k (received h pending) /\
    slow_data h' = slow_data h.
Proof.
  intros Hinv Hfirst Hshort r.
  destruct (read_frame_to_sync h pending k slow w st Hinv Hfirst)
    as (h2 & Heq & H2 & Hc2 & Hsd2 & _).
  unfold r. rewrite Heq. unfold read_frame_from_sync.
  pose proof (rx_content_length h2 H2) as Hlen2.
  rewrite Hc2, length_skipn in Hlen2.
  destruct (Z.ltb_spec (rx_buffer_len h2) GAS_SENSOR_FRAME_SIZE) as [_ | Hfull];
    [| unfold GAS_SENSOR_FRAME_SIZE in Hfull; lia].
  cbn [rr_ret rr_slow_data rr_waveform rr_status rr_handle].
  repeat (split; [reflexivity |]). exists h2. auto.
Qed.

(** The theorem at one byte of noise followed by the first four bytes of
    the frame of the example program. *)
Lemma read_frame_keeps_partial_frame_witness :
  let pending := x01 :: firstn 4 example_frame in
  let r := gas_sensor_read_frame (Some fresh_handle) (ReadReady pending) None None None in
  rr_ret r = GAS_SENSOR_ERR_SERIAL_READ /\
  rr_slow_data r = None /\ rr_waveform r = None /\ rr_status r = None /\
  exists h',
    rr_handle r = Some h' /\
    rx_content h' = skipn 1 (received fresh_handle pending) /\
    slow_data h' = slow_data fresh_handle.
Proof.
  apply (read_frame_keeps_partial_frame fresh_handle (x01 :: firstn 4 example_frame) 1).
  - split; [reflexivity | unfold RX_BUFFER_SIZE; cbn; lia].
  - split; [cbn; lia |]. split; [reflexivity |].
    intros j Hj. destruct j as [| j]; [reflexivity | lia].
  - cbn. lia.
Defined.

(** X14: with the first sync pattern of the received bytes at [k] and at
    least 21 bytes from there on, [gas_sensor_read_frame] decodes exactly
    the 21 bytes at [k] with [gas_sensor_parse_frame] into the aggregate of
    the handle. When the decode fails, or no callback is registered, the
    call returns the decoder's code, waveform and status, and the handle
    holds the decoder's aggregate; the caller's aggregate is written (with
    that of the handle) on success only. The 21 bytes leave the buffer on
    success and on a checksum error; on any other code the buffer keeps
    the bytes from [k] on. *)
Theorem read_frame_decodes_first_frame
    (h : gas_sensor_handle) (pending : list byte) (k : nat)
    (slow : option gas_sensor_slow_data_t)
    (w : option gas_sensor_waveform_t) (st : option gas_sensor_status_t) :
  rx_invariant h -> first_sync_at (received h pending) k ->
  (k + 21 <= length (received h pending))%nat ->
  let c := received h pending in
  let pr := gas_sensor_parse_frame (Some (firstn 21 (skipn k c))) (Some (slow_data h)) w st in
  let r := gas_sensor_read_frame (Some h) (ReadReady pending) slow w st in
  ret pr <> GAS_SENSOR_OK \/ callback h = None ->
  rr_ret r = ret pr /\ rr_waveform r = out_waveform pr /\ rr_status r = out_status pr /\
  rr_slow_data r =
    (if ret pr =? GAS_SENSOR_OK
     then match slow with Some _ => out_slow_data pr | None => None end
     else slow) /\
  exists h',
    rr_handle r = Some h' /\
    Some (slow_data h') = out_slow_data pr /\
    rx_content h' =
      (if (ret pr =? GAS_SENSOR_OK) || (ret pr =? GAS_SENSOR_ERR_CHECKSUM)
       then skipn (k + 21) c else skipn k c).
Proof.
  intros Hinv Hfirst Hlong c pr r Hcase.
  destruct (read_frame_to_sync h pending k slow w st Hinv Hfirst)
    as (h2 & Heq & H2 & Hc2 & Hsd2 & Hcb2).
  pose proof (rx_content_length h2 H2) as Hlen2.
  rewrite Hc2, length_skipn in Hlen2.
  assert (Hfull : GAS_SENSOR_FRAME_SIZE <= rx_buffer_len h2)
    by (unfold GAS_SENSOR_FRAME_SIZE; lia).
  destruct (read_frame_from_sync_full h2 slow w st H2 Hfull)
    as (sd' & h4 & Hsd' & _ & Hsd4 & _ & Hc4 & Hres).
  rewrite Hc2, Hsd2 in Hsd', Hres, Hc4. rewrite Hcb2 in Hres.
  fold c pr in Hsd', Hres, Hc4.
  rewrite skipn_skipn, (Nat.add_comm 21 k) in Hc4.
  unfold r. rewrite Heq, Hres. revert Hc4.
  destruct (Z.eqb_spec (ret pr) GAS_SENSOR_OK) as [Eok | Nok]; cbn [negb]; intros Hc4.
  - destruct Hcase as [Nok | Hnone]; [contradiction |]. rewrite Hnone.
    cbn [rr_ret rr_slow_data rr_waveform rr_status rr_handle].
    repeat (split; [reflexivity |]).
    split; [rewrite Hsd'; destruct slow; reflexivity |].
    exists h4. rewrite Hsd4, Hsd'. auto.
  - cbn [rr_ret rr_slow_data rr_waveform rr_status rr_handle].
    repeat (split; [reflexivity |]).
    exists h4. rewrite Hsd4, Hsd'. auto.
Qed.

(** The theorem at one byte of noise followed by the frame of the example
    program, with no callback registered. *)
Lemma read_frame_decodes_first_frame_witness :
  let pending := x01 :: example_frame in
  let c := received fresh_handle pending in
  let pr := gas_sensor_parse_frame (Some (firstn 21 (skipn 1 c)))
                                   (Some (slow_data fresh_handle)) None None in
  let r := gas_sensor_read_frame (Some fresh_handle) (ReadReady pending) None None None in
  rr_ret r = ret pr /\ rr_waveform r = out_waveform pr /\ rr_status r = out_status pr /\
  rr_slow_data r =
    (if ret pr =? GAS_SENSOR_OK
     then match @None gas_sensor_slow_data_t with
          | Some _ => out_slow_data pr
          | None => None
          end
     else None) /\
  exists h',
    rr_handle r = Some h' /\
    Some (slow_data h') = out_slow_data pr /\
    rx_content h' =
      (if (ret pr =? GAS_SENSOR_OK) || (ret pr =? GAS_SENSOR_ERR_CHECKSUM)
       then skipn (1 + 21) c else skipn 1 c).
Proof.
  apply (read_frame_decodes_first_frame fresh_handle (x01 :: example_frame) 1).
  - split; [reflexivity | unfold RX_BUFFER_SIZE; cbn; lia].
  - split; [cbn; lia |]. split; [reflexivity |].
    intros j Hj. destruct j as [| j]; [reflexivity | lia].
  - cbn. lia.
  - right. reflexivity.
Defined.



End ReadFrame.

(* ====================================================================== *)
(** ** Frames arriving in pieces *)
(* ====================================================================== *)

Section Fragments.

Import SerialLib.

Lemma idx_app_l (a b : list byte) (i : nat) :
  (i < length a)%nat -> idx (a ++ b) i = idx a i.
Proof. intros Hi. unfold idx. now rewrite app_nth1. Qed.

Lemma accepted_ret_ok (rev : revision) (b : list byte) (sd : gas_sensor_slow_data_t)
    (w : option gas_sensor_waveform_t) (st : option gas_sensor_status_t) :
  accepted b -> ret (parse_frame_of rev (Some b) (Some sd) w st) = GAS_SENSOR_OK.
Proof.
  intros (Hs & Hc & Hid). rewrite parse_frame_ret.
  apply sync_ok_dec in Hs. rewrite Hs.
  unfold checksum_ok in Hc. rewrite Hc, Z.eqb_refl.
  destruct (Z.geb_spec (idx b 2) 10); [lia | reflexivity].
Qed.

(** The received bytes when the buffered and the new bytes fit a frame. *)
Lemma received_small (h : gas_sensor_handle) (p c : list byte) :
  rx_invariant h -> rx_content h = p -> (length (p ++ c) <= 21)%nat ->
  received h c = p ++ c.
Proof.
  intros Hinv Hp Hlen. pose proof (rx_content_length h Hinv) as Hl.
  rewrite Hp in Hl. rewrite length_app in Hlen.
  unfold received, TEMP_BUFFER_SIZE, RX_BUFFER_SIZE. cbv zeta.
  rewrite firstn_all2 by lia.
  destruct (Z.gtb_spec (rx_buffer_len h + Z.of_nat (length c)) 256); [lia |].
  now rewrite Hp.
Qed.

(** A call that leaves the frame incomplete. *)
Lemma read_frame_partial (h : gas_sensor_handle) (p c q : list byte) :
  rx_invariant h -> rx_content h = p ->
  sync_ok (p ++ c ++ q) -> length (p ++ c ++ q) = 21%nat -> q <> [] ->
  exists h',
    gas_sensor_read_frame (Some h) (ReadReady c) None None None =
    mk_read_result GAS_SENSOR_ERR_SERIAL_READ (Some h') None None None /\
    rx_invariant h' /\ rx_content h' = p ++ c /\
    slow_data h' = slow_data h /\ callback h' = callback h.
Proof.
  intros Hinv Hp [Hs0 Hs1] Hlen Hq.
  assert (Hshort : (length (p ++ c) < 21)%nat).
  { rewrite app_assoc, length_app in Hlen. destruct q; [congruence | cbn in Hlen; lia]. }
  pose proof (received_small h p c Hinv Hp ltac:(lia)) as Hrec.
  rewrite app_assoc in Hs0, Hs1.
  destruct (Nat.lt_ge_cases (length (p ++ c)) 2) as [Htiny | Htwo].
  - assert (Hnone : no_sync (received h c)) by (rewrite Hrec; intros j Hj; lia).
    destruct (read_frame_no_sync_eq h c None None None Hinv Hnone)
      as (h' & Heq & H' & Hc' & Hsd' & Hcb').
    rewrite Hrec in Heq, Hc'.
    destruct (Z.ltb_spec (Z.of_nat (length (p ++ c))) 2); [| lia].
    exists h'. auto.
  - assert (Hfirst : first_sync_at (received h c) 0).
    { rewrite Hrec. split; [lia |]. split; [| intros j Hj; lia].
      unfold sync_at. rewrite <- (idx_app_l _ q 0), <- (idx_app_l _ q 1) by lia.
      now rewrite Hs0, Hs1, !Z.eqb_refl. }
    destruct (read_frame_to_sync h c 0 None None None Hinv Hfirst)
      as (h2 & Heq & H2 & Hc2 & Hsd2 & Hcb2).
    rewrite Hrec in Hc2. cbn [skipn] in Hc2.
    pose proof (rx_content_length h2 H2) as Hl2. rewrite Hc2 in Hl2.
    exists h2. rewrite Heq. unfold read_frame_from_sync.
    destruct (Z.ltb_spec (rx_buffer_len h2) GAS_SENSOR_FRAME_SIZE) as [_ | Hfull];
      [auto | unfold GAS_SENSOR_FRAME_SIZE in Hfull; lia].
Qed.

(** The call that completes the frame. *)
Lemma read_frame_completes (h : gas_sensor_handle) (p c : list byte) :
  rx_invariant h -> callback h = None -> rx_content h = p ->
  accepted (p ++ c) -> length (p ++ c) = 21%nat ->
  exists h',
    gas_sensor_read_frame (Some h) (ReadReady c) None None None =
    mk_read_result GAS_SENSOR_OK (Some h') None None None /\
    rx_invariant h' /\ rx_content h' = [] /\
    slow_data h' = aggregate_after Serial (p ++ c) (slow_data h) /\ callback h' = None.
Proof.
  intros Hinv Hcb Hp Hacc Hlen.
  pose proof (received_small h p c Hinv Hp ltac:(lia)) as Hrec.
  assert (Hfirst : first_sync_at (received h c) 0).
  { rewrite Hrec. split; [lia |]. split; [| intros j Hj; lia].
    destruct Hacc as ([Hs0 Hs1] & _). unfold sync_at.
    now rewrite Hs0, Hs1, !Z.eqb_refl. }
  destruct (read_frame_to_sync h c 0 None None None Hinv Hfirst)
    as (h2 & Heq & H2 & Hc2 & Hsd2 & Hcb2).
  rewrite Hrec in Hc2. cbn [skipn] in Hc2.
  pose proof (rx_content_length h2 H2) as Hl2. rewrite Hc2 in Hl2.
  assert (Hfull : GAS_SENSOR_FRAME_SIZE <= rx_buffer_len h2)
    by (unfold GAS_SENSOR_FRAME_SIZE; lia).
  destruct (read_frame_from_sync_full h2 None None None H2 Hfull)
    as (sd' & h4 & Hsd' & H4 & Hsd4 & Hcb4 & Hc4 & Hres).
  rewrite Hc2, Hsd2 in Hsd', Hres, Hc4. rewrite Hcb2, Hcb in Hres, Hcb4.
  rewrite (firstn_all2 (n := 21)) in Hsd', Hres, Hc4 by lia.
  destruct Hacc as (Hs & Hc & Hid).
  pose proof (accepted_ret_ok Serial (p ++ c) (slow_data h) None None
                (conj Hs (conj Hc Hid))) as Hok.
  pose proof (parse_frame_accepts Serial (p ++ c) (Some (slow_data h)) None None Hs Hc)
    as Hpr.
  cbn [parse_frame_of] in Hok, Hpr.
  rewrite Hpr in Hsd', Hres, Hc4.
  cbn [ret out_slow_data out_waveform out_status option_map] in Hsd', Hres, Hc4.
  rewrite Hok in Hres, Hc4. cbn [Z.eqb negb orb option_map] in Hres, Hc4.
  injection Hsd' as <-.
  exists h4. rewrite Heq, Hres.
  split; [reflexivity |]. split; [assumption |].
  split; [rewrite Hc4; apply skipn_all2; lia |]. split; assumption.
Qed.

Lemma last_nonempty_concat (cs : list (list byte)) :
  last cs [] <> [] -> concat cs <> [].
Proof.
  induction cs as [| c cs IH]; [intros H; now contradiction H |].
  destruct cs as [| c' cs'].
  - cbn. rewrite app_nil_r. auto.
  - intros Hl Hnil. apply app_eq_nil in Hnil as [_ Hnil]. now apply IH.
Qed.

(** The calls that receive the chunks of one frame. *)
Lemma read_chunks_frame (cs : list (list byte)) :
  forall (p : list byte) (h : gas_sensor_handle),
    rx_invariant h -> callback h = None -> rx_content h = p ->
    accepted (p ++ concat cs) -> length (p ++ concat cs) = 21%nat ->
    last cs [] <> [] ->
    exists h',
      read_chunks h cs = (expected_rets cs, h') /\
      rx_invariant h' /\ callback h' = None /\ rx_content h' = [] /\
      slow_data h' = aggregate_after Serial (p ++ concat cs) (slow_data h).
Proof.
  induction cs as [| c cs IH]; intros p h Hinv Hcb Hp Hacc Hlen Hlast;
    [now contradiction Hlast |].
  destruct cs as [| c' cs'].
  - cbn [concat] in *. rewrite app_nil_r in *.
    destruct (read_frame_completes h p c Hinv Hcb Hp Hacc Hlen)
      as (h' & Heq & H' & Hc' & Hsd' & Hcb').
    exists h'. cbn [read_chunks]. rewrite Heq. cbn [rr_handle rr_ret].
    split; [reflexivity |]. auto.
  - assert (Hq : concat (c' :: cs') <> []) by (apply last_nonempty_concat; exact Hlast).
    change (concat (c :: c' :: cs')) with (c ++ concat (c' :: cs')) in *.
    destruct (read_frame_partial h p c (concat (c' :: cs')) Hinv Hp
                (proj1 Hacc) Hlen Hq) as (h1 & Heq & H1 & Hc1 & Hsd1 & Hcb1).
    rewrite app_assoc in Hacc, Hlen.
    destruct (IH (p ++ c) h1 H1 ltac:(congruence) Hc1 Hacc Hlen Hlast)
      as (h' & Hrun & H' & Hcb' & Hc' & Hsd').
    exists h'. rewrite <- app_assoc in Hsd'.
    change (read_chunks h (c :: c' :: cs')) with
      (let r := gas_sensor_read_frame (Some h) (ReadReady c) None None None in
       let h' := match rr_handle r with Some h' => h' | None => h end in
       let (rets, hf) := read_chunks h' (c' :: cs') in (rr_ret r :: rets, hf)).
    cbv zeta. rewrite Heq. cbn [rr_handle rr_ret]. rewrite Hrun.
    split; [unfold expected_rets; cbn [length Nat.sub]; rewrite ?Nat.sub_0_r; reflexivity |].
    rewrite Hsd', Hsd1. auto.
Qed.

Lemma read_chunks_app (a b : list (list byte)) :
  forall h,
    read_chunks h (a ++ b) =
    (fst (read_chunks h a) ++ fst (read_chunks (snd (read_chunks h a)) b),
     snd (read_chunks (snd (read_chunks h a)) b)).
Proof.
  induction a as [| c a IH]; intros h.
  - cbn. now destruct (read_chunks h b).
  - cbn [app read_chunks]. cbv zeta. rewrite IH.
    destruct (read_chunks _ a) as [ra ha]. cbn [fst snd]. reflexivity.
Qed.

(** X16: frames survive fragmentation. A caller polls
    [gas_sensor_read_frame] on a handle with an empty buffer and no
    callback while a run of accepted frames (valid sync and checksum, id at
    most 9) arrives, each frame cut into any number of chunks, one chunk
    per call. Every call that leaves its frame incomplete returns
    [GAS_SENSOR_ERR_SERIAL_READ], the call that receives the last chunk of
    a frame returns [GAS_SENSOR_OK]; at the end the buffer is empty again
    and the aggregate of the handle is the one obtained by decoding the
    whole frames in order with [gas_sensor_parse_frame]. *)
Theorem fragmented_frames_are_decoded
    (css : list (list (list byte))) (h : gas_sensor_handle) :
  rx_invariant h -> callback h = None -> rx_content h = [] ->
  Forall chunked_frame css ->
  fst (read_chunks h (concat css)) = flat_map expected_rets css /\
  rx_content (snd (read_chunks h (concat css))) = [] /\
  slow_data (snd (read_chunks h (concat css))) =
  merge_frames Serial (map (@concat byte) css) (slow_data h).
Proof.
  revert h. induction css as [| cs css IH]; intros h Hinv Hcb Hempty Hall.
  - cbn. auto.
  - apply Forall_cons_iff in Hall as [(Hacc & Hlen & Hlast) Hall].
    destruct (read_chunks_frame cs [] h Hinv Hcb Hempty Hacc Hlen Hlast)
      as (h' & Hrun & H' & Hcb' & Hc' & Hsd').
    cbn [app] in Hsd'.
    destruct (IH h' H' Hcb' Hc' Hall) as (IHr & IHc & IHs).
    cbn [concat flat_map map]. rewrite read_chunks_app, Hrun. cbn [fst snd].
    rewrite IHr, IHc, IHs, Hsd'.
    split; [reflexivity |]. split; [reflexivity |].
    unfold merge_frames at 2. cbn [fold_left].
    rewrite (merge_frames_step Serial (concat cs) (slow_data h) Hacc). reflexivity.
Qed.

(** The theorem at the frame of the example program arriving in two
    pieces, followed by a reserved frame arriving whole. *)
Lemma fragmented_frames_are_decoded_witness :
  let css := [[firstn 5 example_frame; skipn 5 example_frame]; [reserved_frame]] in
  fst (read_chunks fresh_handle (concat css)) = flat_map expected_rets css /\
  rx_content (snd (read_chunks fresh_handle (concat css))) = [] /\
  slow_data (snd (read_chunks fresh_handle (concat css))) =
  merge_frames Serial (map (@concat byte) css) (slow_data fresh_handle).
Proof.
  apply (fragmented_frames_are_decoded
           [[firstn 5 example_frame; skipn 5 example_frame]; [reserved_frame]]
           fresh_handle).
  - split; [reflexivity | unfold RX_BUFFER_SIZE; cbn; lia].
  - reflexivity.
  - reflexivity.
  - repeat constructor; try (vm_compute; discriminate); discriminate.
Defined.

End Fragments.

(* ====================================================================== *)
(** ** Opening, polling and closing *)
(* ====================================================================== *)

Section Session.

Import SerialLib.

Lemma outstanding_open_close (fd : Z) :
  outstanding [OpMalloc; OpOpen fd; OpClose fd; OpFree] = (0, []).
Proof.
  unfold outstanding. cbn [fold_left resource_step fst snd remove].
  destruct (Z.eq_dec fd fd); [reflexivity | congruence].
Qed.

(** X17: a failing [gas_sensor_init] holds nothing. Whatever the port, the
    callback, the handle pointer and the answers of [malloc], [open],
    [tcgetattr] and [tcsetattr]: when the call does not return
    [GAS_SENSOR_OK] it leaves [*handle] as it was, has freed the block and
    closed the descriptor if it had obtained them, and its code is
    [GAS_SENSOR_ERR_NULL_PARAM] for a null port or handle pointer,
    otherwise [GAS_SENSOR_ERR_MEMORY] when [malloc] failed, otherwise
    [GAS_SENSOR_ERR_SERIAL_OPEN]. *)
Theorem failed_init_holds_nothing
    (port : option (list byte)) (cb : option gas_sensor_callback_t)
    (handle : option (option gas_sensor_handle)) (env : init_env) :
  let r := gas_sensor_init port cb handle env in
  init_ret r <> GAS_SENSOR_OK ->
  init_handle r = handle /\
  outstanding (init_ops r) = (0, []) /\
  init_ret r =
    match port, handle with
    | Some _, Some _ =>
        match env_malloc env with
        | None => GAS_SENSOR_ERR_MEMORY
        | Some _ => GAS_SENSOR_ERR_SERIAL_OPEN
        end
    | _, _ => GAS_SENSOR_ERR_NULL_PARAM
    end.
Proof.
  unfold gas_sensor_init.
  destruct port as [p |], handle as [old |]; cbv zeta;
    try (intros _; repeat split; reflexivity).
  destruct (env_malloc env) as [block |]; [| intros _; repeat split; reflexivity].
  destruct (env_open env <? 0); [intros _; repeat split; reflexivity |].
  destruct (negb (env_tcgetattr env =? 0));
    [intros _; cbn [init_handle init_ops init_ret];
     rewrite outstanding_open_close; repeat split; reflexivity |].
  destruct (negb (env_tcsetattr env =? 0));
    [intros _; cbn [init_handle init_ops init_ret];
     rewrite outstanding_open_close; repeat split; reflexivity |].
  cbn [init_ret]. intros H. now contradiction H.
Qed.

(** The theorem when [malloc] fails. *)
Lemma failed_init_holds_nothing_witness :
  init_handle (gas_sensor_init (Some []) None (Some None) no_memory_env) = Some None /\
  outstanding (init_ops (gas_sensor_init (Some []) None (Some None) no_memory_env)) = (0, []) /\
  init_ret (gas_sensor_init (Some []) None (Some None) no_memory_env) = GAS_SENSOR_ERR_MEMORY.
Proof.
  apply (failed_init_holds_nothing (Some []) None (Some None) no_memory_env).
  discriminate.
Defined.

Lemma append_rx_kept (h0 h : gas_sensor_handle) (temp_buffer : list byte) :
  handle_kept h0 h -> (length temp_buffer <= TEMP_BUFFER_SIZE)%nat ->
  handle_kept h0 (append_rx h temp_buffer).
Proof.
  intros (Hinv & Hfd & Hcb) Htemp.
  split; [now apply append_rx_invariant |].
  unfold append_rx. destruct (_ >? 0); split; assumption.
Qed.

Lemma drop_front_kept (h0 h : gas_sensor_handle) (k : Z) :
  handle_kept h0 h -> 0 <= k <= rx_buffer_len h -> handle_kept h0 (drop_front k h).
Proof.
  intros (Hinv & Hfd & Hcb) Hk.
  split; [now apply drop_front_invariant | split; assumption].
Qed.

Lemma set_slow_data_kept (h0 h : gas_sensor_handle) (sd : gas_sensor_slow_data_t) :
  handle_kept h0 h -> handle_kept h0 (set_slow_data sd h).
Proof. intros H. exact H. Qed.

Lemma read_frame_kept
    (h0 h : gas_sensor_handle) (io : serial_read)
    (slow : option gas_sensor_slow_data_t)
    (w : option gas_sensor_waveform_t) (st : option gas_sensor_status_t) :
  handle_kept h0 h ->
  exists h',
    rr_handle (gas_sensor_read_frame (Some h) io slow w st) = Some h' /\
    handle_kept h0 h'.
Proof.
  intros Hk. unfold gas_sensor_read_frame.
  destruct io as [| pending]; [exists h; split; [reflexivity | assumption] |].
  cbv zeta.
  assert (Htemp : (length (firstn TEMP_BUFFER_SIZE pending) <= TEMP_BUFFER_SIZE)%nat)
    by (rewrite length_firstn; lia).
  pose proof (append_rx_kept h0 h _ Hk Htemp) as H1.
  set (h1 := append_rx h (firstn TEMP_BUFFER_SIZE pending)) in *.
  pose proof (sync_scan_range (rx_buffer h1) (Z.to_nat (rx_buffer_len h1 - 1)) 0) as Hscan.
  set (fs := sync_scan (rx_buffer h1) 0 (Z.to_nat (rx_buffer_len h1 - 1))) in *.
  assert (Hfill1 : 0 <= rx_buffer_len h1) by apply H1.
  destruct (Z.eqb_spec fs (-1)) as [Hnone | Hsome].
  { destruct (Z.ltb_spec (rx_buffer_len h1) 2).
    - exists h1. split; [reflexivity | assumption].
    - exists (drop_front 1 h1). split; [reflexivity |].
      apply drop_front_kept; [assumption | lia]. }
  assert (Hfs : 0 <= fs < rx_buffer_len h1 - 1) by (destruct Hscan; lia).
  set (h2 := if fs >? 0 then drop_front fs h1 else h1).
  assert (H2 : handle_kept h0 h2)
    by (unfold h2; destruct (fs >? 0); [apply drop_front_kept; [assumption | lia] | assumption]).
  clearbody h2.
  destruct (Z.ltb_spec (rx_buffer_len h2) GAS_SENSOR_FRAME_SIZE) as [Hshort | Hfull].
  { exists h2. split; [reflexivity | assumption]. }
  set (pr := gas_sensor_parse_frame (Some (rx_buffer h2)) (Some (slow_data h2)) w st).
  set (h3 := match out_slow_data pr with Some sd => set_slow_data sd h2 | None => h2 end).
  assert (H3 : handle_kept h0 h3 /\ rx_buffer_len h3 = rx_buffer_len h2)
    by (unfold h3; destruct (out_slow_data pr); split; (assumption || reflexivity)).
  clearbody h3. destruct H3 as [H3 Heq3].
  set (h4 := if (ret pr =? GAS_SENSOR_OK) || (ret pr =? GAS_SENSOR_ERR_CHECKSUM)
             then drop_front GAS_SENSOR_FRAME_SIZE h3 else h3).
  assert (H4 : handle_kept h0 h4).
  { unfold h4. destruct (_ || _); [| assumption].
    apply drop_front_kept; [assumption | unfold GAS_SENSOR_FRAME_SIZE in *; lia]. }
  clearbody h4.
  destruct (negb (ret pr =? GAS_SENSOR_OK)).
  { exists h4. split; [reflexivity | assumption]. }
  destruct (callback h4) as [cb |].
  - destruct (negb _); eexists; (split; [reflexivity |]);
      apply set_slow_data_kept; assumption.
  - exists h4. split; [reflexivity | assumption].
Qed.

Lemma poll_kept (calls : list read_call) :
  forall h0 h, handle_kept h0 h -> handle_kept h0 (poll h calls).
Proof.
  induction calls as [| c calls IH]; intros h0 h Hk; [assumption |].
  cbn [poll].
  destruct (read_frame_kept h0 h (call_io c) (call_slow_data c) (call_waveform c)
              (call_status c) Hk) as (h' & -> & Hk').
  now apply IH.
Qed.

(** X18: a whole session keeps the handle sound and gives everything back.
    After a [gas_sensor_init] in which [malloc] returns a block (its
    receive array holding any 256 bytes), [open] a descriptor and both
    terminal calls 0, the call returns [GAS_SENSOR_OK] with an empty
    buffer; after any run of [gas_sensor_read_frame] calls on that handle
    (any port behaviour, any output pointers) the fill length is still
    within 0..256 of the 256-byte array and the descriptor and callback are
    those of the initialisation; [gas_sensor_close] then returns
    [GAS_SENSOR_OK] and, with the operations of the initialisation, leaves
    no block and no descriptor held. *)
Theorem session_keeps_handle_and_releases
    (port : list byte) (cb : option gas_sensor_callback_t)
    (old : option gas_sensor_handle) (env : init_env) (block : list byte)
    (calls : list read_call) :
  env_malloc env = Some block -> length block = 256%nat ->
  0 <= env_open env -> env_tcgetattr env = 0 -> env_tcsetattr env = 0 ->
  let r := gas_sensor_init (Some port) cb (Some old) env in
  init_ret r = GAS_SENSOR_OK /\
  exists h0,
    init_handle r = Some (Some h0) /\ rx_content h0 = [] /\
    let h := poll h0 calls in
    rx_invariant h /\ serial_fd h = env_open env /\ callback h = cb /\
    fst (gas_sensor_close (Some h)) = GAS_SENSOR_OK /\
    outstanding (init_ops r ++ snd (gas_sensor_close (Some h))) = (0, []).
Proof.
  intros Hm Hlen Hfd Hget Hset r. unfold r, gas_sensor_init.
  rewrite Hm, Hget, Hset. cbv zeta.
  destruct (Z.ltb_spec (env_open env) 0) as [Hneg | _]; [lia |].
  cbn [Z.eqb negb init_ret init_handle init_ops].
  split; [reflexivity |]. eexists. split; [reflexivity |]. split; [reflexivity |].
  cbv zeta.
  match goal with |- context [poll ?x calls] => set (h0 := x) end.
  assert (Hk0 : handle_kept h0 h0).
  { split; [| split; reflexivity].
    split; [exact Hlen | unfold RX_BUFFER_SIZE; cbn; lia]. }
  destruct (poll_kept calls h0 h0 Hk0) as (Hinv & Hfdk & Hcbk).
  split; [exact Hinv |]. split; [exact Hfdk |]. split; [exact Hcbk |].
  split; [reflexivity |].
  unfold gas_sensor_close. cbn [snd]. rewrite Hfdk. cbn [serial_fd h0].
  destruct (Z.geb_spec (env_open env) 0) as [_ | Hneg]; [| lia].
  unfold outstanding. cbn [app fold_left resource_step fst snd remove].
  destruct (Z.eq_dec (env_open env) (env_open env)); [reflexivity | congruence].
Qed.

(** The theorem for a session of two calls: the frame of the example
    program arrives, then the port fails. *)
Lemma session_keeps_handle_and_releases_witness :
  let calls := [mk_read_call (ReadReady example_frame) None None None;
                mk_read_call ReadError None None None] in
  let r := gas_sensor_init (Some []) None (Some None) good_env in
  init_ret r = GAS_SENSOR_OK /\
  exists h0,
    init_handle r = Some (Some h0) /\ rx_content h0 = [] /\
    let h := poll h0 calls in
    rx_invariant h /\ serial_fd h = env_open good_env /\ callback h = None /\
    fst (gas_sensor_close (Some h)) = GAS_SENSOR_OK /\
    outstanding (init_ops r ++ snd (gas_sensor_close (Some h))) = (0, []).
Proof.
  apply (session_keeps_handle_and_releases [] None None good_env (repeat xff 256)).
  - reflexivity.
  - reflexivity.
  - cbn. lia.
  - reflexivity.
  - reflexivity.
Defined.

End Session.

(* ====================================================================== *)
(** ** The register, configuration and service frames *)
(* ====================================================================== *)

(** The mask tests of the decoders are the bits of the byte. *)
Lemma bit_set_bits (c : byte) :
  map (bit_set (u8 c)) [0x01; 0x02; 0x04; 0x08; 0x10; 0x20; 0x40; 0x80] =
  low_bits (u8 c) 8.
Proof. destruct c; reflexivity. Qed.

Lemma bit_set_low (l : list byte) (i n : nat) :
  (n <= 8)%nat ->
  map (bit_set (idx l i)) (firstn n [0x01; 0x02; 0x04; 0x08; 0x10; 0x20; 0x40; 0x80]) =
  low_bits (idx l i) n.
Proof.
  intros Hn. unfold idx. rewrite <- firstn_map, bit_set_bits.
  unfold low_bits. rewrite firstn_map. f_equal.
  do 9 (destruct n as [| n]; [reflexivity |]). lia.
Qed.

Lemma land_7_mod (c : byte) : Z.land (u8 c) 0x07 = u8 c mod 8.
Proof. destruct c; reflexivity. Qed.

Lemma shift_mask_half (c : byte) :
  to_u8 (Z.land (Z.shiftr (u8 c) 1) 0x7F) = u8 c / 2.
Proof. destruct c; reflexivity. Qed.

(** The aggregate an accepted frame leaves, for a frame id with a slot. *)
Lemma accepted_frame_aggregate (rev : revision) (b : list byte)
    (sd : gas_sensor_slow_data_t)
    (w : option gas_sensor_waveform_t) (st : option gas_sensor_status_t) :
  sync_ok b -> checksum_ok b ->
  out_slow_data (parse_frame_of rev (Some b) (Some sd) w st) =
  Some (aggregate_after rev b sd).
Proof.
  intros Hs Hc. now rewrite (parse_frame_accepts rev b (Some sd) w st Hs Hc).
Qed.

(** X19: the layout of a sensor-register frame (id 4), by revision. For a
    frame with valid sync and checksum and a non-null aggregate, the
    parsing library takes the mode from byte 13 unmasked and the error,
    adapter and data-valid flags from the low bits of the bytes 14, 15 and
    16; the serial revision takes the mode from the low three bits of byte
    14, skips byte 15, and takes the flags from the bytes 16, 17 and 18. *)
Theorem sensor_regs_frame_layout
    (rev : revision) (b : list byte) (sd : gas_sensor_slow_data_t)
    (w : option gas_sensor_waveform_t) (st : option gas_sensor_status_t) :
  sync_ok b -> checksum_ok b -> idx b 2 = 4 ->
  exists sd',
    out_slow_data (parse_frame_of rev (Some b) (Some sd) w st) = Some sd' /\
    let r := sensor_regs sd' in
    match rev with
    | Parser =>
        mode r = idx b 13 /\
        error_flags (error r) = low_bits (idx b 14) 4 /\
        adapter_flags (adapter r) = low_bits (idx b 15) 3 /\
        data_valid_flags (data_valid r) = low_bits (idx b 16) 7
    | Serial =>
        mode r = idx b 14 mod 8 /\
        error_flags (error r) = low_bits (idx b 16) 4 /\
        adapter_flags (adapter r) = low_bits (idx b 17) 3 /\
        data_valid_flags (data_valid r) = low_bits (idx b 18) 7
    end.
Proof.
  intros Hs Hc Hid. eexists. split; [apply accepted_frame_aggregate; assumption |].
  unfold aggregate_after. rewrite Hid. cbv zeta.
  destruct rev; cbn [Z.geb Z.compare GAS_SENSOR_FRAME_ID_MAX
                     ParseLib.parse_slow_switch SerialLib.parse_slow_switch].
  - unfold ParseLib.parse_sensor_regs. cbv zeta.
    cbn [sensor_regs set_sensor_regs set_last_frame_id mode error adapter data_valid
         error_flags adapter_flags data_valid_flags sw_error hw_error motor_fail
         uncalibrated replace_adapter no_adapter o2_clogged co2_out_of_range
         n2o_out_of_range agent_out_of_range o2_out_of_range temp_out_of_range
         pressure_out_of_range zero_calibration_required].
    rewrite !idx_at_offset. cbn [Nat.add].
    split; [reflexivity |].
    split; [apply (bit_set_low b 14 4); lia |].
    split; [apply (bit_set_low b 15 3); lia | apply (bit_set_low b 16 7); lia].
  - unfold SerialLib.parse_sensor_regs.
    cbn [sensor_regs set_sensor_regs set_last_frame_id mode error adapter data_valid
         error_flags adapter_flags data_valid_flags sw_error hw_error motor_fail
         uncalibrated replace_adapter no_adapter o2_clogged co2_out_of_range
         n2o_out_of_range agent_out_of_range o2_out_of_range temp_out_of_range
         pressure_out_of_range zero_calibration_required].
    rewrite !idx_at_offset. cbn [Nat.add].
    split; [unfold idx; apply land_7_mod |].
    split; [apply (bit_set_low b 16 4); lia |].
    split; [apply (bit_set_low b 17 3); lia | apply (bit_set_low b 18 7); lia].
Qed.

(** The theorem at a register frame with an all-zero payload. *)
Lemma sensor_regs_frame_layout_witness :
  exists sd',
    out_slow_data (parse_frame_of Serial (Some regs_frame) (Some slow_data_zero) None None)
    = Some sd' /\
    let r := sensor_regs sd' in
    mode r = idx regs_frame 14 mod 8 /\
    error_flags (error r) = low_bits (idx regs_frame 16) 4 /\
    adapter_flags (adapter r) = low_bits (idx regs_frame 17) 3 /\
    data_valid_flags (data_valid r) = low_bits (idx regs_frame 18) 7.
Proof.
  apply (sensor_regs_frame_layout Serial regs_frame slow_data_zero None None).
  - split; reflexivity.
  - reflexivity.
  - reflexivity.
Defined.

(** X20: the layout of a configuration frame (id 5), by revision. For a
    frame with valid sync and checksum and a non-null aggregate, the
    parsing library takes the eight fitted flags from the bits of byte 13,
    the hardware revision from the bytes 15-16 and the software revision
    from the bytes 17-18 (big-endian), and always reports [id_config] false
    and protocol revision 0; the serial revision takes the flags from byte
    14, the hardware revision from byte 15 alone, the software revision
    from the bytes 16-17, and splits byte 19 into [id_config] (bit 0) and
    the protocol revision (the remaining seven bits), so that byte 19 is
    twice the protocol revision plus the flag. *)
Theorem config_frame_layout
    (rev : revision) (b : list byte) (sd : gas_sensor_slow_data_t)
    (w : option gas_sensor_waveform_t) (st : option gas_sensor_status_t) :
  sync_ok b -> checksum_ok b -> idx b 2 = 5 ->
  exists sd',
    out_slow_data (parse_frame_of rev (Some b) (Some sd) w st) = Some sd' /\
    let c := config_data sd' in
    match rev with
    | Parser =>
        fitted_flags c = low_bits (idx b 13) 8 /\
        hw_revision c = 256 * idx b 15 + idx b 16 /\
        sw_revision c = 256 * idx b 17 + idx b 18 /\
        id_config c = false /\ comm_protocol_rev c = 0
    | Serial =>
        fitted_flags c = low_bits (idx b 14) 8 /\
        hw_revision c = idx b 15 /\
        sw_revision c = 256 * idx b 16 + idx b 17 /\
        idx b 19 = 2 * comm_protocol_rev c + Z.b2z (id_config c) /\
        0 <= comm_protocol_rev c <= 127
    end.
Proof.
  intros Hs Hc Hid. eexists. split; [apply accepted_frame_aggregate; assumption |].
  unfold aggregate_after. rewrite Hid. cbv zeta.
  destruct rev; cbn [Z.geb Z.compare GAS_SENSOR_FRAME_ID_MAX
                     ParseLib.parse_slow_switch SerialLib.parse_slow_switch].
  - unfold ParseLib.parse_config_data. cbv zeta.
    cbn [config_data set_config_data set_last_frame_id fitted_flags
         o2_fitted co2_fitted n2o_fitted halothane_fitted enflurane_fitted
         isoflurane_fitted sevoflurane_fitted desflurane_fitted
         hw_revision sw_revision id_config comm_protocol_rev].
    rewrite !ParseLib_uint16_be_at, !idx_at_offset. cbn [Nat.add].
    split; [apply (bit_set_low b 13 8); lia |].
    repeat split; reflexivity.
  - unfold SerialLib.parse_config_data.
    cbn [config_data set_config_data set_last_frame_id fitted_flags
         o2_fitted co2_fitted n2o_fitted halothane_fitted enflurane_fitted
         isoflurane_fitted sevoflurane_fitted desflurane_fitted
         hw_revision sw_revision id_config comm_protocol_rev].
    rewrite !SerialLib_uint16_be_at, !idx_at_offset. cbn [Nat.add].
    split; [apply (bit_set_low b 14 8); lia |].
    split; [reflexivity |]. split; [reflexivity |].
    unfold idx. generalize (nth 19 b x00). intros c.
    rewrite shift_mask_half. pose proof (u8_range c) as Hr.
    split; [destruct c; reflexivity |].
    clear - Hr. Z.div_mod_to_equations. lia.
Qed.

(** The theorem at a configuration frame with an all-zero payload. *)
Lemma config_frame_layout_witness :
  exists sd',
    out_slow_data (parse_frame_of Serial (Some config_frame) (Some slow_data_zero) None None)
    = Some sd' /\
    let c := config_data sd' in
    fitted_flags c = low_bits (idx config_frame 14) 8 /\
    hw_revision c = idx config_frame 15 /\
    sw_revision c = 256 * idx config_frame 16 + idx config_frame 17 /\
    idx config_frame 19 = 2 * comm_protocol_rev c + Z.b2z (id_config c) /\
    0 <= comm_protocol_rev c <= 127.
Proof.
  apply (config_frame_layout Serial config_frame slow_data_zero None None).
  - split; reflexivity.
  - reflexivity.
  - reflexivity.
Defined.

(** X21: the layout of a service frame (id 6), by revision. For a frame
    with valid sync and checksum and a non-null aggregate, the parsing
    library takes the serial number from the bytes 13-14 (big-endian) and
    the four service flags from the low bits of byte 15; the serial
    revision takes them from the bytes 14-15 and from byte 16. *)
Theorem service_frame_layout
    (rev : revision) (b : list byte) (sd : gas_sensor_slow_data_t)
    (w : option gas_sensor_waveform_t) (st : option gas_sensor_status_t) :
  sync_ok b -> checksum_ok b -> idx b 2 = 6 ->
  exists sd',
    out_slow_data (parse_frame_of rev (Some b) (Some sd) w st) = Some sd' /\
    let s := service_data sd' in
    match rev with
    | Parser =>
        serial_number s = 256 * idx b 13 + idx b 14 /\
        service_flags (status s) = low_bits (idx b 15) 4
    | Serial =>
        serial_number s = 256 * idx b 14 + idx b 15 /\
        service_flags (status s) = low_bits (idx b 16) 4
    end.
Proof.
  intros Hs Hc Hid. eexists. split; [apply accepted_frame_aggregate; assumption |].
  unfold aggregate_after. rewrite Hid. cbv zeta.
  destruct rev; cbn [Z.geb Z.compare GAS_SENSOR_FRAME_ID_MAX
                     ParseLib.parse_slow_switch SerialLib.parse_slow_switch].
  - unfold ParseLib.parse_service_data. cbv zeta.
    cbn [service_data set_service_data set_last_frame_id serial_number status
         service_flags zero_disabled zero_in_progress span_calibration_error
         span_calibration_in_progress].
    rewrite !ParseLib_uint16_be_at, !idx_at_offset. cbn [Nat.add].
    split; [reflexivity | apply (bit_set_low b 15 4); lia].
  - unfold SerialLib.parse_service_data.
    cbn [service_data set_service_data set_last_frame_id serial_number status
         service_flags zero_disabled zero_in_progress span_calibration_error
         span_calibration_in_progress].
    rewrite <- (at_offset_add b 14 0) at 1.
    rewrite !SerialLib_uint16_be_at, !idx_at_offset. cbn [Nat.add].
    split; [reflexivity | apply (bit_set_low b 16 4); lia].
Qed.

(** The theorem at a service frame with an all-zero payload. *)
Lemma service_frame_layout_witness :
  exists sd',
    out_slow_data (parse_frame_of Parser (Some service_frame) (Some slow_data_zero) None None)
    = Some sd' /\
    let s := service_data sd' in
    serial_number s = 256 * idx service_frame 13 + idx service_frame 14 /\
    service_flags (status s) = low_bits (idx service_frame 15) 4.
Proof.
  apply (service_frame_layout Parser service_frame slow_data_zero None None).
  - split; reflexivity.
  - reflexivity.
  - reflexivity.
Defined.

(* ====================================================================== *)
(** ** Overflow of the receive buffer *)
(* ====================================================================== *)

(** X22: when the bytes read do not fit behind the buffered ones (their
    number plus the fill length exceeds 256), [gas_sensor_read_frame]
    forgets everything buffered so far, a partial frame included: the call
    gives the same result and leaves the same handle as on a handle whose
    fill length is 0. *)
Theorem overflow_discards_buffered_bytes
    (h : SerialLib.gas_sensor_handle) (pending : list byte)
    (slow : option gas_sensor_slow_data_t)
    (w : option gas_sensor_waveform_t) (st : option gas_sensor_status_t) :
  SerialLib.rx_buffer_len h <= SerialLib.RX_BUFFER_SIZE ->
  SerialLib.rx_buffer_len h
    + Z.of_nat (length (firstn SerialLib.TEMP_BUFFER_SIZE pending))
    > SerialLib.RX_BUFFER_SIZE ->
  SerialLib.gas_sensor_read_frame (Some h) (SerialLib.ReadReady pending) slow w st =
  SerialLib.gas_sensor_read_frame
    (Some (SerialLib.set_rx (SerialLib.rx_buffer h) 0 h))
    (SerialLib.ReadReady pending) slow w st.
Proof.
  intros Hfill Hover.
  assert (Hnew : (length (firstn SerialLib.TEMP_BUFFER_SIZE pending) <= 128)%nat)
    by (unfold SerialLib.TEMP_BUFFER_SIZE; rewrite length_firstn; lia).
  assert (Happ : SerialLib.append_rx h (firstn SerialLib.TEMP_BUFFER_SIZE pending) =
                 SerialLib.append_rx (SerialLib.set_rx (SerialLib.rx_buffer h) 0 h)
                                     (firstn SerialLib.TEMP_BUFFER_SIZE pending)).
  { unfold SerialLib.append_rx, SerialLib.RX_BUFFER_SIZE in *.
    cbn [SerialLib.rx_buffer_len SerialLib.rx_buffer SerialLib.set_rx].
    destruct (Z.gtb_spec (Z.of_nat (length (firstn SerialLib.TEMP_BUFFER_SIZE pending))) 0);
      [| lia].
    destruct (Z.gtb_spec (SerialLib.rx_buffer_len h
                          + Z.of_nat (length (firstn SerialLib.TEMP_BUFFER_SIZE pending))) 256);
      [| lia].
    destruct (Z.gtb_spec (0 + Z.of_nat (length (firstn SerialLib.TEMP_BUFFER_SIZE pending)))
                         256); [lia |].
    reflexivity. }
  unfold SerialLib.gas_sensor_read_frame. cbv zeta. rewrite <- Happ. reflexivity.
Qed.

(** The theorem at 100 bytes arriving behind 200 buffered ones. *)
Lemma overflow_discards_buffered_bytes_witness :
  SerialLib.gas_sensor_read_frame (Some filled_handle)
    (SerialLib.ReadReady (repeat x00 100)) None None None =
  SerialLib.gas_sensor_read_frame
    (Some (SerialLib.set_rx (SerialLib.rx_buffer filled_handle) 0 filled_handle))
    (SerialLib.ReadReady (repeat x00 100)) None None None.
Proof.
  apply (overflow_discards_buffered_bytes filled_handle (repeat x00 100)).
  - unfold SerialLib.RX_BUFFER_SIZE. cbn. lia.
  - unfold SerialLib.RX_BUFFER_SIZE. cbn. lia.
Defined.

(* ====================================================================== *)
(** ** The concentration frames *)
(* ====================================================================== *)

(** X23: the layout of the concentration frames (ids 0, 1 and 2), by
    revision. For a frame with valid sync and checksum and a non-null
    aggregate, the five concentrations CO2, N2O, AA1, AA2, O2 of the
    selected slot (inspiration, expiration, momentary) are
    [gas_sensor_parse_concentration] of five consecutive frame bytes: the
    bytes 13..17 in the parsing library, the bytes 14..18 in the serial
    revision. *)
Theorem concentration_frame_layout
    (rev : revision) (b : list byte) (sd : gas_sensor_slow_data_t)
    (w : option gas_sensor_waveform_t) (st : option gas_sensor_status_t) :
  sync_ok b -> checksum_ok b -> 0 <= idx b 2 <= 2 ->
  exists sd',
    out_slow_data (parse_frame_of rev (Some b) (Some sd) w st) = Some sd' /\
    slot_concentrations sd' (idx b 2) =
    map (fun i => parse_concentration_of rev (idx b i)) (seq (payload_start rev) 5).
Proof.
  intros Hs Hc Hid. eexists. split; [apply accepted_frame_aggregate; assumption |].
  unfold aggregate_after.
  assert (Hk : idx b 2 = 0 \/ idx b 2 = 1 \/ idx b 2 = 2) by lia.
  destruct Hk as [E | [E | E]]; rewrite E; cbv zeta;
    destruct rev;
    cbn [Z.geb Z.compare GAS_SENSOR_FRAME_ID_MAX
         ParseLib.parse_slow_switch SerialLib.parse_slow_switch
         slot_concentrations payload_start seq map parse_concentration_of];
    unfold ParseLib.parse_insp_vals, ParseLib.parse_exp_vals, ParseLib.parse_mom_vals,
      SerialLib.parse_insp_vals, SerialLib.parse_exp_vals, SerialLib.parse_mom_vals,
      ParseLib.gas_sensor_parse_concentration, SerialLib.gas_sensor_parse_concentration;
    cbn [insp_vals exp_vals mom_vals set_insp_vals set_exp_vals set_mom_vals
         set_last_frame_id
         insp_co2 insp_n2o insp_aa1 insp_aa2 insp_o2
         exp_co2 exp_n2o exp_aa1 exp_aa2 exp_o2
         mom_co2 mom_n2o mom_aa1 mom_aa2 mom_o2];
    rewrite !idx_at_offset; reflexivity.
Qed.

(** The theorem at an expiration frame with an all-zero payload. *)
Lemma concentration_frame_layout_witness :
  exists sd',
    out_slow_data (parse_frame_of Parser (Some exp_frame) (Some slow_data_zero) None None)
    = Some sd' /\
    slot_concentrations sd' (idx exp_frame 2) =
    map (fun i => parse_concentration_of Parser (idx exp_frame i)) (seq (payload_start Parser) 5).
Proof.
  apply (concentration_frame_layout Parser exp_frame slow_data_zero None None).
  - split; reflexivity.
  - reflexivity.
  - vm_compute. split; discriminate.
Defined.
